(** * Hedge_trimmer: the opportunity-detection core of [main_hedge_analysis.py]

    A shallow embedding of [AFLOpportunityFinder] and the properties of its
    arbitrage detector, fair-odds estimator, value-bet detector and ranker.

    Numbers.  The detectors are embedded twice.  First with Python floats
    as exact rationals ([Q], compared with [==]): a statement about these
    definitions is about the arithmetic the code writes down, and the
    decimal constants of the source ([1.05], [0.25], [0.05], [0.1]) are the
    rationals they denote.  Then, in module [B64], with binary64 floats,
    every operation rounded as CPython rounds it: what the program decides
    at a threshold, and whether two computed values are equal, is stated
    about these definitions.

    Errors.  A subscript on a missing key raises [KeyError] and a float
    division by zero raises [ZeroDivisionError]; both abort the run, since
    the detectors contain no [try].  They are modelled by the [result]
    monad.  [print] calls are modelled only by the evaluation of their
    arguments, which is where they could raise. *)

From Stdlib Require Import QArith Qround Qabs Lqa Lia ZArith List String Permutation Sorted.
From Stdlib Require Import Uint63 Floats.
From stdpp Require Import base option gmap strings list fin_maps.

Local Open Scope string_scope.
Local Open Scope list_scope.

(** ** Python primitives *)

Inductive exn : Type :=
| KeyError (key : string)
| ZeroDivisionError.

Inductive result (A : Type) : Type :=
| Ok (a : A)
| Raise (e : exn).
Arguments Ok {A} a.
Arguments Raise {A} e.

Global Instance result_ret : MRet result := fun A a => Ok a.
Global Instance result_bind : MBind result := fun A B f c =>
  match c with
  | Ok a => f a
  | Raise e => Raise e
  end.

(** [x / y] on floats. *)
Definition py_div (x y : Q) : result Q :=
  if Qeq_bool y 0 then Raise ZeroDivisionError else Ok (x / y)%Q.

(** [d[key]] on a dict read from JSON: the field is absent or present. *)
Definition getitem {A : Type} (key : string) (field : option A) : result A :=
  match field with
  | Some v => Ok v
  | None => Raise (KeyError key)
  end.

(** [x > y] and [x >= y]. *)
Definition Qgtb (x y : Q) : bool := negb (Qle_bool x y).
Definition Qgeb (x y : Q) : bool := Qle_bool y x.

(** [min(a, b)] and [min(a, b, c)]: the first smallest argument. *)
Definition py_min (a b : Q) : Q := if Qgtb a b then b else a.
Definition py_min3 (a b c : Q) : Q := py_min (py_min a b) c.

(** [round(x)] to the nearest integer, ties to the even one. *)
Definition round_half_even (x : Q) : Z :=
  let n := Qnum x in
  let d := Zpos (Qden x) in
  let q := (n / d)%Z in
  match (2 * (n mod d) ?= d)%Z with
  | Lt => q
  | Gt => (q + 1)%Z
  | Eq => if Z.even q then q else (q + 1)%Z
  end.

(** [round(x, 2)]. *)
Definition py_round2 (x : Q) : Q := (inject_Z (round_half_even (x * 100)) / 100)%Q.

(** [sum(l)] and [len(l)]. *)
Definition py_sum (l : list Q) : Q := fold_left Qplus l 0%Q.
Definition py_len {A : Type} (l : list A) : Q := inject_Z (Z.of_nat (length l)).

(** ** Data model *)

(** One bookmaker's entry of [match['odds']]: [{'home': .., 'away': ..}]. *)
Record Quote : Type := mkQuote {
  home : option Q;
  away : option Q
}.

(** The [odds] dict in iteration (insertion) order. *)
Abbreviation OddsDict := (list (string * Quote)).

(** One element of [matches]. *)
Record Match : Type := mkMatch {
  m_home_team : option string;
  m_away_team : option string;
  m_match_time : option string;
  m_odds : option OddsDict
}.

Inductive OpportunityType : Type := arbitrage | value_bet.

(** One value of [stake_distribution]. *)
Record StakeEntry : Type := mkStake {
  team : string;
  amount : Q;
  odds : Q;
  potential_return : Q
}.

(** Keys of [stake_distribution]: a bookmaker name, or Python's [None]
    (the initial value of [best_home_book]). *)
Abbreviation BookKey := (option string).

Record BettingOpportunity : Type := mkOpp {
  match_ : string;
  home_team : string;
  away_team : string;
  opportunity_type : OpportunityType;
  profit_percentage : Q;
  stake_distribution : gmap BookKey StakeEntry;
  total_stake : Q;
  guaranteed_profit : Q;
  roi : Q
}.

(** The attributes set by [__init__]. *)
Record AFLOpportunityFinder : Type := mkFinder {
  bankroll : Q;
  min_profit_percentage : Q;
  max_stake_percentage : Q;
  max_stake_per_opportunity : Q
}.

Definition __init__ (bankroll min_profit_percentage max_stake_percentage : Q)
  : AFLOpportunityFinder :=
  {| bankroll := bankroll;
     min_profit_percentage := min_profit_percentage;
     max_stake_percentage := max_stake_percentage;
     max_stake_per_opportunity := (bankroll * (max_stake_percentage / 100))%Q |}.

(** ** Fair-odds estimator *)

(** The body of the loop of [_calculate_fair_probabilities]: the pair it
    appends to [home_probs] and [away_probs], if any.  [and] is
    short-circuit, so [odds['away']] is read only when [odds['home'] > 0]. *)
Definition demargin (odds : Quote) : result (option (Q * Q)) :=
  h ← getitem "home" (home odds);
  valid ← (if Qgtb h 0
           then a ← getitem "away" (away odds); mret (Qgtb a 0)
           else mret false);
  if (valid : bool) then
    h ← getitem "home" (home odds);
    home_prob ← py_div 1 h;
    a ← getitem "away" (away odds);
    away_prob ← py_div 1 a;
    let total_prob := (home_prob + away_prob)%Q in
    hn ← py_div home_prob total_prob;
    an ← py_div away_prob total_prob;
    mret (Some (hn, an))
  else mret None.

Fixpoint fair_loop (items : OddsDict) (home_probs away_probs : list Q)
  : result (list Q * list Q) :=
  match items with
  | [] => Ok (home_probs, away_probs)
  | (bookmaker, odds) :: items =>
      appended ← demargin odds;
      match appended with
      | Some (hn, an) => fair_loop items (home_probs ++ [hn]) (away_probs ++ [an])
      | None => fair_loop items home_probs away_probs
      end
  end.

Definition _calculate_fair_probabilities (bookmaker_odds : OddsDict)
  : result (Q * Q) :=
  '(home_probs, away_probs) ← fair_loop bookmaker_odds [] [];
  match home_probs with
  | [] => Ok (0%Q, 0%Q)
  | _ =>
      avg_home_prob ← py_div (py_sum home_probs) (py_len home_probs);
      avg_away_prob ← py_div (py_sum away_probs) (py_len away_probs);
      mret (avg_home_prob, avg_away_prob)
  end.

(** ** Arbitrage detector *)

(** The local variables of [_calculate_arbitrage] once arbitrage exists,
    in the order they are assigned. *)
Record ArbitrageLocals : Type := mkArb {
  a_home_prob : Q;
  a_away_prob : Q;
  a_total_prob : Q;
  a_profit_percentage : Q;
  a_total_stake : Q;
  a_home_stake : Q;
  a_away_stake : Q;
  a_home_return : Q;
  a_away_return : Q;
  a_guaranteed_profit : Q;
  a_roi : Q
}.

(** [_calculate_arbitrage] up to the assignment of [roi]; [None] is the
    early [return None]. *)
Definition arbitrage_locals (self : AFLOpportunityFinder) (home_odds away_odds : Q)
  : result (option ArbitrageLocals) :=
  home_prob ← py_div 1 home_odds;
  away_prob ← py_div 1 away_odds;
  let total_prob := (home_prob + away_prob)%Q in
  if Qgeb total_prob 1.0 then Ok None
  else
    inv_total ← py_div 1 total_prob;
    let profit_percentage := ((inv_total - 1) * 100)%Q in
    let total_stake := py_min (max_stake_per_opportunity self) (bankroll self * 0.1)%Q in
    home_share ← py_div home_prob total_prob;
    let home_stake := (home_share * total_stake)%Q in
    away_share ← py_div away_prob total_prob;
    let away_stake := (away_share * total_stake)%Q in
    let home_return := (home_stake * home_odds)%Q in
    let away_return := (away_stake * away_odds)%Q in
    let guaranteed_profit := (py_min home_return away_return - total_stake)%Q in
    profit_per_stake ← py_div guaranteed_profit total_stake;
    let roi := (profit_per_stake * 100)%Q in
    Ok (Some (mkArb home_prob away_prob total_prob profit_percentage total_stake
                    home_stake away_stake home_return away_return
                    guaranteed_profit roi)).

(** The dict literal [{home_book: {..}, away_book: {..}}]: the second key
    is inserted after the first and replaces it when both are equal. *)
Definition arbitrage_stake_distribution (l : ArbitrageLocals) (home_odds away_odds : Q)
    (home_book away_book : BookKey) (home_team away_team : string)
  : gmap BookKey StakeEntry :=
  <[ away_book := {| team := away_team;
                     amount := py_round2 (a_away_stake l);
                     odds := away_odds;
                     potential_return := py_round2 (a_away_return l) |} ]>
  (<[ home_book := {| team := home_team;
                      amount := py_round2 (a_home_stake l);
                      odds := home_odds;
                      potential_return := py_round2 (a_home_return l) |} ]> ∅).

Definition _calculate_arbitrage (self : AFLOpportunityFinder) (home_odds away_odds : Q)
    (home_book away_book : BookKey) (home_team away_team match_name : string)
  : result (option BettingOpportunity) :=
  locals ← arbitrage_locals self home_odds away_odds;
  match locals with
  | None => Ok None
  | Some l =>
      Ok (Some {| match_ := match_name;
                  home_team := home_team;
                  away_team := away_team;
                  opportunity_type := arbitrage;
                  profit_percentage := a_profit_percentage l;
                  stake_distribution :=
                    arbitrage_stake_distribution l home_odds away_odds
                      home_book away_book home_team away_team;
                  total_stake := py_round2 (a_total_stake l);
                  guaranteed_profit := py_round2 (a_guaranteed_profit l);
                  roi := a_roi l |})
  end.

Definition _get_arbitrage_percentage (home_odds away_odds : Q) : result Q :=
  if Qle_bool home_odds 0 || Qle_bool away_odds 0 then Ok (-100)%Q
  else
    home_prob ← py_div 1 home_odds;
    away_prob ← py_div 1 away_odds;
    let total_prob := (home_prob + away_prob)%Q in
    inv_total ← py_div 1 total_prob;
    mret ((inv_total - 1) * 100)%Q.

(** The four [best_*] variables of the inner loop. *)
Record BestOdds : Type := mkBest {
  best_home_odds : Q;
  best_away_odds : Q;
  best_home_book : BookKey;
  best_away_book : BookKey
}.

Definition best_init : BestOdds := mkBest 0 0 None None.

Definition best_step (b : BestOdds) (bookmaker : string) (odds : Quote)
  : result BestOdds :=
  h ← getitem "home" (home odds);
  let b1 := if Qgtb h (best_home_odds b)
            then mkBest h (best_away_odds b) (Some bookmaker) (best_away_book b)
            else b in
  a ← getitem "away" (away odds);
  mret (if Qgtb a (best_away_odds b1)
        then mkBest (best_home_odds b1) a (best_home_book b1) (Some bookmaker)
        else b1).

Fixpoint best_loop (items : OddsDict) (b : BestOdds) : result BestOdds :=
  match items with
  | [] => Ok b
  | (bookmaker, odds) :: items => b' ← best_step b bookmaker odds; best_loop items b'
  end.

(** The body of the [for match in matches] loop of
    [calculate_arbitrage_opportunities]: the opportunities it appends. *)
Definition arbitrage_for_match (self : AFLOpportunityFinder) (m : Match)
  : result (list BettingOpportunity) :=
  home_team ← getitem "home_team" (m_home_team m);
  away_team ← getitem "away_team" (m_away_team m);
  let match_name := home_team +:+ " vs " +:+ away_team in
  items ← getitem "odds" (m_odds m);
  b ← best_loop items best_init;
  if Qgtb (best_home_odds b) 0 && Qgtb (best_away_odds b) 0 then
    arbitrage_calc ← _calculate_arbitrage self (best_home_odds b) (best_away_odds b)
                       (best_home_book b) (best_away_book b)
                       home_team away_team match_name;
    match arbitrage_calc with
    | Some opp =>
        if Qgeb (profit_percentage opp) (min_profit_percentage self)
        then Ok [opp]
        else _ ← _get_arbitrage_percentage (best_home_odds b) (best_away_odds b); Ok []
    | None =>
        _ ← _get_arbitrage_percentage (best_home_odds b) (best_away_odds b); Ok []
    end
  else Ok [].

Fixpoint arbitrage_loop (self : AFLOpportunityFinder) (matches : list Match)
    (opportunities : list BettingOpportunity) : result (list BettingOpportunity) :=
  match matches with
  | [] => Ok opportunities
  | m :: matches =>
      new ← arbitrage_for_match self m;
      arbitrage_loop self matches (opportunities ++ new)
  end.

Definition calculate_arbitrage_opportunities (self : AFLOpportunityFinder)
    (matches : list Match) : result (list BettingOpportunity) :=
  arbitrage_loop self matches [].

(** ** Value-bet detector *)

(** The local variables of [_create_value_bet]. *)
Record ValueBetLocals : Type := mkVal {
  v_edge : Q;
  v_kelly_fraction : Q;
  v_conservative_kelly : Q;
  v_stake : Q;
  v_potential_profit : Q;
  v_roi : Q
}.

(** [_create_value_bet] up to the assignment of [roi]. *)
Definition value_bet_locals (self : AFLOpportunityFinder) (odds value_percentage : Q)
  : result ValueBetLocals :=
  let edge := (value_percentage / 100)%Q in
  kelly_fraction ← py_div edge (odds - 1)%Q;
  let conservative_kelly := (kelly_fraction * 0.25)%Q in
  let stake := py_min3 (conservative_kelly * bankroll self)%Q
                       (max_stake_per_opportunity self)
                       (bankroll self * 0.05)%Q in
  let potential_profit := (stake * (odds - 1))%Q in
  profit_per_stake ← py_div potential_profit stake;
  let roi := (profit_per_stake * 100)%Q in
  mret (mkVal edge kelly_fraction conservative_kelly stake potential_profit roi).

Inductive Side : Type := side_home | side_away.

Definition _create_value_bet (self : AFLOpportunityFinder)
    (match_name home_team away_team : string) (team_side : Side)
    (odds : Q) (bookmaker : string) (value_percentage : Q)
  : result BettingOpportunity :=
  l ← value_bet_locals self odds value_percentage;
  let team_name := match team_side with
                   | side_home => home_team
                   | side_away => away_team
                   end in
  mret {| match_ := match_name;
          home_team := home_team;
          away_team := away_team;
          opportunity_type := value_bet;
          profit_percentage := value_percentage;
          stake_distribution :=
            <[ Some bookmaker := {| team := team_name;
                                    amount := py_round2 (v_stake l);
                                    odds := odds;
                                    potential_return := py_round2 (v_stake l * odds) |} ]> ∅;
          total_stake := py_round2 (v_stake l);
          guaranteed_profit := py_round2 (v_potential_profit l);
          roi := v_roi l |}.

(** One of the two [if] blocks of the bookmaker loop of
    [calculate_value_bets]: the opportunities it appends for one side. *)
Definition value_bet_for_side (self : AFLOpportunityFinder)
    (match_name home_team away_team : string) (team_side : Side)
    (bookmaker : string) (quoted fair_odds : Q) : result (list BettingOpportunity) :=
  if Qgtb quoted (fair_odds * 1.05)%Q then
    ratio ← py_div quoted fair_odds;
    let value_percentage := ((ratio - 1) * 100)%Q in
    if Qgeb value_percentage (min_profit_percentage self) then
      value_bet ← _create_value_bet self match_name home_team away_team team_side
                    quoted bookmaker value_percentage;
      mret [value_bet]
    else mret []
  else mret [].

Fixpoint value_bet_book_loop (self : AFLOpportunityFinder)
    (match_name home_team away_team : string) (fair_home_odds fair_away_odds : Q)
    (items : OddsDict) (opportunities : list BettingOpportunity)
  : result (list BettingOpportunity) :=
  match items with
  | [] => Ok opportunities
  | (bookmaker, odds) :: items =>
      h ← getitem "home" (home odds);
      new_home ← value_bet_for_side self match_name home_team away_team side_home
                   bookmaker h fair_home_odds;
      a ← getitem "away" (away odds);
      new_away ← value_bet_for_side self match_name home_team away_team side_away
                   bookmaker a fair_away_odds;
      value_bet_book_loop self match_name home_team away_team fair_home_odds
        fair_away_odds items (opportunities ++ new_home ++ new_away)
  end.

(** [1 / p if p > 0 else 0]. *)
Definition fair_odds_of (fair_prob : Q) : result Q :=
  if Qgtb fair_prob 0 then py_div 1 fair_prob else Ok 0%Q.

(** The body of the [for match in matches] loop of [calculate_value_bets]. *)
Definition value_bets_for_match (self : AFLOpportunityFinder) (m : Match)
  : result (list BettingOpportunity) :=
  home_team ← getitem "home_team" (m_home_team m);
  away_team ← getitem "away_team" (m_away_team m);
  let match_name := home_team +:+ " vs " +:+ away_team in
  items ← getitem "odds" (m_odds m);
  '(fair_home_prob, fair_away_prob) ← _calculate_fair_probabilities items;
  fair_home_odds ← fair_odds_of fair_home_prob;
  fair_away_odds ← fair_odds_of fair_away_prob;
  items ← getitem "odds" (m_odds m);
  value_bet_book_loop self match_name home_team away_team fair_home_odds
    fair_away_odds items [].

Fixpoint value_bet_loop (self : AFLOpportunityFinder) (matches : list Match)
    (opportunities : list BettingOpportunity) : result (list BettingOpportunity) :=
  match matches with
  | [] => Ok opportunities
  | m :: matches =>
      new ← value_bets_for_match self m;
      value_bet_loop self matches (opportunities ++ new)
  end.

Definition calculate_value_bets (self : AFLOpportunityFinder) (matches : list Match)
  : result (list BettingOpportunity) :=
  value_bet_loop self matches [].

(** ** Ranker *)

(** [list.sort(key=lambda x: x.roi, reverse=True)].  The built-in sort is
    stable, also with [reverse=True]; it is modelled by a stable insertion
    sort on descending [roi]. *)
Fixpoint sort_insert (x : BettingOpportunity) (l : list BettingOpportunity)
  : list BettingOpportunity :=
  match l with
  | [] => [x]
  | y :: l' => if Qgtb (roi y) (roi x) then y :: sort_insert x l' else x :: y :: l'
  end.

Fixpoint sort_by_roi_desc (l : list BettingOpportunity) : list BettingOpportunity :=
  match l with
  | [] => []
  | x :: l' => sort_insert x (sort_by_roi_desc l')
  end.

(** [find_all_opportunities], given what [load_odds_from_file] returned
    ([None] when no file could be read). *)
Definition find_all_opportunities (self : AFLOpportunityFinder)
    (loaded : option (list Match)) : result (list BettingOpportunity) :=
  match loaded with
  | None | Some [] => Ok []
  | Some matches =>
      let all_opportunities := [] in
      arbitrage_opps ← calculate_arbitrage_opportunities self matches;
      let all_opportunities := all_opportunities ++ arbitrage_opps in
      value_opps ← calculate_value_bets self matches;
      let all_opportunities := all_opportunities ++ value_opps in
      mret (sort_by_roi_desc all_opportunities)
  end.

(** ** Concrete scenarios *)

Definition quote (h a : Q) : Quote := mkQuote (Some h) (Some a).

Definition game (home_team away_team : string) (items : OddsDict) : Match :=
  mkMatch (Some home_team) (Some away_team) None (Some items).

Definition scenario1 : Match :=
  game "Cats" "Swans" [("sportsbet", quote 2.10 2.05); ("ladbrokes", quote 1.95 2.20)].

Definition default_finder : AFLOpportunityFinder := __init__ 1000 1.0 25.0.

(** ** Well-formed input and configuration *)

(** A quote that carries both prices. *)
Definition quote_complete (q : Quote) : Prop :=
  is_Some (home q) /\ is_Some (away q).

(** A quote both of whose prices are present and positive. *)
Definition quote_valid (q : Quote) : bool :=
  match home q, away q with
  | Some h, Some a => Qgtb h 0 && Qgtb a 0
  | _, _ => false
  end.

Definition has_valid_quote (items : OddsDict) : bool :=
  existsb (fun bq => quote_valid (snd bq)) items.

(** The configuration surface: a positive bankroll and a stake percentage
    in (0, 100]. *)
Definition valid_config (self : AFLOpportunityFinder) : Prop :=
  (0 < bankroll self)%Q /\
  (0 < max_stake_percentage self <= 100)%Q /\
  (max_stake_per_opportunity self ==
     bankroll self * (max_stake_percentage self / 100))%Q.


(** ** Vocabulary of the statements *)

Definition quotes_complete (items : OddsDict) : Prop :=
  Forall (fun bq => quote_complete (snd bq)) items.

(** A de-margined probability pair. *)
Definition demargined_pair (x y : Q) : Prop :=
  (0 < x /\ 0 < y /\ x + y == 1)%Q.

(** [b] holds the highest prices of [items] that are positive, each with a
    bookmaker that quotes it; a side without positive price stays at 0. *)
Definition highest_odds (items : OddsDict) (b : BestOdds) : Prop :=
  ((0 <= best_home_odds b)%Q /\ (0 <= best_away_odds b)%Q) /\
  (forall bk q h, In (bk, q) items -> home q = Some h -> (h <= best_home_odds b)%Q) /\
  (forall bk q a, In (bk, q) items -> away q = Some a -> (a <= best_away_odds b)%Q) /\
  ((0 < best_home_odds b)%Q ->
     exists bk q, In (bk, q) items /\ home q = Some (best_home_odds b) /\
                  best_home_book b = Some bk) /\
  ((0 < best_away_odds b)%Q ->
     exists bk q, In (bk, q) items /\ away q = Some (best_away_odds b) /\
                  best_away_book b = Some bk).

(** The two conditions under which one side of one quote is a value bet:
    the quoted odds exceed [fair_odds * 1.05], and
    [value_percentage = ((quoted / fair_odds) - 1) * 100] reaches the
    configured minimum. *)
Definition value_percentage_of (quoted fair_odds : Q) : Q :=
  ((quoted / fair_odds - 1) * 100)%Q.

Definition value_condition (self : AFLOpportunityFinder) (quoted fair_odds : Q) : Prop :=
  (fair_odds * 1.05 < quoted)%Q /\
  (min_profit_percentage self <= value_percentage_of quoted fair_odds)%Q.

(** [opp] is the value bet on [quoted] at [bookmaker]. *)
Definition value_bet_on (self : AFLOpportunityFinder) (bookmaker : string)
    (quoted fair_odds : Q) (opp : BettingOpportunity) : Prop :=
  opportunity_type opp = value_bet /\
  profit_percentage opp = value_percentage_of quoted fair_odds /\
  (exists e, stake_distribution opp !! Some bookmaker = Some e /\ odds e = quoted) /\
  (exists l, value_bet_locals self quoted (profit_percentage opp) = Ok l /\
             (0 < v_stake l)%Q /\
             total_stake opp = py_round2 (v_stake l) /\
             roi opp = (v_potential_profit l / v_stake l * 100)%Q) /\
  (roi opp == (quoted - 1) * 100)%Q.

(** What one side of one quote contributes to the output: one value bet
    if and only if the side meets [value_condition], nothing otherwise. *)
Definition side_emission (self : AFLOpportunityFinder) (bookmaker : string)
    (quoted fair_odds : Q) (out : list BettingOpportunity) : Prop :=
  (value_condition self quoted fair_odds ->
     exists opp, out = [opp] /\ value_bet_on self bookmaker quoted fair_odds opp) /\
  (~ value_condition self quoted fair_odds -> out = []).

(** What one quote contributes: its home side, then its away side. *)
Definition quote_emission (self : AFLOpportunityFinder) (fair_home_odds fair_away_odds : Q)
    (bq : string * Quote) (out : list BettingOpportunity) : Prop :=
  exists h a out_home out_away,
    home (snd bq) = Some h /\ away (snd bq) = Some a /\
    out = out_home ++ out_away /\
    side_emission self (fst bq) h fair_home_odds out_home /\
    side_emission self (fst bq) a fair_away_odds out_away.

(** The part of the configuration that value-bet sizing relies on. *)
Definition positive_stakes (self : AFLOpportunityFinder) : Prop :=
  (0 < bankroll self)%Q /\ (0 < max_stake_percentage self)%Q /\
  (max_stake_per_opportunity self ==
     bankroll self * (max_stake_percentage self / 100))%Q.

(** [opp] is a value bet emitted for some quoted price. *)
Definition emitted_value_bet (self : AFLOpportunityFinder) (opp : BettingOpportunity) : Prop :=
  exists bookmaker quoted fair_odds, value_bet_on self bookmaker quoted fair_odds opp.


(** A match whose only quote has no positive away price. *)
Definition no_estimate : Match :=
  game "Lions" "Power" [("sportsbet", quote 2.0 0)].

(** A quote neither of whose prices is positive, and a match made of such
    quotes only (an empty [odds] mapping included). *)
Definition quote_dead (q : Quote) : Prop :=
  exists h a, home q = Some h /\ away q = Some a /\ (h <= 0)%Q /\ (a <= 0)%Q.

Definition match_dead (m : Match) : Prop :=
  exists ht aw items,
    m_home_team m = Some ht /\ m_away_team m = Some aw /\ m_odds m = Some items /\
    Forall (fun bq => quote_dead (snd bq)) items.

(** A match entry without its [away_team] field. *)
Definition missing_field : Match :=
  mkMatch (Some "Lions") None None (Some [("sportsbet", quote 2.10 2.05)]).

(** A match with one price that is not positive. *)
Definition one_bad_price : Match :=
  game "Lions" "Power" [("sportsbet", quote 0 5); ("ladbrokes", quote 5 1.1)].

(** A match with a quote without positive price among two regular ones. *)
Definition with_dead_quote : Match :=
  game "Cats" "Swans"
    [("sportsbet", quote 2.10 2.05); ("tab", quote 0 0); ("ladbrokes", quote 1.95 2.20)].

Definition all_dead : Match := game "Lions" "Power" [("tab", quote 0 0)].

(** The [best_*] prices never go below their initial 0. *)
Definition best_nonneg (b : BestOdds) : Prop :=
  (0 <= best_home_odds b)%Q /\ (0 <= best_away_odds b)%Q.



(** ** Vocabulary of the further properties *)

(** A value bet whose edge clears the fixed 5% buffer and the configured
    minimum. *)
Definition clears_edge (self : AFLOpportunityFinder) (opp : BettingOpportunity) : Prop :=
  opportunity_type opp = value_bet /\
  (5 < profit_percentage opp)%Q /\
  (min_profit_percentage self <= profit_percentage opp)%Q.

(** An arbitrage with a positive profit that reaches the configured
    minimum. *)
Definition profitable_arbitrage (self : AFLOpportunityFinder) (opp : BettingOpportunity) : Prop :=
  opportunity_type opp = arbitrage /\
  (0 < profit_percentage opp)%Q /\
  (min_profit_percentage self <= profit_percentage opp)%Q.




(** The bookmaker recorded for a positive best price is the first one, in
    iteration order, that quotes it: every earlier price is lower. *)
Definition first_best_home (items : OddsDict) (b : BestOdds) : Prop :=
  (0 < best_home_odds b)%Q ->
  exists l1 bk q l2,
    items = l1 ++ (bk, q) :: l2 /\
    home q = Some (best_home_odds b) /\ best_home_book b = Some bk /\
    forall bk' q' h', In (bk', q') l1 -> home q' = Some h' ->
                      (h' < best_home_odds b)%Q.

Definition first_best_away (items : OddsDict) (b : BestOdds) : Prop :=
  (0 < best_away_odds b)%Q ->
  exists l1 bk q l2,
    items = l1 ++ (bk, q) :: l2 /\
    away q = Some (best_away_odds b) /\ best_away_book b = Some bk /\
    forall bk' q' a', In (bk', q') l1 -> away q' = Some a' ->
                      (a' < best_away_odds b)%Q.

(** Two bookmakers quoting the same best home price. *)
Definition tied_books : OddsDict :=
  [("sportsbet", quote 2.10 1.70); ("ladbrokes", quote 2.10 1.75)].

(** ** Reporting *)

Definition is_arbitrage (opp : BettingOpportunity) : bool :=
  match opportunity_type opp with
  | arbitrage => true
  | value_bet => false
  end.

Definition is_value_bet (opp : BettingOpportunity) : bool :=
  match opportunity_type opp with
  | arbitrage => false
  | value_bet => true
  end.

(** [sum(1 for opp in opportunities if opp.opportunity_type == ..)]. *)
Definition arbitrage_count (opportunities : list BettingOpportunity) : nat :=
  length (List.filter is_arbitrage opportunities).

Definition value_count (opportunities : list BettingOpportunity) : nat :=
  length (List.filter is_value_bet opportunities).

(** [sum(opp.guaranteed_profit for opp in opportunities)]. *)
Definition total_potential_profit (opportunities : list BettingOpportunity) : Q :=
  py_sum (map guaranteed_profit opportunities).

(** The figures printed by [display_opportunities]; [None] is the early
    return on an empty list ("no profitable opportunities found"). *)
Record Summary : Type := mkSummary {
  s_found : nat;
  s_arbitrage : nat;
  s_value : nat;
  s_profit : Q
}.

Definition display_opportunities (opportunities : list BettingOpportunity)
  : option Summary :=
  match opportunities with
  | [] => None
  | _ => Some {| s_found := length opportunities;
                 s_arbitrage := arbitrage_count opportunities;
                 s_value := value_count opportunities;
                 s_profit := total_potential_profit opportunities |}
  end.

(** The object written by [save_opportunities], without its timestamp. *)
Record Report : Type := mkReport {
  r_bankroll : Q;
  r_min_profit_percentage : Q;
  r_max_stake_percentage : Q;
  r_total_opportunities : nat;
  r_total_potential_profit : Q;
  r_opportunities : list BettingOpportunity
}.

Definition save_opportunities (self : AFLOpportunityFinder)
    (opportunities : list BettingOpportunity) : Report :=
  {| r_bankroll := bankroll self;
     r_min_profit_percentage := min_profit_percentage self;
     r_max_stake_percentage := max_stake_percentage self;
     r_total_opportunities := length opportunities;
     r_total_potential_profit := total_potential_profit opportunities;
     r_opportunities := opportunities |}.

(** [run_analysis]: the opportunities it returns, what it displays and
    the report it saves, if any. *)
Definition run_analysis (self : AFLOpportunityFinder) (loaded : option (list Match))
  : result (list BettingOpportunity * option Summary * option Report) :=
  opportunities ← find_all_opportunities self loaded;
  let shown := display_opportunities opportunities in
  let saved := match opportunities with
               | [] => None
               | _ => Some (save_opportunities self opportunities)
               end in
  mret (opportunities, shown, saved).

(** The de-margined pairs of the quotes that are positive on both sides,
    in iteration order. *)
Definition demargined (items : OddsDict) : list (Q * Q) :=
  flat_map (fun bq => match home (snd bq), away (snd bq) with
                      | Some h, Some a =>
                          if Qgtb h 0 && Qgtb a 0
                          then [((1 / h) / (1 / h + 1 / a), (1 / a) / (1 / h + 1 / a))%Q]
                          else []
                      | _, _ => []
                      end) items.

(** ** Consolidation of the scraped odds ([afl_selenium_scraper_NEW.py])

    [consolidate_odds] builds the [matches] list that the detectors read
    back from the JSON file. *)

(** The [match_data] dict built by each of the three parsers. *)
Record ScrapedMatch : Type := mkScraped {
  sc_home_team : string;
  sc_away_team : string;
  sc_home_odds : Q;
  sc_away_odds : Q;
  sc_match_time : option string;
  sc_bookmaker : string
}.

(** The dict literal stored in [consolidated]. *)
Record ConsolidatedMatch : Type := mkConsolidated {
  c_home_team : string;
  c_away_team : string;
  c_match_time : option string;
  c_odds : OddsDict
}.

(** A dict with string keys, in insertion order: [key in d] / [d[key]]
    and [d[key] = v], which keeps the position of a key already there. *)
Fixpoint dict_get {V : Type} (key : string) (d : list (string * V)) : option V :=
  match d with
  | [] => None
  | (k, v) :: d => if String.eqb key k then Some v else dict_get key d
  end.

Fixpoint dict_set {V : Type} (key : string) (v : V) (d : list (string * V))
  : list (string * V) :=
  match d with
  | [] => [(key, v)]
  | (k, v') :: d => if String.eqb key k then (k, v) :: d else (k, v') :: dict_set key v d
  end.

(** [sorted([x, y])]. *)
Definition sorted2 (x y : string) : list string :=
  if String.ltb y x then [y; x] else [x; y].

Section Consolidation.

(** The local function [normalize_team] of [_create_match_key] (strip,
    lower-case, drop a trailing " fc" or " afl"), built from library
    string functions; the development holds for any such function. *)
Variable normalize_team : string -> string.

Definition _create_match_key (home_team away_team : string) : string :=
  let home_norm := normalize_team home_team in
  let away_norm := normalize_team away_team in
  match sorted2 home_norm away_norm with
  | [t0; t1] => t0 +:+ "_vs_" +:+ t1
  | _ => ""
  end.

(** The body of the inner loop of [consolidate_odds]. *)
Definition consolidate_match (bookmaker : string)
    (consolidated : list (string * ConsolidatedMatch)) (m : ScrapedMatch)
  : result (list (string * ConsolidatedMatch)) :=
  let key := _create_match_key (sc_home_team m) (sc_away_team m) in
  let consolidated :=
    match dict_get key consolidated with
    | Some _ => consolidated
    | None =>
        dict_set key {| c_home_team := sc_home_team m;
                        c_away_team := sc_away_team m;
                        c_match_time := sc_match_time m;
                        c_odds := [] |} consolidated
    end in
  entry ← getitem key (dict_get key consolidated);
  let entry' := {| c_home_team := c_home_team entry;
                   c_away_team := c_away_team entry;
                   c_match_time := c_match_time entry;
                   c_odds := dict_set bookmaker
                               (quote (sc_home_odds m) (sc_away_odds m))
                               (c_odds entry) |} in
  mret (dict_set key entry' consolidated).

Fixpoint consolidate_matches (bookmaker : string) (matches : list ScrapedMatch)
    (consolidated : list (string * ConsolidatedMatch))
  : result (list (string * ConsolidatedMatch)) :=
  match matches with
  | [] => Ok consolidated
  | m :: matches =>
      consolidated ← consolidate_match bookmaker consolidated m;
      consolidate_matches bookmaker matches consolidated
  end.

Fixpoint consolidate_books (all_odds : list (string * list ScrapedMatch))
    (consolidated : list (string * ConsolidatedMatch))
  : result (list (string * ConsolidatedMatch)) :=
  match all_odds with
  | [] => Ok consolidated
  | (bookmaker, matches) :: all_odds =>
      consolidated ← consolidate_matches bookmaker matches consolidated;
      consolidate_books all_odds consolidated
  end.

(** [consolidate_odds]; [all_odds] is the dict of [scrape_all_odds] in
    iteration order. *)
Definition consolidate_odds (all_odds : list (string * list ScrapedMatch))
  : result (list ConsolidatedMatch) :=
  consolidated ← consolidate_books all_odds [];
  mret (map snd consolidated).

End Consolidation.

(** The entry that [consolidate_match] stores under the key of [m]: the
    one already there, or a new one, with the quote of [bookmaker] set. *)
Definition entry_with_quote (bookmaker : string) (m : ScrapedMatch)
    (found : option ConsolidatedMatch) : ConsolidatedMatch :=
  let entry := match found with
               | Some c => c
               | None => {| c_home_team := sc_home_team m;
                            c_away_team := sc_away_team m;
                            c_match_time := sc_match_time m;
                            c_odds := [] |}
               end in
  {| c_home_team := c_home_team entry;
     c_away_team := c_away_team entry;
     c_match_time := c_match_time entry;
     c_odds := dict_set bookmaker (quote (sc_home_odds m) (sc_away_odds m))
                 (c_odds entry) |}.

(** A consolidated match as the detectors read it back from the file. *)
Definition as_match (c : ConsolidatedMatch) : Match :=
  mkMatch (Some (c_home_team c)) (Some (c_away_team c)) (c_match_time c)
          (Some (c_odds c)).

(** What every consolidated match satisfies: at least one quote, at most
    one quote per bookmaker, both prices in every quote. *)
Definition well_consolidated (c : ConsolidatedMatch) : Prop :=
  c_odds c <> [] /\ List.NoDup (map fst (c_odds c)) /\ quotes_complete (c_odds c).

(** One consolidated entry per key, each stored under the key of its own
    teams. *)
Definition keyed_by (normalize_team : string -> string)
    (d : list (string * ConsolidatedMatch)) : Prop :=
  List.NoDup (map fst d) /\
  Forall (fun kc => fst kc = _create_match_key normalize_team
                            (c_home_team (snd kc)) (c_away_team (snd kc))) d.

(** The invariant of the [consolidated] dict. *)
Definition consolidated_ok (normalize_team : string -> string)
    (d : list (string * ConsolidatedMatch)) : Prop :=
  keyed_by normalize_team d /\ Forall (fun kc => well_consolidated (snd kc)) d.

(** The number of scraped entries. *)
Definition scraped_count (all_odds : list (string * list ScrapedMatch)) : nat :=
  length (concat (map snd all_odds)).




(** Two bookmakers listing the same game, the second with the teams in
    the opposite order. *)
Definition two_listings : list (string * list ScrapedMatch) :=
  [("sportsbet", [mkScraped "Cats" "Swans" 1.50 2.50 None "sportsbet"]);
   ("ladbrokes", [mkScraped "Swans" "Cats" 2.60 1.45 None "ladbrokes"])].


(** * The detectors in binary64

    The program computes with Python floats.  The definitions of this
    module are the same functions with every operation rounded to binary64
    (Rocq's primitive floats, which follow IEEE 754 as CPython's float
    does); a float division by zero raises as it does in Python.  They
    settle what depends on the last bits of a value: a comparison at a
    threshold, an equality between computed floats. *)

Module B64.

Local Set Warnings "-inexact-float".
Local Open Scope float_scope.

(** [x / y]. *)
Definition py_div (x y : float) : result float :=
  if y =? 0 then Raise ZeroDivisionError else Ok (x / y).

(** [x > y] and [x >= y]. *)
Definition gt (x y : float) : bool := y <? x.
Definition ge (x y : float) : bool := y <=? x.

(** [min(a, b)] and [min(a, b, c)]: the first smallest argument. *)
Definition py_min (a b : float) : float := if gt a b then b else a.
Definition py_min3 (a b c : float) : float := py_min (py_min a b) c.

(** The rational number that a finite float is. *)
Definition exact (x : float) : option Q :=
  match Prim2SF x with
  | S754_zero _ => Some 0%Q
  | S754_finite s m e =>
      Some ((if s then -1 else 1) * inject_Z (Zpos m) * Qpower 2 e)%Q
  | _ => None
  end.

(** The float of an integer below 2^53 in absolute value. *)
Definition of_Z (z : Z) : float :=
  if (z <? 0)%Z then - PrimFloat.of_uint63 (Uint63.of_Z (- z))
  else PrimFloat.of_uint63 (Uint63.of_Z z).

(** [round(x, 2)]: the float nearest to the multiple of 0.01 nearest to
    the exact value of [x], ties to the even multiple.  From 2^46 on two
    neighbouring floats are more than 0.01 apart and [x] is returned; so
    are infinities and NaN. *)
Definition py_round2 (x : float) : float :=
  match exact x with
  | Some q =>
      if Qle_bool (inject_Z (2 ^ 46)) (Qabs q) then x
      else
        let r := round_half_even (q * 100) in
        if (r =? 0)%Z then x * 0 else of_Z r / 100
  | None => x
  end.

(** [sum(l)] starts from the integer 0.  Up to CPython 3.11 it adds the
    elements from the left; from CPython 3.12 on it adds the first element
    to 0 and the others with Neumaier's compensation of the rounding
    errors, the accumulated compensation being added at the end when it is
    finite and not zero.  The two agree on lists of one and of two
    elements. *)
Inductive Summation : Type := left_to_right | compensated.

Fixpoint compensated_loop (l : list float) (f_result c : float) : float :=
  match l with
  | [] => if negb (c =? 0) && is_finite c then f_result + c else f_result
  | x :: l =>
      let t := f_result + x in
      let c := if ge (abs f_result) (abs x)
               then c + ((f_result - t) + x)
               else c + ((x - t) + f_result) in
      compensated_loop l t c
  end.

Definition py_sum (alg : Summation) (l : list float) : float :=
  match alg with
  | left_to_right => fold_left PrimFloat.add l 0
  | compensated =>
      match l with
      | [] => 0
      | x :: l => compensated_loop l (0 + x) 0
      end
  end.

(** [len(l)] as the float it becomes in [sum(l) / len(l)], for a list of
    fewer than 2^53 elements. *)
Definition py_len {A : Type} (l : list A) : float := of_Z (Z.of_nat (length l)).

Record Quote : Type := mkQuote {
  home : option float;
  away : option float
}.

Abbreviation OddsDict := (list (string * Quote)).

Record Match : Type := mkMatch {
  m_home_team : option string;
  m_away_team : option string;
  m_match_time : option string;
  m_odds : option OddsDict
}.

Record StakeEntry : Type := mkStake {
  team : string;
  amount : float;
  odds : float;
  potential_return : float
}.

Record BettingOpportunity : Type := mkOpp {
  match_ : string;
  home_team : string;
  away_team : string;
  opportunity_type : OpportunityType;
  profit_percentage : float;
  stake_distribution : gmap BookKey StakeEntry;
  total_stake : float;
  guaranteed_profit : float;
  roi : float
}.

Record AFLOpportunityFinder : Type := mkFinder {
  bankroll : float;
  min_profit_percentage : float;
  max_stake_percentage : float;
  max_stake_per_opportunity : float
}.

Definition __init__ (bankroll min_profit_percentage max_stake_percentage : float)
  : AFLOpportunityFinder :=
  {| bankroll := bankroll;
     min_profit_percentage := min_profit_percentage;
     max_stake_percentage := max_stake_percentage;
     max_stake_per_opportunity := bankroll * (max_stake_percentage / 100) |}.

(** ** Fair-odds estimator *)

Definition demargin (odds : Quote) : result (option (float * float)) :=
  h ← getitem "home" (home odds);
  valid ← (if gt h 0
           then a ← getitem "away" (away odds); mret (gt a 0)
           else mret false);
  if (valid : bool) then
    h ← getitem "home" (home odds);
    home_prob ← py_div 1 h;
    a ← getitem "away" (away odds);
    away_prob ← py_div 1 a;
    let total_prob := home_prob + away_prob in
    hn ← py_div home_prob total_prob;
    an ← py_div away_prob total_prob;
    mret (Some (hn, an))
  else mret None.

Fixpoint fair_loop (items : OddsDict) (home_probs away_probs : list float)
  : result (list float * list float) :=
  match items with
  | [] => Ok (home_probs, away_probs)
  | (bookmaker, odds) :: items =>
      appended ← demargin odds;
      match appended with
      | Some (hn, an) => fair_loop items (home_probs ++ [hn]) (away_probs ++ [an])
      | None => fair_loop items home_probs away_probs
      end
  end.

Definition _calculate_fair_probabilities (alg : Summation) (bookmaker_odds : OddsDict)
  : result (float * float) :=
  '(home_probs, away_probs) ← fair_loop bookmaker_odds [] [];
  match home_probs with
  | [] => Ok (0, 0)
  | _ =>
      avg_home_prob ← py_div (py_sum alg home_probs) (py_len home_probs);
      avg_away_prob ← py_div (py_sum alg away_probs) (py_len away_probs);
      mret (avg_home_prob, avg_away_prob)
  end.

(** ** Arbitrage detector *)

Record ArbitrageLocals : Type := mkArb {
  a_home_prob : float;
  a_away_prob : float;
  a_total_prob : float;
  a_profit_percentage : float;
  a_total_stake : float;
  a_home_stake : float;
  a_away_stake : float;
  a_home_return : float;
  a_away_return : float;
  a_guaranteed_profit : float;
  a_roi : float
}.

Definition arbitrage_locals (self : AFLOpportunityFinder) (home_odds away_odds : float)
  : result (option ArbitrageLocals) :=
  home_prob ← py_div 1 home_odds;
  away_prob ← py_div 1 away_odds;
  let total_prob := home_prob + away_prob in
  if ge total_prob 1.0 then Ok None
  else
    inv_total ← py_div 1 total_prob;
    let profit_percentage := (inv_total - 1) * 100 in
    let total_stake := py_min (max_stake_per_opportunity self) (bankroll self * 0.1) in
    home_share ← py_div home_prob total_prob;
    let home_stake := home_share * total_stake in
    away_share ← py_div away_prob total_prob;
    let away_stake := away_share * total_stake in
    let home_return := home_stake * home_odds in
    let away_return := away_stake * away_odds in
    let guaranteed_profit := py_min home_return away_return - total_stake in
    profit_per_stake ← py_div guaranteed_profit total_stake;
    let roi := profit_per_stake * 100 in
    Ok (Some (mkArb home_prob away_prob total_prob profit_percentage total_stake
                    home_stake away_stake home_return away_return
                    guaranteed_profit roi)).

Definition arbitrage_stake_distribution (l : ArbitrageLocals) (home_odds away_odds : float)
    (home_book away_book : BookKey) (home_team away_team : string)
  : gmap BookKey StakeEntry :=
  <[ away_book := {| team := away_team;
                     amount := py_round2 (a_away_stake l);
                     odds := away_odds;
                     potential_return := py_round2 (a_away_return l) |} ]>
  (<[ home_book := {| team := home_team;
                      amount := py_round2 (a_home_stake l);
                      odds := home_odds;
                      potential_return := py_round2 (a_home_return l) |} ]> ∅).

Definition _calculate_arbitrage (self : AFLOpportunityFinder) (home_odds away_odds : float)
    (home_book away_book : BookKey) (home_team away_team match_name : string)
  : result (option BettingOpportunity) :=
  locals ← arbitrage_locals self home_odds away_odds;
  match locals with
  | None => Ok None
  | Some l =>
      Ok (Some {| match_ := match_name;
                  home_team := home_team;
                  away_team := away_team;
                  opportunity_type := arbitrage;
                  profit_percentage := a_profit_percentage l;
                  stake_distribution :=
                    arbitrage_stake_distribution l home_odds away_odds
                      home_book away_book home_team away_team;
                  total_stake := py_round2 (a_total_stake l);
                  guaranteed_profit := py_round2 (a_guaranteed_profit l);
                  roi := a_roi l |})
  end.

Definition _get_arbitrage_percentage (home_odds away_odds : float) : result float :=
  if ge 0 home_odds || ge 0 away_odds then Ok (-100)
  else
    home_prob ← py_div 1 home_odds;
    away_prob ← py_div 1 away_odds;
    let total_prob := home_prob + away_prob in
    inv_total ← py_div 1 total_prob;
    mret ((inv_total - 1) * 100).

Record BestOdds : Type := mkBest {
  best_home_odds : float;
  best_away_odds : float;
  best_home_book : BookKey;
  best_away_book : BookKey
}.

Definition best_init : BestOdds := mkBest 0 0 None None.

Definition best_step (b : BestOdds) (bookmaker : string) (odds : Quote)
  : result BestOdds :=
  h ← getitem "home" (home odds);
  let b1 := if gt h (best_home_odds b)
            then mkBest h (best_away_odds b) (Some bookmaker) (best_away_book b)
            else b in
  a ← getitem "away" (away odds);
  mret (if gt a (best_away_odds b1)
        then mkBest (best_home_odds b1) a (best_home_book b1) (Some bookmaker)
        else b1).

Fixpoint best_loop (items : OddsDict) (b : BestOdds) : result BestOdds :=
  match items with
  | [] => Ok b
  | (bookmaker, odds) :: items => b' ← best_step b bookmaker odds; best_loop items b'
  end.

Definition arbitrage_for_match (self : AFLOpportunityFinder) (m : Match)
  : result (list BettingOpportunity) :=
  home_team ← getitem "home_team" (m_home_team m);
  away_team ← getitem "away_team" (m_away_team m);
  let match_name := home_team +:+ " vs " +:+ away_team in
  items ← getitem "odds" (m_odds m);
  b ← best_loop items best_init;
  if gt (best_home_odds b) 0 && gt (best_away_odds b) 0 then
    arbitrage_calc ← _calculate_arbitrage self (best_home_odds b) (best_away_odds b)
                       (best_home_book b) (best_away_book b)
                       home_team away_team match_name;
    match arbitrage_calc with
    | Some opp =>
        if ge (profit_percentage opp) (min_profit_percentage self)
        then Ok [opp]
        else _ ← _get_arbitrage_percentage (best_home_odds b) (best_away_odds b); Ok []
    | None =>
        _ ← _get_arbitrage_percentage (best_home_odds b) (best_away_odds b); Ok []
    end
  else Ok [].

Fixpoint arbitrage_loop (self : AFLOpportunityFinder) (matches : list Match)
    (opportunities : list BettingOpportunity) : result (list BettingOpportunity) :=
  match matches with
  | [] => Ok opportunities
  | m :: matches =>
      new ← arbitrage_for_match self m;
      arbitrage_loop self matches (opportunities ++ new)
  end.

Definition calculate_arbitrage_opportunities (self : AFLOpportunityFinder)
    (matches : list Match) : result (list BettingOpportunity) :=
  arbitrage_loop self matches [].

(** ** Value-bet detector *)

Record ValueBetLocals : Type := mkVal {
  v_edge : float;
  v_kelly_fraction : float;
  v_conservative_kelly : float;
  v_stake : float;
  v_potential_profit : float;
  v_roi : float
}.

Definition value_bet_locals (self : AFLOpportunityFinder) (odds value_percentage : float)
  : result ValueBetLocals :=
  let edge := value_percentage / 100 in
  kelly_fraction ← py_div edge (odds - 1);
  let conservative_kelly := kelly_fraction * 0.25 in
  let stake := py_min3 (conservative_kelly * bankroll self)
                       (max_stake_per_opportunity self)
                       (bankroll self * 0.05) in
  let potential_profit := stake * (odds - 1) in
  profit_per_stake ← py_div potential_profit stake;
  let roi := profit_per_stake * 100 in
  mret (mkVal edge kelly_fraction conservative_kelly stake potential_profit roi).

Definition _create_value_bet (self : AFLOpportunityFinder)
    (match_name home_team away_team : string) (team_side : Side)
    (odds : float) (bookmaker : string) (value_percentage : float)
  : result BettingOpportunity :=
  l ← value_bet_locals self odds value_percentage;
  let team_name := match team_side with
                   | side_home => home_team
                   | side_away => away_team
                   end in
  mret {| match_ := match_name;
          home_team := home_team;
          away_team := away_team;
          opportunity_type := value_bet;
          profit_percentage := value_percentage;
          stake_distribution :=
            <[ Some bookmaker := {| team := team_name;
                                    amount := py_round2 (v_stake l);
                                    odds := odds;
                                    potential_return := py_round2 (v_stake l * odds) |} ]> ∅;
          total_stake := py_round2 (v_stake l);
          guaranteed_profit := py_round2 (v_potential_profit l);
          roi := v_roi l |}.

Definition value_bet_for_side (self : AFLOpportunityFinder)
    (match_name home_team away_team : string) (team_side : Side)
    (bookmaker : string) (quoted fair_odds : float) : result (list BettingOpportunity) :=
  if gt quoted (fair_odds * 1.05) then
    ratio ← py_div quoted fair_odds;
    let value_percentage := (ratio - 1) * 100 in
    if ge value_percentage (min_profit_percentage self) then
      value_bet ← _create_value_bet self match_name home_team away_team team_side
                    quoted bookmaker value_percentage;
      mret [value_bet]
    else mret []
  else mret [].

Fixpoint value_bet_book_loop (self : AFLOpportunityFinder)
    (match_name home_team away_team : string) (fair_home_odds fair_away_odds : float)
    (items : OddsDict) (opportunities : list BettingOpportunity)
  : result (list BettingOpportunity) :=
  match items with
  | [] => Ok opportunities
  | (bookmaker, odds) :: items =>
      h ← getitem "home" (home odds);
      new_home ← value_bet_for_side self match_name home_team away_team side_home
                   bookmaker h fair_home_odds;
      a ← getitem "away" (away odds);
      new_away ← value_bet_for_side self match_name home_team away_team side_away
                   bookmaker a fair_away_odds;
      value_bet_book_loop self match_name home_team away_team fair_home_odds
        fair_away_odds items (opportunities ++ new_home ++ new_away)
  end.

Definition fair_odds_of (fair_prob : float) : result float :=
  if gt fair_prob 0 then py_div 1 fair_prob else Ok 0.

Definition value_bets_for_match (alg : Summation) (self : AFLOpportunityFinder)
    (m : Match) : result (list BettingOpportunity) :=
  home_team ← getitem "home_team" (m_home_team m);
  away_team ← getitem "away_team" (m_away_team m);
  let match_name := home_team +:+ " vs " +:+ away_team in
  items ← getitem "odds" (m_odds m);
  '(fair_home_prob, fair_away_prob) ← _calculate_fair_probabilities alg items;
  fair_home_odds ← fair_odds_of fair_home_prob;
  fair_away_odds ← fair_odds_of fair_away_prob;
  items ← getitem "odds" (m_odds m);
  value_bet_book_loop self match_name home_team away_team fair_home_odds
    fair_away_odds items [].

Fixpoint value_bet_loop (alg : Summation) (self : AFLOpportunityFinder)
    (matches : list Match) (opportunities : list BettingOpportunity)
  : result (list BettingOpportunity) :=
  match matches with
  | [] => Ok opportunities
  | m :: matches =>
      new ← value_bets_for_match alg self m;
      value_bet_loop alg self matches (opportunities ++ new)
  end.

Definition calculate_value_bets (alg : Summation) (self : AFLOpportunityFinder)
    (matches : list Match) : result (list BettingOpportunity) :=
  value_bet_loop alg self matches [].

(** ** Inputs and vocabulary *)

Definition quote (h a : float) : Quote := mkQuote (Some h) (Some a).

Definition game (home_team away_team : string) (items : OddsDict) : Match :=
  mkMatch (Some home_team) (Some away_team) None (Some items).

Definition default_finder : AFLOpportunityFinder := __init__ 1000 1.0 25.0.

Definition scenario1 : OddsDict :=
  [("sportsbet", quote 2.10 2.05); ("ladbrokes", quote 1.95 2.20)].

Definition quote_complete (q : Quote) : Prop :=
  is_Some (home q) /\ is_Some (away q).

Definition quotes_complete (items : OddsDict) : Prop :=
  Forall (fun bq => quote_complete (snd bq)) items.

(** The float [x] is the rational [q]. *)
Definition represents (x : float) (q : Q) : bool :=
  match exact x with
  | Some q' => Qeq_bool q' q
  | None => false
  end.

(** A quote that passes the test of the estimator, and a mapping that
    holds one. *)
Definition quote_valid (q : Quote) : bool :=
  match home q, away q with
  | Some h, Some a => gt h 0 && gt a 0
  | _, _ => false
  end.

Definition has_valid_quote (items : OddsDict) : bool :=
  existsb (fun bq => quote_valid (snd bq)) items.

(** [b] holds the highest prices of [items] as the comparisons of the
    program see them: no quoted price is greater than the best price of
    its side, and a best price above 0 is quoted, with its bookmaker. *)
Definition highest_odds (items : OddsDict) (b : BestOdds) : Prop :=
  (forall bk q h, In (bk, q) items -> home q = Some h ->
     gt h (best_home_odds b) = false) /\
  (forall bk q a, In (bk, q) items -> away q = Some a ->
     gt a (best_away_odds b) = false) /\
  (gt (best_home_odds b) 0 = true ->
     exists bk q, In (bk, q) items /\ home q = Some (best_home_odds b) /\
                  best_home_book b = Some bk) /\
  (gt (best_away_odds b) 0 = true ->
     exists bk q, In (bk, q) items /\ away q = Some (best_away_odds b) /\
                  best_away_book b = Some bk).

(** The values that [_calculate_arbitrage] computes from the best prices:
    [total_prob], [profit_percentage] and [total_stake]. *)
Definition total_prob_of (h a : float) : float := 1 / h + 1 / a.


Definition total_stake_of (self : AFLOpportunityFinder) : float :=
  py_min (max_stake_per_opportunity self) (bankroll self * 0.1).


(** The two divisors of [_calculate_arbitrage] that can be zero for
    positive prices: [total_prob] (both prices infinite) and
    [total_stake]. *)
Definition arbitrage_divisors_nonzero (self : AFLOpportunityFinder) (h a : float) : bool :=
  negb (total_prob_of h a =? 0) && negb (total_stake_of self =? 0).

(** The values that the value-bet detector computes for one quoted
    price: [value_percentage] and the stake. *)
Definition value_percentage_of (quoted fair_odds : float) : float :=
  (quoted / fair_odds - 1) * 100.

Definition stake_of (self : AFLOpportunityFinder) (quoted value_percentage : float)
  : float :=
  py_min3 (value_percentage / 100 / (quoted - 1) * 0.25 * bankroll self)
          (max_stake_per_opportunity self)
          (bankroll self * 0.05).

(** The two tests of the value-bet detector on the computed values:
    [quoted > fair_odds * 1.05] and
    [value_percentage >= min_profit_percentage]. *)
Definition value_condition (self : AFLOpportunityFinder) (quoted fair_odds : float)
  : bool :=
  gt quoted (fair_odds * 1.05) &&
  ge (value_percentage_of quoted fair_odds) (min_profit_percentage self).

(** The divisors of [_create_value_bet]: [odds - 1] and the stake. *)
Definition value_divisors_nonzero (self : AFLOpportunityFinder)
    (quoted fair_odds : float) : bool :=
  negb (quoted - 1 =? 0) &&
  negb (stake_of self quoted (value_percentage_of quoted fair_odds) =? 0).

(** [opp] is the value bet on [quoted] at [bookmaker]. *)
Definition value_bet_on (self : AFLOpportunityFinder) (bookmaker : string)
    (quoted fair_odds : float) (opp : BettingOpportunity) : Prop :=
  let stake := stake_of self quoted (value_percentage_of quoted fair_odds) in
  opportunity_type opp = value_bet /\
  profit_percentage opp = value_percentage_of quoted fair_odds /\
  (exists e, stake_distribution opp !! Some bookmaker = Some e /\
             odds e = quoted /\ amount e = py_round2 stake) /\
  total_stake opp = py_round2 stake /\
  roi opp = stake * (quoted - 1) / stake * 100.

(** What one side of one quote contributes to the output: one value bet
    when the side passes the two tests, nothing otherwise. *)
Definition side_emission (self : AFLOpportunityFinder) (bookmaker : string)
    (quoted fair_odds : float) (out : list BettingOpportunity) : Prop :=
  if value_condition self quoted fair_odds
  then exists opp, out = [opp] /\ value_bet_on self bookmaker quoted fair_odds opp
  else out = [].

(** What one quote contributes: its home side, then its away side. *)
Definition quote_emission (self : AFLOpportunityFinder)
    (fair_home_odds fair_away_odds : float)
    (bq : string * Quote) (out : list BettingOpportunity) : Prop :=
  exists h a out_home out_away,
    home (snd bq) = Some h /\ away (snd bq) = Some a /\
    out = out_home ++ out_away /\
    side_emission self (fst bq) h fair_home_odds out_home /\
    side_emission self (fst bq) a fair_away_odds out_away.

(** Every price of the quote that passes the two tests can be sized. *)
Definition quote_sized (self : AFLOpportunityFinder)
    (fair_home_odds fair_away_odds : float) (bq : string * Quote) : Prop :=
  forall h a, home (snd bq) = Some h -> away (snd bq) = Some a ->
    (value_condition self h fair_home_odds = true ->
       value_divisors_nonzero self h fair_home_odds = true) /\
    (value_condition self a fair_away_odds = true ->
       value_divisors_nonzero self a fair_away_odds = true).

(** Inputs of the examples: best prices 1.375 and 5.5 at two bookmakers;
    two bookmakers whose fair home odds times 1.05 are 1.5 in exact
    arithmetic; a single quote (1.25, 1.5); two matches with a home price
    of 1.75. *)
Definition at_threshold : OddsDict :=
  [("sportsbet", quote 1.375 4.0); ("ladbrokes", quote 1.25 5.5)].

Definition at_buffer : OddsDict :=
  [("sportsbet", quote 1.5 6.0); ("ladbrokes", quote 2.0 3.0)].

Definition short_priced : OddsDict := [("sportsbet", quote 1.25 1.5)].

Definition same_price : list Match :=
  [game "Cats" "Swans" [("sportsbet", quote 1.75 2.2); ("ladbrokes", quote 1.5 3.0)];
   game "Lions" "Power" [("sportsbet", quote 1.75 2.5); ("ladbrokes", quote 1.5 2.6)]].

End B64.

(** The inputs above in exact arithmetic. *)
Definition at_threshold : OddsDict :=
  [("sportsbet", quote (11 # 8) 4); ("ladbrokes", quote (5 # 4) (11 # 2))].

Definition at_buffer : OddsDict :=
  [("sportsbet", quote (3 # 2) 6); ("ladbrokes", quote 2 3)].

(** ** Arithmetic of the primitives *)

Lemma Qgtb_true (x y : Q) : Qgtb x y = true <-> (y < x)%Q.
Proof.
  unfold Qgtb. rewrite negb_true_iff. split.
  - intros E. apply Qnot_le_lt. intros L. apply Qle_bool_iff in L. congruence.
  - intros L. destruct (Qle_bool x y) eqn:E; [|reflexivity].
    apply Qle_bool_iff in E. lra.
Qed.

Lemma Qgtb_false (x y : Q) : Qgtb x y = false <-> (x <= y)%Q.
Proof.
  unfold Qgtb. rewrite negb_false_iff. apply Qle_bool_iff.
Qed.

Lemma Qgeb_true (x y : Q) : Qgeb x y = true <-> (y <= x)%Q.
Proof. unfold Qgeb. apply Qle_bool_iff. Qed.

Lemma Qgeb_false (x y : Q) : Qgeb x y = false <-> (x < y)%Q.
Proof.
  unfold Qgeb. split.
  - intros E. apply Qnot_le_lt. intros L. apply Qle_bool_iff in L. congruence.
  - intros L. destruct (Qle_bool y x) eqn:E; [|reflexivity].
    apply Qle_bool_iff in E. lra.
Qed.

Lemma py_div_ok (x y : Q) : ~ (y == 0)%Q -> py_div x y = Ok (x / y)%Q.
Proof.
  intros Hy. unfold py_div. destruct (Qeq_bool y 0) eqn:E; [|reflexivity].
  apply Qeq_bool_iff in E. contradiction.
Qed.

Lemma py_div_zero (x y : Q) : (y == 0)%Q -> py_div x y = Raise ZeroDivisionError.
Proof.
  intros Hy. unfold py_div. apply Qeq_bool_iff in Hy. now rewrite Hy.
Qed.

Lemma py_div_pos (x y : Q) : (0 < y)%Q -> py_div x y = Ok (x / y)%Q.
Proof. intros Hy. apply py_div_ok. lra. Qed.

Lemma Qinv_pos (x : Q) : (0 < x)%Q -> (0 < 1 / x)%Q.
Proof.
  intros Hx. unfold Qdiv. rewrite Qmult_1_l. now apply Qinv_lt_0_compat.
Qed.

Lemma Qdiv_pos (x y : Q) : (0 < x)%Q -> (0 < y)%Q -> (0 < x / y)%Q.
Proof.
  intros Hx Hy. unfold Qdiv. apply Qmult_lt_0_compat; [assumption|].
  now apply Qinv_lt_0_compat.
Qed.

Lemma py_min_cases (a b : Q) :
  (py_min a b = a /\ (a <= b)%Q) \/ (py_min a b = b /\ (b < a)%Q).
Proof.
  unfold py_min. destruct (Qgtb a b) eqn:E.
  - right. split; [reflexivity|]. now apply Qgtb_true.
  - left. split; [reflexivity|]. now apply Qgtb_false.
Qed.

Lemma py_min_le_l (a b : Q) : (py_min a b <= a)%Q.
Proof. destruct (py_min_cases a b) as [[-> ?]|[-> ?]]; lra. Qed.

Lemma py_min_le_r (a b : Q) : (py_min a b <= b)%Q.
Proof. destruct (py_min_cases a b) as [[-> ?]|[-> ?]]; lra. Qed.

Lemma py_min_pos (a b : Q) : (0 < a)%Q -> (0 < b)%Q -> (0 < py_min a b)%Q.
Proof. intros. destruct (py_min_cases a b) as [[-> ?]|[-> ?]]; lra. Qed.

Lemma py_min_eq (a b : Q) : (a == b)%Q -> (py_min a b == a)%Q.
Proof. intros E. destruct (py_min_cases a b) as [[-> ?]|[-> ?]]; lra. Qed.

Lemma py_min3_le (a b c : Q) :
  (py_min3 a b c <= a)%Q /\ (py_min3 a b c <= b)%Q /\ (py_min3 a b c <= c)%Q.
Proof.
  unfold py_min3. pose proof (py_min_le_l (py_min a b) c).
  pose proof (py_min_le_r (py_min a b) c).
  pose proof (py_min_le_l a b). pose proof (py_min_le_r a b).
  repeat split; lra.
Qed.

Lemma py_min3_pos (a b c : Q) :
  (0 < a)%Q -> (0 < b)%Q -> (0 < c)%Q -> (0 < py_min3 a b c)%Q.
Proof. intros. unfold py_min3. now repeat apply py_min_pos. Qed.

(** ** The [result] monad *)

Lemma bind_Ok {A B : Type} (a : A) (f : A -> result B) : (Ok a ≫= f) = f a.
Proof. reflexivity. Qed.

Lemma bind_Raise {A B : Type} (e : exn) (f : A -> result B) :
  (Raise e ≫= f) = Raise e.
Proof. reflexivity. Qed.

Lemma bind_Ok_inv {A B : Type} (c : result A) (f : A -> result B) (b : B) :
  (c ≫= f) = Ok b -> exists a, c = Ok a /\ f a = Ok b.
Proof. destruct c as [a|e]; [eauto | discriminate]. Qed.

Ltac py_step_in H :=
  repeat first
    [ rewrite bind_Ok in H
    | rewrite bind_Raise in H
    | progress (unfold mret, result_ret in H)
    | progress (cbn [getitem home away fst snd] in H) ].

Ltac py_step :=
  repeat first
    [ rewrite bind_Ok
    | rewrite bind_Raise
    | progress (unfold mret, result_ret)
    | progress (cbn [getitem home away fst snd]) ].

(** ** Fair-odds estimator *)

Lemma demargin_valid (h a : Q) :
  (0 < h)%Q -> (0 < a)%Q ->
  demargin (mkQuote (Some h) (Some a))
  = Ok (Some ((1 / h) / (1 / h + 1 / a), (1 / a) / (1 / h + 1 / a)))%Q.
Proof.
  intros Hh Ha. unfold demargin. py_step.
  assert (Gh : Qgtb h 0 = true) by now apply Qgtb_true.
  assert (Ga : Qgtb a 0 = true) by now apply Qgtb_true.
  rewrite Gh. py_step. rewrite Ga. py_step.
  pose proof (Qinv_pos h Hh). pose proof (Qinv_pos a Ha).
  rewrite (py_div_pos 1 h) by assumption. py_step.
  rewrite (py_div_pos 1 a) by assumption. py_step.
  rewrite py_div_pos by lra. py_step.
  rewrite py_div_pos by lra. py_step. reflexivity.
Qed.

Lemma demargin_invalid (q : Quote) :
  quote_complete q -> quote_valid q = false -> demargin q = Ok None.
Proof.
  intros [[h Hh] [a Ha]] Hv. destruct q as [qh qa]. simpl in *. subst.
  unfold quote_valid in Hv. simpl in Hv. unfold demargin. py_step.
  destruct (Qgtb h 0); py_step; [|reflexivity].
  simpl in Hv. rewrite Hv. reflexivity.
Qed.

Lemma demargin_sum (h a : Q) :
  (0 < h)%Q -> (0 < a)%Q ->
  (0 < (1 / h) / (1 / h + 1 / a) /\ 0 < (1 / a) / (1 / h + 1 / a) /\
   (1 / h) / (1 / h + 1 / a) + (1 / a) / (1 / h + 1 / a) == 1)%Q.
Proof.
  intros Hh Ha. pose proof (Qinv_pos h Hh). pose proof (Qinv_pos a Ha).
  repeat split; try (apply Qdiv_pos; lra).
  field. repeat split; lra.
Qed.

Lemma fold_left_Qplus_acc (l : list Q) (acc : Q) :
  (fold_left Qplus l acc == acc + fold_left Qplus l 0)%Q.
Proof.
  revert acc. induction l as [|x l IH]; intros acc; simpl.
  - lra.
  - rewrite (IH (acc + x)%Q), (IH (0 + x)%Q). lra.
Qed.

Lemma py_sum_cons (x : Q) (l : list Q) : (py_sum (x :: l) == x + py_sum l)%Q.
Proof.
  unfold py_sum. simpl. rewrite fold_left_Qplus_acc. lra.
Qed.

Lemma py_len_cons {A : Type} (x : A) (l : list A) :
  (py_len (x :: l) == 1 + py_len l)%Q.
Proof.
  unfold py_len. cbn [length]. rewrite Nat2Z.inj_succ, <- Z.add_1_l.
  rewrite inject_Z_plus. reflexivity.
Qed.

Lemma py_len_nonneg {A : Type} (l : list A) : (0 <= py_len l)%Q.
Proof.
  unfold py_len. change 0%Q with (inject_Z 0). rewrite <- Zle_Qle. lia.
Qed.

Lemma demargined_sums (hp ap : list Q) :
  Forall2 demargined_pair hp ap ->
  (py_sum hp + py_sum ap == py_len hp)%Q /\
  (py_len ap == py_len hp)%Q /\
  (0 <= py_sum hp)%Q /\ (0 <= py_sum ap)%Q.
Proof.
  induction 1 as [|x y hp ap (Hx & Hy & Hxy) _ (IHs & IHl & IHh & IHa)].
  - repeat split; try reflexivity; discriminate.
  - rewrite !py_sum_cons, !py_len_cons. repeat split; lra.
Qed.

Lemma demargined_sums_pos (hp ap : list Q) :
  Forall2 demargined_pair hp ap -> hp <> [] ->
  (0 < py_sum hp)%Q /\ (0 < py_sum ap)%Q /\ (0 < py_len hp)%Q.
Proof.
  intros H Hne. destruct H as [|x y hp ap (Hx & Hy & Hxy) H]; [congruence|].
  destruct (demargined_sums _ _ H) as (_ & _ & Hh & Ha).
  pose proof (py_len_nonneg hp).
  rewrite !py_sum_cons, !py_len_cons. repeat split; lra.
Qed.

Lemma fair_loop_spec (items : OddsDict) :
  quotes_complete items ->
  forall hp ap, Forall2 demargined_pair hp ap ->
  exists hp' ap',
    fair_loop items hp ap = Ok (hp', ap') /\
    Forall2 demargined_pair hp' ap' /\
    (hp' = [] <-> hp = [] /\ has_valid_quote items = false).
Proof.
  induction 1 as [|[b q] items Hq _ IH]; intros hp ap Hp.
  - exists hp, ap. simpl. intuition.
  - cbn [fair_loop has_valid_quote existsb snd].
    destruct (quote_valid q) eqn:Hv.
    + destruct q as [[h|] [a|]]; try discriminate.
      unfold quote_valid in Hv. cbn in Hv.
      apply andb_true_iff in Hv as [Hh Ha].
      apply Qgtb_true in Hh, Ha.
      rewrite demargin_valid by assumption. py_step.
      destruct (IH (hp ++ [(1 / h / (1 / h + 1 / a))%Q])
                   (ap ++ [(1 / a / (1 / h + 1 / a))%Q]))
        as (hp' & ap' & E & F & I).
      { apply Forall2_app; [assumption|]. constructor; [|constructor].
        now apply demargin_sum. }
      exists hp', ap'. split; [exact E|]. split; [exact F|].
      rewrite I. split.
      * intros [C _]. now destruct hp.
      * intros [_ C]. discriminate.
    + rewrite demargin_invalid by assumption. py_step.
      destruct (IH hp ap Hp) as (hp' & ap' & E & F & I).
      exists hp', ap'. split; [exact E|]. split; [exact F|].
      rewrite I. reflexivity.
Qed.

Lemma fair_probabilities_spec (items : OddsDict) :
  quotes_complete items ->
  exists ph pa,
    _calculate_fair_probabilities items = Ok (ph, pa) /\
    if has_valid_quote items
    then (0 < ph /\ 0 < pa /\ ph + pa == 1)%Q
    else ph = 0%Q /\ pa = 0%Q.
Proof.
  intros Hc. unfold _calculate_fair_probabilities.
  destruct (fair_loop_spec items Hc [] []) as (hp & ap & E & F & I);
    [constructor|].
  rewrite E. py_step.
  destruct hp as [|x hp].
  - destruct I as [I _]. destruct I as [_ ->]; [reflexivity|].
    exists 0%Q, 0%Q. repeat split.
  - destruct (has_valid_quote items) eqn:Hv.
    2:{ destruct I as [_ I]. discriminate I. now split. }
    destruct (demargined_sums _ _ F) as (Hs & Hl & _ & _).
    destruct (demargined_sums_pos _ _ F) as (Hh & Ha & Hn); [discriminate|].
    set (hps := x :: hp) in *.
    exists (py_sum hps / py_len hps)%Q, (py_sum ap / py_len ap)%Q. split.
    { rewrite (py_div_pos _ _ Hn). py_step.
      rewrite py_div_pos by lra. reflexivity. }
    repeat split; try (apply Qdiv_pos; lra).
    rewrite Hl. field_simplify_eq; lra.
Qed.

Lemma scenario1_complete :
  quotes_complete [("sportsbet", quote 2.10 2.05); ("ladbrokes", quote 1.95 2.20)].
Proof.
  repeat constructor; cbn; eauto.
Defined.

(** ** Arbitrage detector *)

Lemma valid_config_caps (self : AFLOpportunityFinder) :
  valid_config self ->
  (0 < max_stake_per_opportunity self)%Q /\
  (0 < bankroll self * 0.1)%Q /\
  (0 < bankroll self * 0.05)%Q.
Proof.
  intros (Hb & [Hp _] & Hm). repeat split; try lra.
  rewrite Hm. apply Qmult_lt_0_compat; [assumption|].
  apply Qdiv_pos; [assumption | reflexivity].
Qed.

Lemma arbitrage_total_stake_pos (self : AFLOpportunityFinder) :
  valid_config self ->
  (0 < py_min (max_stake_per_opportunity self) (bankroll self * 0.1))%Q.
Proof.
  intros Hc. destruct (valid_config_caps self Hc) as (? & ? & _).
  now apply py_min_pos.
Qed.

Lemma arbitrage_locals_none (self : AFLOpportunityFinder) (h a : Q) :
  (0 < h)%Q -> (0 < a)%Q -> (1 <= 1 / h + 1 / a)%Q ->
  arbitrage_locals self h a = Ok None.
Proof.
  intros Hh Ha Ht. unfold arbitrage_locals.
  rewrite (py_div_pos 1 h) by assumption. py_step.
  rewrite (py_div_pos 1 a) by assumption. py_step.
  assert (G : Qgeb (1 / h + 1 / a) 1.0 = true) by (apply Qgeb_true; lra).
  rewrite G. reflexivity.
Qed.

Lemma arbitrage_locals_some (self : AFLOpportunityFinder) (h a : Q) :
  (0 < h)%Q -> (0 < a)%Q -> (1 / h + 1 / a < 1)%Q ->
  ~ (py_min (max_stake_per_opportunity self) (bankroll self * 0.1) == 0)%Q ->
  let hp := (1 / h)%Q in
  let ap := (1 / a)%Q in
  let t := (hp + ap)%Q in
  let ts := py_min (max_stake_per_opportunity self) (bankroll self * 0.1)%Q in
  let hs := (hp / t * ts)%Q in
  let aS := (ap / t * ts)%Q in
  let gp := (py_min (hs * h) (aS * a) - ts)%Q in
  arbitrage_locals self h a
  = Ok (Some (mkArb hp ap t ((1 / t - 1) * 100)%Q ts hs aS (hs * h)%Q (aS * a)%Q
                    gp (gp / ts * 100)%Q)).
Proof.
  intros Hh Ha Ht Hts. cbv zeta. unfold arbitrage_locals.
  pose proof (Qinv_pos h Hh). pose proof (Qinv_pos a Ha).
  rewrite (py_div_pos 1 h) by assumption. py_step.
  rewrite (py_div_pos 1 a) by assumption. py_step.
  assert (G : Qgeb (1 / h + 1 / a) 1.0 = false) by (apply Qgeb_false; lra).
  rewrite G.
  rewrite (py_div_pos 1 (1 / h + 1 / a)) by lra. py_step.
  rewrite (py_div_pos (1 / h)) by lra. py_step.
  rewrite (py_div_pos (1 / a)) by lra. py_step.
  rewrite py_div_ok by assumption. reflexivity.
Qed.

Lemma equal_payout (h a ts : Q) :
  (0 < h)%Q -> (0 < a)%Q ->
  ((1 / h) / (1 / h + 1 / a) * ts * h == ts / (1 / h + 1 / a))%Q /\
  ((1 / a) / (1 / h + 1 / a) * ts * a == ts / (1 / h + 1 / a))%Q.
Proof.
  intros Hh Ha. split; field; repeat split; lra.
Qed.

(** C2.  For positive best odds h, a with 1/h + 1/a < 1 the detector
    computes stakes stake_h = (p_h/total)*total_stake and
    stake_a = (p_a/total)*total_stake with stake_h * h = stake_a * a
    (= total_stake/total), and guaranteed_profit = stake_h * h - total_stake;
    these are the unrounded values from which the emitted opportunity is
    built.  Under a valid configuration the opportunity is indeed built. *)
Theorem arbitrage_equal_payout (self : AFLOpportunityFinder) (h a : Q)
    (home_book away_book : BookKey) (home_team away_team match_name : string) :
  valid_config self ->
  (0 < h)%Q -> (0 < a)%Q -> (1 / h + 1 / a < 1)%Q ->
  exists l opp,
    arbitrage_locals self h a = Ok (Some l) /\
    _calculate_arbitrage self h a home_book away_book home_team away_team match_name
      = Ok (Some opp) /\
    a_home_prob l = (1 / h)%Q /\ a_away_prob l = (1 / a)%Q /\
    a_total_prob l = (1 / h + 1 / a)%Q /\
    a_home_stake l = (a_home_prob l / a_total_prob l * a_total_stake l)%Q /\
    a_away_stake l = (a_away_prob l / a_total_prob l * a_total_stake l)%Q /\
    (a_home_stake l * h == a_away_stake l * a)%Q /\
    (a_home_stake l * h == a_total_stake l / a_total_prob l)%Q /\
    (a_guaranteed_profit l == a_home_stake l * h - a_total_stake l)%Q /\
    guaranteed_profit opp = py_round2 (a_guaranteed_profit l) /\
    (roi opp == (a_home_stake l * h - a_total_stake l) / a_total_stake l * 100)%Q.
Proof.
  intros Hc Hh Ha Ht.
  pose proof (arbitrage_total_stake_pos self Hc) as Hts.
  assert (Hne : ~ (py_min (max_stake_per_opportunity self) (bankroll self * 0.1) == 0)%Q)
    by lra.
  pose proof (arbitrage_locals_some self h a Hh Ha Ht Hne) as E. cbv zeta in E.
  eexists _, _. split; [exact E|].
  unfold _calculate_arbitrage. rewrite E. py_step.
  split; [reflexivity|]. cbn [a_home_prob a_away_prob a_total_prob a_home_stake
    a_away_stake a_total_stake a_guaranteed_profit a_roi guaranteed_profit roi].
  set (ts := py_min (max_stake_per_opportunity self) (bankroll self * 0.1)) in *.
  destruct (equal_payout h a ts Hh Ha) as [Eh Ea].
  assert (Em : (py_min (1 / h / (1 / h + 1 / a) * ts * h)
                       (1 / a / (1 / h + 1 / a) * ts * a)
                == 1 / h / (1 / h + 1 / a) * ts * h)%Q).
  { apply py_min_eq. rewrite Eh, Ea. reflexivity. }
  repeat split; try reflexivity.
  - rewrite Eh, Ea. reflexivity.
  - exact Eh.
  - rewrite Em. reflexivity.
  - rewrite Em. reflexivity.
Qed.

Lemma default_finder_valid : valid_config default_finder.
Proof.
  unfold valid_config. cbn. repeat split; try reflexivity; discriminate.
Defined.

Lemma arbitrage_equal_payout_witness :
  exists l,
    arbitrage_locals default_finder 2.10 2.20 = Ok (Some l) /\
    (a_home_stake l * 2.10 == a_away_stake l * 2.20)%Q /\
    (a_guaranteed_profit l == a_home_stake l * 2.10 - a_total_stake l)%Q.
Proof.
  destruct (arbitrage_equal_payout default_finder 2.10 2.20
              (Some "sportsbet") (Some "ladbrokes") "Cats" "Swans" "Cats vs Swans"
              default_finder_valid)
    as (l & opp & E & _ & _ & _ & _ & _ & _ & P & _ & G & _);
    [reflexivity | reflexivity | reflexivity |].
  exists l. split; [exact E|]. split; [exact P | exact G].
Defined.

Lemma best_step_spec (prefix : OddsDict) (b : BestOdds) (bk : string) (q : Quote) :
  quote_complete q -> highest_odds prefix b ->
  exists b', best_step b bk q = Ok b' /\ highest_odds (prefix ++ [(bk, q)]) b'.
Proof.
  intros [[h Hh] [a Ha]] ([Hbh Hba] & Hmh & Hma & Hwh & Hwa).
  destruct q as [qh qa]. cbn in Hh, Ha. subst qh qa.
  unfold best_step. py_step.
  assert (Hin : forall bk' q', In (bk', q') (prefix ++ [(bk, mkQuote (Some h) (Some a))]) ->
            In (bk', q') prefix \/ (bk' = bk /\ q' = mkQuote (Some h) (Some a))).
  { intros bk' q' Hi. apply in_app_or in Hi as [Hi|[Hi|[]]]; [now left|].
    right. now inversion Hi. }
  assert (Hlast : In (bk, mkQuote (Some h) (Some a))
                     (prefix ++ [(bk, mkQuote (Some h) (Some a))])).
  { apply in_or_app. right. now left. }
  assert (Hpre : forall x, In x prefix ->
            In x (prefix ++ [(bk, mkQuote (Some h) (Some a))])).
  { intros x Hx. apply in_or_app. now left. }
  destruct (Qgtb h (best_home_odds b)) eqn:Gh;
    [apply Qgtb_true in Gh | apply Qgtb_false in Gh];
    cbn [best_home_odds best_away_odds best_home_book best_away_book];
    (destruct (Qgtb a (best_away_odds b)) eqn:Ga;
      [apply Qgtb_true in Ga | apply Qgtb_false in Ga]);
    eexists; (split; [reflexivity|]);
    unfold highest_odds;
    cbn [best_home_odds best_away_odds best_home_book best_away_book];
    (split; [split; lra|]);
    (split; [intros bk' q' h' Hi Hq; destruct (Hin _ _ Hi) as [Hi'|[-> ->]];
             [specialize (Hmh _ _ _ Hi' Hq); lra
             | cbn in Hq; inversion Hq; subst; lra] |]);
    (split; [intros bk' q' a' Hi Hq; destruct (Hin _ _ Hi) as [Hi'|[-> ->]];
             [specialize (Hma _ _ _ Hi' Hq); lra
             | cbn in Hq; inversion Hq; subst; lra] |]);
    split; intros Hpos;
    try (exists bk, (mkQuote (Some h) (Some a)); repeat split; auto; fail);
    try (destruct (Hwh Hpos) as (bk' & q' & Hi & Hq & Hb);
         exists bk', q'; repeat split; auto; fail);
    try (destruct (Hwa Hpos) as (bk' & q' & Hi & Hq & Hb);
         exists bk', q'; repeat split; auto; fail).
Qed.

Lemma best_loop_from (items prefix : OddsDict) (b : BestOdds) :
  quotes_complete items -> highest_odds prefix b ->
  exists b', best_loop items b = Ok b' /\ highest_odds (prefix ++ items) b'.
Proof.
  intros Hc. revert prefix b.
  induction Hc as [|[bk q] items Hq _ IH]; intros prefix b Hb.
  - exists b. rewrite app_nil_r. split; [reflexivity | assumption].
  - cbn [best_loop]. cbn [snd] in Hq.
    destruct (best_step_spec prefix b bk q Hq Hb) as (b1 & E1 & H1).
    rewrite E1. py_step.
    destruct (IH _ _ H1) as (b' & E & H').
    exists b'. split; [exact E|]. now rewrite <- app_assoc in H'.
Qed.

Lemma highest_odds_init : highest_odds [] best_init.
Proof.
  unfold highest_odds, best_init. cbn.
  repeat split; try lra; try (intros; contradiction); intros C; lra.
Qed.

Lemma best_loop_spec (items : OddsDict) :
  quotes_complete items ->
  exists b, best_loop items best_init = Ok b /\ highest_odds items b.
Proof.
  intros Hc. exact (best_loop_from items [] best_init Hc highest_odds_init).
Qed.

Lemma get_arbitrage_percentage_ok (h a : Q) :
  (0 < h)%Q -> (0 < a)%Q -> exists p, _get_arbitrage_percentage h a = Ok p.
Proof.
  intros Hh Ha. unfold _get_arbitrage_percentage.
  assert (Lh : Qle_bool h 0 = false).
  { destruct (Qle_bool h 0) eqn:E; [apply Qle_bool_iff in E; lra | reflexivity]. }
  assert (La : Qle_bool a 0 = false).
  { destruct (Qle_bool a 0) eqn:E; [apply Qle_bool_iff in E; lra | reflexivity]. }
  rewrite Lh, La. cbn [orb].
  pose proof (Qinv_pos h Hh). pose proof (Qinv_pos a Ha).
  rewrite (py_div_pos 1 h) by assumption. py_step.
  rewrite (py_div_pos 1 a) by assumption. py_step.
  rewrite py_div_pos by lra. py_step. eauto.
Qed.

Lemma arbitrage_loop_acc (self : AFLOpportunityFinder) (matches : list Match)
    (acc : list BettingOpportunity) :
  arbitrage_loop self matches acc
  = (found ← arbitrage_loop self matches []; Ok (acc ++ found)).
Proof.
  revert acc. induction matches as [|m matches IH]; intros acc; cbn [arbitrage_loop].
  - py_step. now rewrite app_nil_r.
  - destruct (arbitrage_for_match self m) as [new|e]; py_step; [|reflexivity].
    rewrite (IH (acc ++ new)), (IH ([] ++ new)).
    destruct (arbitrage_loop self matches []) as [found|e]; py_step; [|reflexivity].
    cbn [app]. now rewrite app_assoc.
Qed.

Lemma calculate_arbitrage_opportunities_cons (self : AFLOpportunityFinder)
    (m : Match) (matches : list Match) :
  calculate_arbitrage_opportunities self (m :: matches)
  = (new ← arbitrage_for_match self m;
     found ← calculate_arbitrage_opportunities self matches;
     Ok (new ++ found)).
Proof.
  unfold calculate_arbitrage_opportunities. cbn [arbitrage_loop].
  destruct (arbitrage_for_match self m) as [new|e]; py_step; [|reflexivity].
  cbn [app]. apply arbitrage_loop_acc.
Qed.

Lemma arbitrage_for_match_spec (self : AFLOpportunityFinder)
    (ht aw : string) (mt : option string) (items : OddsDict) (b : BestOdds) :
  valid_config self ->
  best_loop items best_init = Ok b ->
  (0 < best_home_odds b)%Q -> (0 < best_away_odds b)%Q ->
  let h := best_home_odds b in
  let a := best_away_odds b in
  let t := (1 / h + 1 / a)%Q in
  let pp := ((1 / t - 1) * 100)%Q in
  let m := mkMatch (Some ht) (Some aw) mt (Some items) in
  ((t < 1)%Q /\ (min_profit_percentage self <= pp)%Q ->
     exists opp,
       arbitrage_for_match self m = Ok [opp] /\
       _calculate_arbitrage self h a (best_home_book b) (best_away_book b)
         ht aw (ht +:+ " vs " +:+ aw) = Ok (Some opp) /\
       opportunity_type opp = arbitrage /\ profit_percentage opp = pp) /\
  (~ ((t < 1)%Q /\ (min_profit_percentage self <= pp)%Q) ->
     arbitrage_for_match self m = Ok []).
Proof.
  intros Hc Eb Hh Ha. cbv zeta.
  pose proof (arbitrage_total_stake_pos self Hc) as Hts.
  assert (Hne : ~ (py_min (max_stake_per_opportunity self) (bankroll self * 0.1) == 0)%Q)
    by lra.
  assert (Gh : Qgtb (best_home_odds b) 0 = true) by now apply Qgtb_true.
  assert (Ga : Qgtb (best_away_odds b) 0 = true) by now apply Qgtb_true.
  destruct (get_arbitrage_percentage_ok _ _ Hh Ha) as [p Ep].
  unfold arbitrage_for_match. cbn [m_home_team m_away_team m_odds]. py_step.
  rewrite Eb. py_step. rewrite Gh, Ga. cbn [andb].
  unfold _calculate_arbitrage.
  destruct (Qlt_le_dec (1 / best_home_odds b + 1 / best_away_odds b) 1) as [Ht|Ht].
  - pose proof (arbitrage_locals_some self _ _ Hh Ha Ht Hne) as E. cbv zeta in E.
    rewrite E. py_step. cbn [profit_percentage a_profit_percentage].
    destruct (Qgeb ((1 / (1 / best_home_odds b + 1 / best_away_odds b) - 1) * 100)
                   (min_profit_percentage self)) eqn:G.
    + apply Qgeb_true in G. split.
      * intros _. eexists. repeat split; reflexivity.
      * intros C. exfalso. apply C. now split.
    + apply Qgeb_false in G. rewrite Ep. py_step. split.
      * intros [_ C]. lra.
      * reflexivity.
  - rewrite (arbitrage_locals_none self _ _ Hh Ha Ht). py_step. rewrite Ep. py_step.
    split.
    + intros [C _]. lra.
    + reflexivity.
Qed.

(** In exact arithmetic: for a match whose quotes carry both prices, the
    detector's [best_*] variables hold the highest home and away odds h
    and a; when both are positive it emits an arbitrage opportunity for
    the match if and only if 1/h + 1/a < 1 strictly and
    profit_percentage = (1/(1/h + 1/a) - 1) * 100 >= min_profit_percentage,
    and it emits nothing otherwise.  The binary64 detector decides on the
    rounded values and can differ at a threshold; it is treated at the end
    of the file. *)
Theorem arbitrage_emitted_iff (self : AFLOpportunityFinder)
    (ht aw : string) (mt : option string) (items : OddsDict) :
  valid_config self -> quotes_complete items ->
  exists b,
    best_loop items best_init = Ok b /\ highest_odds items b /\
    ((0 < best_home_odds b)%Q -> (0 < best_away_odds b)%Q ->
     let h := best_home_odds b in
     let a := best_away_odds b in
     let t := (1 / h + 1 / a)%Q in
     let pp := ((1 / t - 1) * 100)%Q in
     let m := mkMatch (Some ht) (Some aw) mt (Some items) in
     exists opps,
       calculate_arbitrage_opportunities self [m] = Ok opps /\
       ((exists opp, opps = [opp] /\ opportunity_type opp = arbitrage /\
                     profit_percentage opp = pp)
        <-> (t < 1)%Q /\ (min_profit_percentage self <= pp)%Q) /\
       (opps = [] <-> ~ ((t < 1)%Q /\ (min_profit_percentage self <= pp)%Q)) /\
       ((1 <= t)%Q -> opps = [])).
Proof.
  intros Hc Hq. destruct (best_loop_spec items Hq) as (b & Eb & Hb).
  exists b. split; [exact Eb|]. split; [exact Hb|]. intros Hh Ha. cbv zeta.
  destruct (arbitrage_for_match_spec self ht aw mt items b Hc Eb Hh Ha) as [Hyes Hno].
  cbv zeta in Hyes, Hno.
  rewrite calculate_arbitrage_opportunities_cons.
  set (t := (1 / best_home_odds b + 1 / best_away_odds b)%Q) in *.
  set (pp := ((1 / t - 1) * 100)%Q) in *.
  assert (D : ((t < 1)%Q /\ (min_profit_percentage self <= pp)%Q) \/
              ~ ((t < 1)%Q /\ (min_profit_percentage self <= pp)%Q)).
  { destruct (Qlt_le_dec t 1) as [Ht|Ht]; [|right; intros [C _]; lra].
    destruct (Qlt_le_dec pp (min_profit_percentage self)) as [Hp|Hp];
      [right; intros [_ C]; lra | left; now split]. }
  destruct D as [Y|N].
  - destruct (Hyes Y) as (opp & E & _ & Ty & Pp).
    rewrite E. py_step. exists [opp]. cbn [app]. split; [reflexivity|].
    split; [|split].
    + split; [intros _; exact Y | intros _; exists opp; now repeat split].
    + split; [discriminate | intros C; contradiction].
    + intros Ht. destruct Y as [Y _]. lra.
  - rewrite (Hno N). py_step. exists []. cbn [app]. split; [reflexivity|].
    split; [|split].
    + split; [intros (opp & C & _); discriminate | intros Y; contradiction].
    + split; [intros _; exact N | reflexivity].
    + reflexivity.
Qed.

Lemma arbitrage_emitted_iff_witness :
  exists opp,
    calculate_arbitrage_opportunities default_finder [scenario1] = Ok [opp] /\
    opportunity_type opp = arbitrage.
Proof.
  destruct (arbitrage_emitted_iff default_finder "Cats" "Swans" None _
              default_finder_valid scenario1_complete) as (b & Eb & _ & H).
  vm_compute in Eb. injection Eb as <-.
  destruct H as (opps & E & [_ Hiff] & _); [reflexivity | reflexivity |].
  destruct Hiff as (opp & -> & Ty & _); [split; [reflexivity | discriminate]|].
  exists opp. split; [exact E | exact Ty].
Defined.

(** ** Entries of [stake_distribution] *)

Lemma size_one_entry (k : BookKey) (e : StakeEntry) :
  size (<[k := e]> (∅ : gmap BookKey StakeEntry)) = 1%nat.
Proof.
  rewrite map_size_insert_None by apply lookup_empty.
  now rewrite map_size_empty.
Qed.

Lemma size_two_entries (k1 k2 : BookKey) (e1 e2 : StakeEntry) :
  size (<[k2 := e2]> (<[k1 := e1]> (∅ : gmap BookKey StakeEntry)))
  = if decide (k1 = k2) then 1%nat else 2%nat.
Proof.
  destruct (decide (k1 = k2)) as [->|Hne].
  - rewrite insert_insert_eq. apply size_one_entry.
  - rewrite map_size_insert_None.
    + now rewrite size_one_entry.
    + rewrite lookup_insert_ne by assumption. apply lookup_empty.
Qed.

Lemma create_value_bet_inv (self : AFLOpportunityFinder)
    (mn ht aw : string) (side : Side) (quoted : Q) (bk : string) (vp : Q)
    (opp : BettingOpportunity) :
  _create_value_bet self mn ht aw side quoted bk vp = Ok opp ->
  exists l,
    value_bet_locals self quoted vp = Ok l /\
    opportunity_type opp = value_bet /\
    profit_percentage opp = vp /\
    roi opp = v_roi l /\
    total_stake opp = py_round2 (v_stake l) /\
    stake_distribution opp
    = <[ Some bk := {| team := match side with side_home => ht | side_away => aw end;
                       amount := py_round2 (v_stake l);
                       odds := quoted;
                       potential_return := py_round2 (v_stake l * quoted) |} ]> ∅.
Proof.
  unfold _create_value_bet. intros E.
  apply bind_Ok_inv in E as (l & El & E). py_step. injection E as <-.
  exists l. cbn. repeat split; try reflexivity. exact El.
Qed.

Lemma calculate_arbitrage_inv (self : AFLOpportunityFinder) (h a : Q)
    (hb ab : BookKey) (ht aw mn : string) (opp : BettingOpportunity) :
  _calculate_arbitrage self h a hb ab ht aw mn = Ok (Some opp) ->
  exists l,
    arbitrage_locals self h a = Ok (Some l) /\
    opportunity_type opp = arbitrage /\
    profit_percentage opp = a_profit_percentage l /\
    roi opp = a_roi l /\
    total_stake opp = py_round2 (a_total_stake l) /\
    guaranteed_profit opp = py_round2 (a_guaranteed_profit l) /\
    stake_distribution opp = arbitrage_stake_distribution l h a hb ab ht aw.
Proof.
  unfold _calculate_arbitrage. intros E.
  apply bind_Ok_inv in E as ([l|] & El & E); [|discriminate].
  injection E as <-. exists l. cbn. repeat split; try reflexivity. exact El.
Qed.

(** C4.  A value-bet opportunity has exactly one entry in
    [stake_distribution].  An arbitrage opportunity has two entries when
    the best home and away prices come from different bookmakers, and a
    single entry (the away one) when the same bookmaker offers both: the
    home entry is overwritten by the duplicate key of the dict literal.
    A single bookmaker quoting (2.5, 2.5) shows the latter case. *)
Theorem stake_distribution_entries :
  (forall self mn ht aw side quoted bk vp opp,
     _create_value_bet self mn ht aw side quoted bk vp = Ok opp ->
     size (stake_distribution opp) = 1%nat) /\
  (forall self h a hb ab ht aw mn opp,
     _calculate_arbitrage self h a hb ab ht aw mn = Ok (Some opp) ->
     size (stake_distribution opp) = if decide (hb = ab) then 1%nat else 2%nat) /\
  (exists opp e,
     calculate_arbitrage_opportunities (__init__ 1000 1.0 5.0)
       [game "Cats" "Swans" [("sportsbet", quote 2.5 2.5)]] = Ok [opp] /\
     opportunity_type opp = arbitrage /\
     size (stake_distribution opp) = 1%nat /\
     stake_distribution opp !! Some "sportsbet" = Some e /\
     team e = "Swans" /\ (amount e == 25)%Q /\ (total_stake opp == 50)%Q).
Proof.
  split; [|split].
  - intros self mn ht aw side quoted bk vp opp E.
    apply create_value_bet_inv in E as (l & _ & _ & _ & _ & _ & ->).
    apply size_one_entry.
  - intros self h a hb ab ht aw mn opp E.
    apply calculate_arbitrage_inv in E as (l & _ & _ & _ & _ & _ & _ & ->).
    apply size_two_entries.
  - eexists _, _. vm_compute. repeat split; reflexivity.
Qed.

(** ** Rounding to cents *)



(** ** Stake caps *)






Lemma value_bet_locals_inv (self : AFLOpportunityFinder) (quoted vp : Q) (l : ValueBetLocals) :
  value_bet_locals self quoted vp = Ok l ->
  v_kelly_fraction l = (vp / 100 / (quoted - 1))%Q /\
  v_stake l = py_min3 (v_kelly_fraction l * 0.25 * bankroll self)%Q
                      (max_stake_per_opportunity self) (bankroll self * 0.05)%Q /\
  v_potential_profit l = (v_stake l * (quoted - 1))%Q /\
  v_roi l = (v_potential_profit l / v_stake l * 100)%Q /\
  ~ (quoted - 1 == 0)%Q /\ ~ (v_stake l == 0)%Q.
Proof.
  unfold value_bet_locals. intros E.
  apply bind_Ok_inv in E as (kf & Ek & E).
  apply bind_Ok_inv in E as (ps & Ep & E). py_step. injection E as <-. cbn.
  unfold py_div in Ek, Ep.
  destruct (Qeq_bool (quoted - 1) 0) eqn:B1; [discriminate|]. injection Ek as <-.
  destruct (Qeq_bool _ 0) eqn:B2 in Ep; [discriminate|]. injection Ep as <-.
  repeat split; try reflexivity.
  - intros C. apply Qeq_bool_iff in C. congruence.
  - intros C. apply Qeq_bool_iff in C. congruence.
Qed.


(** ** Value-bet detector *)

Lemma valid_config_positive (self : AFLOpportunityFinder) :
  valid_config self -> positive_stakes self.
Proof. intros (Hb & [Hp _] & Hm). now repeat split. Qed.

Lemma positive_stakes_caps (self : AFLOpportunityFinder) :
  positive_stakes self ->
  (0 < bankroll self)%Q /\ (0 < max_stake_per_opportunity self)%Q.
Proof.
  intros (Hb & Hp & Hm). split; [assumption|].
  rewrite Hm. apply Qmult_lt_0_compat; [assumption|].
  apply Qdiv_pos; [assumption | reflexivity].
Qed.

Lemma value_bet_locals_pos (self : AFLOpportunityFinder) (quoted vp : Q) :
  positive_stakes self -> (1 < quoted)%Q -> (0 < vp)%Q ->
  exists l,
    value_bet_locals self quoted vp = Ok l /\
    (0 < v_stake l)%Q /\
    v_roi l = (v_potential_profit l / v_stake l * 100)%Q /\
    (v_roi l == (quoted - 1) * 100)%Q.
Proof.
  intros Hs Hq Hv. destruct (positive_stakes_caps self Hs) as [Hb Hm].
  unfold value_bet_locals.
  rewrite py_div_pos by lra. py_step.
  set (stake := py_min3 _ _ _).
  assert (Hst : (0 < stake)%Q).
  { apply py_min3_pos; [|assumption|lra].
    apply Qmult_lt_0_compat; [|assumption].
    apply Qmult_lt_0_compat; [|reflexivity].
    apply Qdiv_pos; [|lra]. apply Qdiv_pos; [assumption | reflexivity]. }
  rewrite py_div_pos by assumption. py_step.
  eexists. split; [reflexivity|]. cbn. split; [exact Hst|]. split; [reflexivity|].
  field. lra.
Qed.

Lemma value_ratio_gt (quoted fair_odds : Q) :
  (1 <= fair_odds)%Q -> (fair_odds * 1.05 < quoted)%Q ->
  (1 < quoted)%Q /\ (0 < value_percentage_of quoted fair_odds)%Q.
Proof.
  intros Hf Hq. split; [lra|]. unfold value_percentage_of.
  assert (1.05 < quoted / fair_odds)%Q.
  { apply Qlt_shift_div_l; lra. }
  lra.
Qed.

Lemma value_bet_for_side_spec (self : AFLOpportunityFinder)
    (mn ht aw : string) (side : Side) (bk : string) (quoted fair_odds : Q) :
  positive_stakes self -> (1 <= fair_odds)%Q ->
  exists out,
    value_bet_for_side self mn ht aw side bk quoted fair_odds = Ok out /\
    side_emission self bk quoted fair_odds out.
Proof.
  intros Hs Hf. unfold value_bet_for_side, side_emission, value_condition.
  destruct (Qgtb quoted (fair_odds * 1.05)) eqn:G1.
  2:{ apply Qgtb_false in G1. exists []. py_step. split; [reflexivity|].
      split; [intros [C _]; lra | reflexivity]. }
  apply Qgtb_true in G1.
  destruct (value_ratio_gt quoted fair_odds Hf G1) as [Hq Hv].
  rewrite py_div_pos by lra. py_step.
  fold (value_percentage_of quoted fair_odds).
  destruct (Qgeb (value_percentage_of quoted fair_odds) (min_profit_percentage self)) eqn:G2.
  2:{ apply Qgeb_false in G2. exists []. py_step. split; [reflexivity|].
      split; [intros [_ C]; lra | reflexivity]. }
  apply Qgeb_true in G2.
  destruct (value_bet_locals_pos self quoted _ Hs Hq Hv) as (l & El & Hst & Er & Hr).
  unfold _create_value_bet. rewrite El. py_step.
  eexists. split; [reflexivity|]. split; [|intros C; exfalso; apply C; now split].
  intros _. eexists. split; [reflexivity|].
  unfold value_bet_on. cbn [opportunity_type profit_percentage stake_distribution
    total_stake roi].
  split; [reflexivity|]. split; [reflexivity|]. split; [|split].
  - eexists. split; [apply lookup_insert_eq | reflexivity].
  - exists l. now repeat split.
  - exact Hr.
Qed.

Lemma value_bet_book_loop_spec (self : AFLOpportunityFinder) (mn ht aw : string)
    (fh fa : Q) (items : OddsDict) :
  positive_stakes self -> (1 <= fh)%Q -> (1 <= fa)%Q -> quotes_complete items ->
  forall acc, exists emitted,
    value_bet_book_loop self mn ht aw fh fa items acc = Ok (acc ++ concat emitted) /\
    Forall2 (quote_emission self fh fa) items emitted.
Proof.
  intros Hs Hfh Hfa Hc.
  induction Hc as [|[bk q] items [[h Hh] [a Ha]] _ IH]; intros acc.
  - exists []. cbn. rewrite app_nil_r. split; [reflexivity | constructor].
  - cbn [snd] in Hh, Ha. cbn [value_bet_book_loop]. rewrite Hh, Ha. py_step.
    destruct (value_bet_for_side_spec self mn ht aw side_home bk h fh Hs Hfh)
      as (oh & Eh & Sh).
    destruct (value_bet_for_side_spec self mn ht aw side_away bk a fa Hs Hfa)
      as (oa & Ea & Sa).
    rewrite Eh. py_step. rewrite Ea. py_step.
    destruct (IH (acc ++ oh ++ oa)) as (emitted & E & F).
    exists ((oh ++ oa) :: emitted). split.
    + rewrite E. cbn [concat]. now rewrite <- !app_assoc.
    + constructor; [|exact F]. exists h, a, oh, oa. cbn [fst snd].
      split; [exact Hh|]. split; [exact Ha|]. split; [reflexivity|].
      split; assumption.
Qed.

Lemma fair_odds_of_pos (p p' : Q) :
  (0 < p)%Q -> (0 < p')%Q -> (p + p' == 1)%Q ->
  fair_odds_of p = Ok (1 / p)%Q /\ (1 <= 1 / p)%Q.
Proof.
  intros Hp Hp' Hs. unfold fair_odds_of.
  assert (G : Qgtb p 0 = true) by now apply Qgtb_true.
  rewrite G, py_div_pos by assumption. split; [reflexivity|].
  apply Qle_shift_div_l; lra.
Qed.

Lemma value_bets_for_match_spec (self : AFLOpportunityFinder)
    (ht aw : string) (mt : option string) (items : OddsDict) :
  positive_stakes self -> quotes_complete items -> has_valid_quote items = true ->
  exists ph pa emitted,
    _calculate_fair_probabilities items = Ok (ph, pa) /\
    (0 < ph)%Q /\ (0 < pa)%Q /\ (ph + pa == 1)%Q /\
    value_bets_for_match self (mkMatch (Some ht) (Some aw) mt (Some items))
      = Ok (concat emitted) /\
    Forall2 (quote_emission self (1 / ph) (1 / pa)) items emitted.
Proof.
  intros Hs Hc Hv.
  destruct (fair_probabilities_spec items Hc) as (ph & pa & E & S).
  rewrite Hv in S. destruct S as (Hph & Hpa & Hsum).
  destruct (fair_odds_of_pos ph pa Hph Hpa Hsum) as [Eh Hfh].
  destruct (fair_odds_of_pos pa ph Hpa Hph) as [Ea Hfa]; [lra|].
  destruct (value_bet_book_loop_spec self (ht +:+ " vs " +:+ aw) ht aw
              (1 / ph) (1 / pa) items Hs Hfh Hfa Hc []) as (emitted & El & F).
  exists ph, pa, emitted. repeat split; try assumption.
  unfold value_bets_for_match. cbn [m_home_team m_away_team m_odds]. py_step.
  rewrite E. py_step. rewrite Eh. py_step. rewrite Ea. py_step. exact El.
Qed.

Lemma value_bet_loop_acc (self : AFLOpportunityFinder) (matches : list Match)
    (acc : list BettingOpportunity) :
  value_bet_loop self matches acc
  = (found ← value_bet_loop self matches []; Ok (acc ++ found)).
Proof.
  revert acc. induction matches as [|m matches IH]; intros acc; cbn [value_bet_loop].
  - py_step. now rewrite app_nil_r.
  - destruct (value_bets_for_match self m) as [new|e]; py_step; [|reflexivity].
    rewrite (IH (acc ++ new)), (IH ([] ++ new)).
    destruct (value_bet_loop self matches []) as [found|e]; py_step; [|reflexivity].
    cbn [app]. now rewrite app_assoc.
Qed.

Lemma calculate_value_bets_cons (self : AFLOpportunityFinder)
    (m : Match) (matches : list Match) :
  calculate_value_bets self (m :: matches)
  = (new ← value_bets_for_match self m;
     found ← calculate_value_bets self matches;
     Ok (new ++ found)).
Proof.
  unfold calculate_value_bets. cbn [value_bet_loop].
  destruct (value_bets_for_match self m) as [new|e]; py_step; [|reflexivity].
  cbn [app]. apply value_bet_loop_acc.
Qed.

(** In exact arithmetic: for a match with at least one bookmaker quote
    whose home and away odds are both positive, the fair probabilities and
    hence the fair odds 1/p of both sides are positive, and the detector's
    output for the match is, quote by quote and side by side, one value
    bet if and only if the quoted odds strictly exceed fair_odds * 1.05
    and value_percentage = ((quoted_odds / fair_odds) - 1) * 100 is
    >= min_profit_percentage, and nothing for a side failing either
    condition.  The binary64 detector decides on the rounded values and
    can differ at a threshold; it is treated at the end of the file. *)
Theorem value_bets_emitted_iff (self : AFLOpportunityFinder)
    (ht aw : string) (mt : option string) (items : OddsDict) :
  valid_config self -> quotes_complete items -> has_valid_quote items = true ->
  exists ph pa emitted,
    _calculate_fair_probabilities items = Ok (ph, pa) /\
    (0 < 1 / ph)%Q /\ (0 < 1 / pa)%Q /\
    calculate_value_bets self [mkMatch (Some ht) (Some aw) mt (Some items)]
      = Ok (concat emitted) /\
    Forall2 (quote_emission self (1 / ph) (1 / pa)) items emitted.
Proof.
  intros Hc Hq Hv. apply valid_config_positive in Hc.
  destruct (value_bets_for_match_spec self ht aw mt items Hc Hq Hv)
    as (ph & pa & emitted & E & Hph & Hpa & _ & Em & F).
  exists ph, pa, emitted. split; [exact E|].
  split; [now apply Qinv_pos|]. split; [now apply Qinv_pos|]. split; [|exact F].
  rewrite calculate_value_bets_cons, Em. py_step.
  change (calculate_value_bets self []) with (Ok (@nil BettingOpportunity)).
  py_step. now rewrite app_nil_r.
Qed.

Lemma value_bets_emitted_iff_witness :
  exists ph pa emitted,
    _calculate_fair_probabilities
      [("sportsbet", quote 2.10 2.05); ("ladbrokes", quote 1.95 2.20)] = Ok (ph, pa) /\
    (0 < 1 / ph)%Q /\ (0 < 1 / pa)%Q /\
    calculate_value_bets default_finder [scenario1] = Ok (concat emitted) /\
    Forall2 (quote_emission default_finder (1 / ph) (1 / pa))
      [("sportsbet", quote 2.10 2.05); ("ladbrokes", quote 1.95 2.20)] emitted.
Proof.
  exact (value_bets_emitted_iff default_finder "Cats" "Swans" None _
           default_finder_valid scenario1_complete eq_refl).
Defined.

Lemma value_condition_dec (self : AFLOpportunityFinder) (quoted fair_odds : Q) :
  value_condition self quoted fair_odds \/ ~ value_condition self quoted fair_odds.
Proof.
  unfold value_condition.
  destruct (Qlt_le_dec (fair_odds * 1.05) quoted) as [H1|H1];
    [|right; intros [C _]; lra].
  destruct (Qlt_le_dec (value_percentage_of quoted fair_odds)
              (min_profit_percentage self)) as [H2|H2];
    [right; intros [_ C]; lra | left; now split].
Qed.

Lemma side_emission_emitted (self : AFLOpportunityFinder) (bk : string)
    (quoted fair_odds : Q) (out : list BettingOpportunity) :
  side_emission self bk quoted fair_odds out -> Forall (emitted_value_bet self) out.
Proof.
  intros [Hy Hn]. destruct (value_condition_dec self quoted fair_odds) as [C|C].
  - destruct (Hy C) as (opp & -> & Hv). constructor; [|constructor].
    now exists bk, quoted, fair_odds.
  - rewrite (Hn C). constructor.
Qed.

Lemma quote_emissions_emitted (self : AFLOpportunityFinder) (fh fa : Q)
    (items : OddsDict) (emitted : list (list BettingOpportunity)) :
  Forall2 (quote_emission self fh fa) items emitted ->
  Forall (emitted_value_bet self) (concat emitted).
Proof.
  induction 1 as [|bq out items emitted (h & a & oh & oa & _ & _ & -> & Sh & Sa) _ IH].
  - constructor.
  - cbn [concat]. rewrite !Forall_app. repeat split; try assumption.
    + exact (side_emission_emitted _ _ _ _ _ Sh).
    + exact (side_emission_emitted _ _ _ _ _ Sa).
Qed.

Lemma value_bet_for_side_no_fair (self : AFLOpportunityFinder)
    (mn ht aw : string) (side : Side) (bk : string) (quoted : Q)
    (out : list BettingOpportunity) :
  value_bet_for_side self mn ht aw side bk quoted 0 = Ok out ->
  (quoted <= 0)%Q /\ out = [].
Proof.
  unfold value_bet_for_side. destruct (Qgtb quoted (0 * 1.05)) eqn:G.
  - rewrite py_div_zero by reflexivity. discriminate.
  - apply Qgtb_false in G. intros [= <-]. split; [lra | reflexivity].
Qed.

Lemma value_bet_book_loop_no_fair (self : AFLOpportunityFinder) (mn ht aw : string)
    (items : OddsDict) (acc out : list BettingOpportunity) :
  value_bet_book_loop self mn ht aw 0 0 items acc = Ok out -> out = acc.
Proof.
  revert acc. induction items as [|[bk q] items IH]; intros acc; cbn [value_bet_book_loop].
  - now intros [= <-].
  - intros E.
    apply bind_Ok_inv in E as (h & _ & E).
    apply bind_Ok_inv in E as (oh & Eh & E).
    apply bind_Ok_inv in E as (a & _ & E).
    apply bind_Ok_inv in E as (oa & Ea & E).
    apply value_bet_for_side_no_fair in Eh as [_ ->].
    apply value_bet_for_side_no_fair in Ea as [_ ->].
    apply IH in E. subst out. cbn. now rewrite app_nil_r.
Qed.

Lemma value_bet_book_loop_complete (self : AFLOpportunityFinder) (mn ht aw : string)
    (fh fa : Q) (items : OddsDict) (acc out : list BettingOpportunity) :
  value_bet_book_loop self mn ht aw fh fa items acc = Ok out -> quotes_complete items.
Proof.
  revert acc. induction items as [|[bk q] items IH]; intros acc; cbn [value_bet_book_loop].
  - constructor.
  - intros E.
    apply bind_Ok_inv in E as (h & Hh & E).
    apply bind_Ok_inv in E as (oh & _ & E).
    apply bind_Ok_inv in E as (a & Ha & E).
    apply bind_Ok_inv in E as (oa & _ & E).
    constructor; [|exact (IH _ E)]. cbn [snd]. split.
    + destruct (home q); [eauto | discriminate].
    + destruct (away q); [eauto | discriminate].
Qed.

Lemma value_bets_for_match_emitted (self : AFLOpportunityFinder) (m : Match)
    (out : list BettingOpportunity) :
  positive_stakes self ->
  value_bets_for_match self m = Ok out -> Forall (emitted_value_bet self) out.
Proof.
  intros Hs E. destruct m as [[ht|] [aw|] mt [items|]]; try discriminate E.
  pose proof E as E0. unfold value_bets_for_match in E.
  cbn [m_home_team m_away_team m_odds] in E. py_step_in E.
  apply bind_Ok_inv in E as ([ph pa] & Ef & E).
  apply bind_Ok_inv in E as (fh & Eh & E).
  apply bind_Ok_inv in E as (fa & Ea & E).
  pose proof (value_bet_book_loop_complete _ _ _ _ _ _ _ _ _ E) as Hc.
  destruct (has_valid_quote items) eqn:Hv.
  - destruct (value_bets_for_match_spec self ht aw mt items Hs Hc Hv)
      as (ph' & pa' & emitted & _ & _ & _ & _ & Em & F).
    rewrite Em in E0. injection E0 as <-.
    exact (quote_emissions_emitted _ _ _ _ _ F).
  - destruct (fair_probabilities_spec items Hc) as (ph' & pa' & Ef' & S).
    rewrite Hv in S. destruct S as [-> ->].
    rewrite Ef' in Ef. injection Ef as <- <-.
    injection Eh as <-. injection Ea as <-.
    apply value_bet_book_loop_no_fair in E. subst out. constructor.
Qed.

Lemma calculate_value_bets_emitted (self : AFLOpportunityFinder) (matches : list Match) :
  positive_stakes self ->
  forall opps, calculate_value_bets self matches = Ok opps ->
  Forall (emitted_value_bet self) opps.
Proof.
  intros Hs. induction matches as [|m matches IH]; intros opps E.
  - injection E as <-. constructor.
  - rewrite calculate_value_bets_cons in E.
    apply bind_Ok_inv in E as (new & En & E).
    apply bind_Ok_inv in E as (found & Ef & E). injection E as <-.
    apply Forall_app. split.
    + exact (value_bets_for_match_emitted self m new Hs En).
    + exact (IH found Ef).
Qed.

(** C8 (amended).  In exact arithmetic, with bankroll > 0 and
    max_stake_percentage > 0, every value-bet opportunity returned by the
    detector was sized with a strictly positive stake, so that
    roi = (expected_profit / stake) * 100 is well defined, and roi equals
    (quoted_odds - 1) * 100 whatever the stake.  The roi that the program
    stores is the binary64 value of (stake * (odds - 1) / stake) * 100,
    which can miss (quoted_odds - 1) * 100 in the last bits. *)
Theorem value_bet_roi_identity (b mp pct : Q) (matches : list Match)
    (opps : list BettingOpportunity) :
  (0 < b)%Q -> (0 < pct)%Q ->
  calculate_value_bets (__init__ b mp pct) matches = Ok opps ->
  forall opp, In opp opps ->
  exists bookmaker quoted e l,
    opportunity_type opp = value_bet /\
    stake_distribution opp !! Some bookmaker = Some e /\ odds e = quoted /\
    value_bet_locals (__init__ b mp pct) quoted (profit_percentage opp) = Ok l /\
    (0 < v_stake l)%Q /\
    v_potential_profit l = (v_stake l * (quoted - 1))%Q /\
    roi opp = (v_potential_profit l / v_stake l * 100)%Q /\
    (roi opp == (quoted - 1) * 100)%Q.
Proof.
  intros Hb Hp E opp Hin.
  assert (Hs : positive_stakes (__init__ b mp pct)).
  { unfold positive_stakes. cbn. repeat split; try assumption; reflexivity. }
  pose proof (calculate_value_bets_emitted _ matches Hs opps E) as F.
  rewrite Forall_forall in F.
  destruct (F opp) as (bk & quoted & fair & Ty & _ & (e & He & Ho) & (l & El & Hst & _ & Er) & Hr).
  { now apply list_elem_of_In. }
  destruct (value_bet_locals_inv _ _ _ _ El) as (_ & _ & Epp & _).
  exists bk, quoted, e, l. now repeat split.
Qed.

Lemma value_bet_roi_identity_witness :
  exists opp rest quoted,
    calculate_value_bets default_finder [scenario1] = Ok (opp :: rest) /\
    (roi opp == (quoted - 1) * 100)%Q.
Proof.
  destruct (calculate_value_bets default_finder [scenario1]) as [[|opp rest]|e] eqn:E;
    [vm_compute in E; discriminate E | | vm_compute in E; discriminate E].
  destruct (value_bet_roi_identity 1000 1.0 25.0 [scenario1] (opp :: rest)
              eq_refl eq_refl E opp (or_introl eq_refl))
    as (bk & quoted & e & l & _ & _ & _ & _ & _ & _ & _ & Hr).
  exists opp, rest, quoted. split; [reflexivity | exact Hr].
Defined.



(** ** No fair estimate *)

(** C3.  On a match whose only quote is (2.0, 0) the estimator returns
    (0, 0) and arbitrage analysis of the dataset is unaffected, but
    value-bet analysis does not skip the match: the fair odds are set to 0
    by the guard, the positive home price passes [> 0 * 1.05] and is then
    divided by the fair odds, which raises ZeroDivisionError and ends the
    run before the next match, which on its own yields value bets. *)
Theorem no_fair_estimate_raises :
  _calculate_fair_probabilities [("sportsbet", quote 2.0 0)] = Ok (0%Q, 0%Q) /\
  value_bets_for_match default_finder no_estimate = Raise ZeroDivisionError /\
  calculate_value_bets default_finder [no_estimate; scenario1]
    = Raise ZeroDivisionError /\
  (exists opp rest,
     calculate_value_bets default_finder [scenario1] = Ok (opp :: rest)) /\
  calculate_arbitrage_opportunities default_finder [no_estimate; scenario1]
    = calculate_arbitrage_opportunities default_finder [scenario1].
Proof.
  split; [vm_compute; reflexivity|]. split; [vm_compute; reflexivity|].
  split; [vm_compute; reflexivity|]. split.
  - eexists _, _. vm_compute. reflexivity.
  - vm_compute. reflexivity.
Qed.

(** ** Quotes and matches without a positive price *)

Lemma best_step_dead (b : BestOdds) (bk : string) (q : Quote) :
  best_nonneg b -> quote_dead q -> best_step b bk q = Ok b.
Proof.
  intros [Hbh Hba] (h & a & Hh & Ha & Lh & La). unfold best_step.
  rewrite Hh, Ha. py_step.
  assert (Gh : Qgtb h (best_home_odds b) = false) by (apply Qgtb_false; lra).
  rewrite Gh.
  assert (Ga : Qgtb a (best_away_odds b) = false) by (apply Qgtb_false; lra).
  now rewrite Ga.
Qed.

Lemma best_step_nonneg (b b' : BestOdds) (bk : string) (q : Quote) :
  best_nonneg b -> best_step b bk q = Ok b' -> best_nonneg b'.
Proof.
  intros [Hbh Hba] E. unfold best_step in E.
  apply bind_Ok_inv in E as (h & _ & E).
  apply bind_Ok_inv in E as (a & _ & E). py_step_in E. injection E as <-.
  unfold best_nonneg.
  destruct (Qgtb h (best_home_odds b)) eqn:Gh;
    [apply Qgtb_true in Gh | apply Qgtb_false in Gh];
    cbn [best_home_odds best_away_odds];
    (destruct (Qgtb a (best_away_odds b)) eqn:Ga;
      [apply Qgtb_true in Ga | apply Qgtb_false in Ga]);
    cbn [best_home_odds best_away_odds]; split; lra.
Qed.

Lemma best_loop_skip (l1 l2 : OddsDict) (bk : string) (q : Quote) (b : BestOdds) :
  best_nonneg b -> quote_dead q ->
  best_loop (l1 ++ (bk, q) :: l2) b = best_loop (l1 ++ l2) b.
Proof.
  intros Hb Hq. revert b Hb. induction l1 as [|[bk1 q1] l1 IH]; intros b Hb.
  - cbn [app best_loop]. rewrite best_step_dead by assumption. reflexivity.
  - cbn [app best_loop]. destruct (best_step b bk1 q1) as [b1|e] eqn:E; [|reflexivity].
    py_step. apply IH. exact (best_step_nonneg _ _ _ _ Hb E).
Qed.

Lemma best_nonneg_init : best_nonneg best_init.
Proof. split; cbn; lra. Qed.

Lemma best_loop_dead (items : OddsDict) :
  Forall (fun bq => quote_dead (snd bq)) items ->
  best_loop items best_init = Ok best_init.
Proof.
  induction 1 as [|[bk q] items Hq _ IH]; [reflexivity|].
  cbn [best_loop]. rewrite best_step_dead by (apply best_nonneg_init || exact Hq).
  exact IH.
Qed.

Lemma demargin_dead (q : Quote) : quote_dead q -> demargin q = Ok None.
Proof.
  intros (h & a & Hh & Ha & Lh & La). apply demargin_invalid.
  - split; [rewrite Hh | rewrite Ha]; eauto.
  - unfold quote_valid. rewrite Hh, Ha.
    assert (G : Qgtb h 0 = false) by now apply Qgtb_false.
    now rewrite G.
Qed.

Lemma fair_loop_skip (l1 l2 : OddsDict) (bk : string) (q : Quote) (hp ap : list Q) :
  quote_dead q ->
  fair_loop (l1 ++ (bk, q) :: l2) hp ap = fair_loop (l1 ++ l2) hp ap.
Proof.
  intros Hq. revert hp ap. induction l1 as [|[bk1 q1] l1 IH]; intros hp ap.
  - cbn [app fair_loop]. now rewrite demargin_dead by assumption.
  - cbn [app fair_loop]. destruct (demargin q1) as [[[hn an]|]|e]; py_step;
      [apply IH | apply IH | reflexivity].
Qed.

Lemma fair_loop_dead (items : OddsDict) (hp ap : list Q) :
  Forall (fun bq => quote_dead (snd bq)) items ->
  fair_loop items hp ap = Ok (hp, ap).
Proof.
  induction 1 as [|[bk q] items Hq _ IH]; [reflexivity|].
  cbn [fair_loop]. now rewrite demargin_dead by exact Hq.
Qed.

Lemma fair_odds_of_nonneg (p f : Q) : fair_odds_of p = Ok f -> (0 <= f)%Q.
Proof.
  unfold fair_odds_of. destruct (Qgtb p 0) eqn:G.
  - apply Qgtb_true in G. rewrite py_div_pos by assumption. intros [= <-].
    apply Qlt_le_weak. now apply Qinv_pos.
  - intros [= <-]. lra.
Qed.

Lemma value_bet_for_side_dead (self : AFLOpportunityFinder) (mn ht aw : string)
    (side : Side) (bk : string) (quoted fair_odds : Q) :
  (quoted <= 0)%Q -> (0 <= fair_odds)%Q ->
  value_bet_for_side self mn ht aw side bk quoted fair_odds = Ok [].
Proof.
  intros Hq Hf. unfold value_bet_for_side.
  assert (G : Qgtb quoted (fair_odds * 1.05) = false) by (apply Qgtb_false; lra).
  now rewrite G.
Qed.

Lemma value_bet_book_loop_skip (self : AFLOpportunityFinder) (mn ht aw : string)
    (fh fa : Q) (l1 l2 : OddsDict) (bk : string) (q : Quote)
    (acc : list BettingOpportunity) :
  (0 <= fh)%Q -> (0 <= fa)%Q -> quote_dead q ->
  value_bet_book_loop self mn ht aw fh fa (l1 ++ (bk, q) :: l2) acc
  = value_bet_book_loop self mn ht aw fh fa (l1 ++ l2) acc.
Proof.
  intros Hfh Hfa (h & a & Hh & Ha & Lh & La). revert acc.
  induction l1 as [|[bk1 q1] l1 IH]; intros acc.
  - cbn [app value_bet_book_loop]. rewrite Hh, Ha. py_step.
    rewrite value_bet_for_side_dead by assumption. py_step.
    rewrite value_bet_for_side_dead by assumption. py_step.
    cbn [app]. now rewrite app_nil_r.
  - cbn [app value_bet_book_loop].
    destruct (getitem "home" (home q1)) as [h1|e]; py_step; [|reflexivity].
    destruct (value_bet_for_side self mn ht aw side_home bk1 h1 fh) as [oh|e];
      py_step; [|reflexivity].
    destruct (getitem "away" (away q1)) as [a1|e]; py_step; [|reflexivity].
    destruct (value_bet_for_side self mn ht aw side_away bk1 a1 fa) as [oa|e];
      py_step; [|reflexivity].
    apply IH.
Qed.

Lemma value_bet_book_loop_dead (self : AFLOpportunityFinder) (mn ht aw : string)
    (fh fa : Q) (items : OddsDict) (acc : list BettingOpportunity) :
  (0 <= fh)%Q -> (0 <= fa)%Q ->
  Forall (fun bq => quote_dead (snd bq)) items ->
  value_bet_book_loop self mn ht aw fh fa items acc = Ok acc.
Proof.
  intros Hfh Hfa Hd. revert acc.
  induction Hd as [|[bk q] items (h & a & Hh & Ha & Lh & La) _ IH]; intros acc;
    [reflexivity|].
  cbn [snd] in Hh, Ha. cbn [value_bet_book_loop]. rewrite Hh, Ha. py_step.
  rewrite value_bet_for_side_dead by assumption. py_step.
  rewrite value_bet_for_side_dead by assumption. py_step.
  cbn [app]. rewrite app_nil_r. apply IH.
Qed.

Lemma arbitrage_for_match_skip (self : AFLOpportunityFinder) (ht aw : option string)
    (mt : option string) (l1 l2 : OddsDict) (bk : string) (q : Quote) :
  quote_dead q ->
  arbitrage_for_match self (mkMatch ht aw mt (Some (l1 ++ (bk, q) :: l2)))
  = arbitrage_for_match self (mkMatch ht aw mt (Some (l1 ++ l2))).
Proof.
  intros Hq. unfold arbitrage_for_match. cbn [m_home_team m_away_team m_odds].
  destruct ht as [ht|], aw as [aw|]; py_step; try reflexivity.
  now rewrite (best_loop_skip l1 l2 bk q best_init best_nonneg_init Hq).
Qed.

Lemma value_bets_for_match_skip (self : AFLOpportunityFinder) (ht aw : option string)
    (mt : option string) (l1 l2 : OddsDict) (bk : string) (q : Quote) :
  quote_dead q ->
  value_bets_for_match self (mkMatch ht aw mt (Some (l1 ++ (bk, q) :: l2)))
  = value_bets_for_match self (mkMatch ht aw mt (Some (l1 ++ l2))).
Proof.
  intros Hq. unfold value_bets_for_match. cbn [m_home_team m_away_team m_odds].
  destruct ht as [ht|], aw as [aw|]; py_step; try reflexivity.
  unfold _calculate_fair_probabilities.
  rewrite (fair_loop_skip l1 l2 bk q [] [] Hq).
  destruct (fair_loop (l1 ++ l2) [] [] ≫= _) as [[ph pa]|e]; py_step; [|reflexivity].
  destruct (fair_odds_of ph) as [fh|e] eqn:Eh; py_step; [|reflexivity].
  destruct (fair_odds_of pa) as [fa|e] eqn:Ea; py_step; [|reflexivity].
  apply value_bet_book_loop_skip; [| |exact Hq].
  - exact (fair_odds_of_nonneg _ _ Eh).
  - exact (fair_odds_of_nonneg _ _ Ea).
Qed.

Lemma arbitrage_for_match_dead (self : AFLOpportunityFinder) (m : Match) :
  match_dead m -> arbitrage_for_match self m = Ok [].
Proof.
  intros (ht & aw & items & Hh & Ha & Ho & Hd). unfold arbitrage_for_match.
  rewrite Hh, Ha, Ho. py_step. rewrite (best_loop_dead items Hd). py_step.
  reflexivity.
Qed.

Lemma value_bets_for_match_dead (self : AFLOpportunityFinder) (m : Match) :
  match_dead m -> value_bets_for_match self m = Ok [].
Proof.
  intros (ht & aw & items & Hh & Ha & Ho & Hd). unfold value_bets_for_match.
  rewrite Hh, Ha, Ho. py_step. unfold _calculate_fair_probabilities.
  rewrite (fair_loop_dead items [] [] Hd). py_step.
  change (fair_odds_of 0) with (Ok 0%Q). py_step.
  apply value_bet_book_loop_dead; [lra | lra | exact Hd].
Qed.

Lemma calculate_arbitrage_opportunities_skip (self : AFLOpportunityFinder)
    (ms1 ms2 : list Match) (m : Match) :
  arbitrage_for_match self m = Ok [] ->
  calculate_arbitrage_opportunities self (ms1 ++ m :: ms2)
  = calculate_arbitrage_opportunities self (ms1 ++ ms2).
Proof.
  intros E. induction ms1 as [|m1 ms1 IH]; cbn [app].
  - rewrite calculate_arbitrage_opportunities_cons, E. py_step.
    destruct (calculate_arbitrage_opportunities self ms2); reflexivity.
  - rewrite !calculate_arbitrage_opportunities_cons, IH. reflexivity.
Qed.

Lemma calculate_value_bets_skip (self : AFLOpportunityFinder)
    (ms1 ms2 : list Match) (m : Match) :
  value_bets_for_match self m = Ok [] ->
  calculate_value_bets self (ms1 ++ m :: ms2)
  = calculate_value_bets self (ms1 ++ ms2).
Proof.
  intros E. induction ms1 as [|m1 ms1 IH]; cbn [app].
  - rewrite calculate_value_bets_cons, E. py_step.
    destruct (calculate_value_bets self ms2); reflexivity.
  - rewrite !calculate_value_bets_cons, IH. reflexivity.
Qed.

(** C7 (amended).  A bookmaker quote neither of whose odds is positive is
    skipped by both detectors: the match gives the same result as without
    that quote.  A match all of whose quotes are such (an empty odds
    mapping included) is skipped by both detectors without an exception,
    and the run over the dataset gives the same result as without that
    match. *)
Theorem nonpositive_quotes_skipped (self : AFLOpportunityFinder) :
  (forall ht aw mt l1 bk q l2,
     quote_dead q ->
     arbitrage_for_match self (mkMatch ht aw mt (Some (l1 ++ (bk, q) :: l2)))
     = arbitrage_for_match self (mkMatch ht aw mt (Some (l1 ++ l2))) /\
     value_bets_for_match self (mkMatch ht aw mt (Some (l1 ++ (bk, q) :: l2)))
     = value_bets_for_match self (mkMatch ht aw mt (Some (l1 ++ l2)))) /\
  (forall ms1 m ms2,
     match_dead m ->
     arbitrage_for_match self m = Ok [] /\
     value_bets_for_match self m = Ok [] /\
     calculate_arbitrage_opportunities self (ms1 ++ m :: ms2)
     = calculate_arbitrage_opportunities self (ms1 ++ ms2) /\
     calculate_value_bets self (ms1 ++ m :: ms2)
     = calculate_value_bets self (ms1 ++ ms2)).
Proof.
  split.
  - intros ht aw mt l1 bk q l2 Hq. split.
    + now apply arbitrage_for_match_skip.
    + now apply value_bets_for_match_skip.
  - intros ms1 m ms2 Hm.
    pose proof (arbitrage_for_match_dead self m Hm) as Ea.
    pose proof (value_bets_for_match_dead self m Hm) as Ev.
    split; [exact Ea|]. split; [exact Ev|]. split.
    + now apply calculate_arbitrage_opportunities_skip.
    + now apply calculate_value_bets_skip.
Qed.

Lemma quote_dead_zero : quote_dead (quote 0 0).
Proof.
  exists 0%Q, 0%Q. repeat split; discriminate.
Defined.

Lemma all_dead_is_dead : match_dead all_dead.
Proof.
  exists "Lions", "Power", [("tab", quote 0 0)].
  repeat split. constructor; [exact quote_dead_zero | constructor].
Defined.

Lemma nonpositive_quotes_skipped_witness :
  arbitrage_for_match default_finder with_dead_quote
  = arbitrage_for_match default_finder scenario1 /\
  value_bets_for_match default_finder with_dead_quote
  = value_bets_for_match default_finder scenario1 /\
  calculate_arbitrage_opportunities default_finder [all_dead; scenario1]
  = calculate_arbitrage_opportunities default_finder [scenario1] /\
  calculate_value_bets default_finder [all_dead; scenario1]
  = calculate_value_bets default_finder [scenario1].
Proof.
  destruct (nonpositive_quotes_skipped default_finder) as [Hq Hm].
  destruct (Hq (Some "Cats") (Some "Swans") None [("sportsbet", quote 2.10 2.05)]
              "tab" (quote 0 0) [("ladbrokes", quote 1.95 2.20)] quote_dead_zero)
    as [Ea Ev].
  destruct (Hm [] all_dead [scenario1] all_dead_is_dead) as (_ & _ & Ca & Cv).
  split; [exact Ea|]. split; [exact Ev|]. split; [exact Ca | exact Cv].
Defined.

(** C7 as stated fails.  A match entry without its [away_team] field is
    not skipped: both detectors raise KeyError and the run ends before the
    next match.  A quote with one price <= 0 is not skipped either: its
    other price still competes for the best odds, and here it is the away
    leg of the arbitrage that is emitted. *)
Lemma malformed_input_not_skipped :
  calculate_arbitrage_opportunities default_finder [missing_field; scenario1]
    = Raise (KeyError "away_team") /\
  calculate_value_bets default_finder [missing_field; scenario1]
    = Raise (KeyError "away_team") /\
  (exists opp e,
     calculate_arbitrage_opportunities default_finder [one_bad_price] = Ok [opp] /\
     stake_distribution opp !! Some "sportsbet" = Some e /\
     team e = "Power" /\ (odds e == 5)%Q).
Proof.
  split; [vm_compute; reflexivity|]. split; [vm_compute; reflexivity|].
  eexists _, _. vm_compute. repeat split; reflexivity.
Qed.

(** ** Ranker *)

Lemma sort_insert_perm (x : BettingOpportunity) (l : list BettingOpportunity) :
  Permutation (sort_insert x l) (x :: l).
Proof.
  induction l as [|y l IH]; cbn [sort_insert]; [reflexivity|].
  destruct (Qgtb (roi y) (roi x)); [|reflexivity].
  rewrite IH. apply perm_swap.
Qed.

Lemma sort_by_roi_desc_perm (l : list BettingOpportunity) :
  Permutation (sort_by_roi_desc l) l.
Proof.
  induction l as [|x l IH]; cbn [sort_by_roi_desc]; [reflexivity|].
  rewrite sort_insert_perm. now constructor.
Qed.







(** * Further properties of the detection core *)

(** ** [_get_arbitrage_percentage] *)

Lemma Qinv_gt_1 (t : Q) : (0 < t)%Q -> ((1 < 1 / t)%Q <-> (t < 1)%Q).
Proof.
  intros Ht. split.
  - intros H. destruct (Qlt_le_dec t 1) as [L|L]; [exact L|].
    assert (1 / t <= 1)%Q by (apply Qle_shift_div_r; lra). lra.
  - intros H. apply Qlt_shift_div_l; lra.
Qed.



(** ** Arbitrage sizing *)

(** X2.  For an arbitrage built from positive odds with 1/h + 1/a < 1 under
    a valid configuration, the two stakes add up to total_stake, the
    guaranteed profit is positive and equals
    total_stake * profit_percentage / 100, and roi equals
    profit_percentage (all in exact arithmetic, before rounding). *)
Theorem arbitrage_roi_is_profit_percentage (self : AFLOpportunityFinder) (h a : Q) :
  valid_config self ->
  (0 < h)%Q -> (0 < a)%Q -> (1 / h + 1 / a < 1)%Q ->
  exists l,
    arbitrage_locals self h a = Ok (Some l) /\
    (a_home_stake l + a_away_stake l == a_total_stake l)%Q /\
    (0 < a_guaranteed_profit l)%Q /\
    (a_guaranteed_profit l == a_total_stake l * a_profit_percentage l / 100)%Q /\
    (a_roi l == a_profit_percentage l)%Q.
Proof.
  intros Hc Hh Ha Ht.
  pose proof (arbitrage_total_stake_pos self Hc) as Hts.
  assert (Hne : ~ (py_min (max_stake_per_opportunity self) (bankroll self * 0.1) == 0)%Q)
    by lra.
  pose proof (arbitrage_locals_some self h a Hh Ha Ht Hne) as E. cbv zeta in E.
  eexists. split; [exact E|].
  cbn [a_home_stake a_away_stake a_total_stake a_guaranteed_profit
       a_profit_percentage a_roi].
  set (ts := py_min (max_stake_per_opportunity self) (bankroll self * 0.1)) in *.
  destruct (equal_payout h a ts Hh Ha) as [Eh Ea].
  assert (Em : (py_min (1 / h / (1 / h + 1 / a) * ts * h)
                       (1 / a / (1 / h + 1 / a) * ts * a)
                == ts / (1 / h + 1 / a))%Q).
  { rewrite py_min_eq by (rewrite Eh, Ea; reflexivity). exact Eh. }
  pose proof (Qinv_pos h Hh) as Hph. pose proof (Qinv_pos a Ha) as Hpa.
  set (hp := (1 / h)%Q) in *. set (ap := (1 / a)%Q) in *.
  assert (Htp : (0 < hp + ap)%Q) by lra.
  pose proof (proj2 (Qinv_gt_1 _ Htp) Ht) as Hinv.
  rewrite Em. split; [|split; [|split]].
  - field. lra.
  - assert (Hprod : (ts / (hp + ap) == ts * (1 / (hp + ap)))%Q) by (field; lra).
    rewrite Hprod.
    assert (0 < ts * (1 / (hp + ap) - 1))%Q by (apply Qmult_lt_0_compat; lra).
    lra.
  - field. lra.
  - field. split; lra.
Qed.

Lemma arbitrage_roi_is_profit_percentage_witness :
  exists l,
    arbitrage_locals default_finder 2.10 2.20 = Ok (Some l) /\
    (a_roi l == a_profit_percentage l)%Q.
Proof.
  destruct (arbitrage_roi_is_profit_percentage default_finder 2.10 2.20
              default_finder_valid) as (l & E & _ & _ & _ & R);
    [reflexivity | reflexivity | reflexivity |].
  exists l. split; [exact E | exact R].
Defined.




(** X4.  The stake of a value bet never exceeds 5% of the bankroll, and
    with a positive bankroll a max_stake_percentage of 5 or more has no
    effect on it: the stake is min(0.25 * kelly_fraction * bankroll,
    bankroll * 0.05). *)
Theorem value_bet_stake_cap (b mp pct quoted vp : Q) (l : ValueBetLocals) :
  (0 < b)%Q ->
  value_bet_locals (__init__ b mp pct) quoted vp = Ok l ->
  (v_stake l <= b * 0.05)%Q /\
  ((5 <= pct)%Q ->
     (v_stake l == py_min (v_kelly_fraction l * 0.25 * b) (b * 0.05))%Q).
Proof.
  intros Hb E.
  destruct (value_bet_locals_inv _ _ _ _ E) as (_ & Est & _).
  cbn [max_stake_per_opportunity bankroll __init__] in Est. rewrite Est.
  set (k := (v_kelly_fraction l * 0.25 * b)%Q).
  split; [apply (py_min3_le k)|].
  intros Hp.
  assert (Hc : (b * 0.05 <= b * (pct / 100))%Q).
  { unfold Qdiv. change (/ 100)%Q with (1 # 100)%Q.
    apply Qmult_le_l; [assumption | lra]. }
  unfold py_min3.
  destruct (py_min_cases k (b * (pct / 100))) as [[E1 L1]|[E1 L1]]; rewrite E1.
  - reflexivity.
  - destruct (py_min_cases (b * (pct / 100)) (b * 0.05)) as [[-> L2]|[-> L2]];
      destruct (py_min_cases k (b * 0.05)) as [[-> L3]|[-> L3]]; lra.
Qed.

Lemma value_bet_stake_cap_witness :
  exists l,
    value_bet_locals (__init__ 1000 1.0 25.0) 3 25 = Ok l /\
    (v_stake l <= 1000 * 0.05)%Q.
Proof.
  destruct (value_bet_locals (__init__ 1000 1.0 25.0) 3 25) as [l|e] eqn:E;
    [| vm_compute in E; discriminate E].
  destruct (value_bet_stake_cap 1000 1.0 25.0 3 25 l eq_refl E) as [H _].
  exists l. split; [reflexivity | exact H].
Defined.

(** ** What the detectors return *)

Lemma py_div_Ok_inv (x y r : Q) :
  py_div x y = Ok r -> ~ (y == 0)%Q /\ r = (x / y)%Q.
Proof.
  unfold py_div. destruct (Qeq_bool y 0) eqn:E; [discriminate|].
  intros [= <-]. split; [|reflexivity].
  intros C. apply Qeq_bool_iff in C. congruence.
Qed.

Lemma value_bet_for_side_clears (self : AFLOpportunityFinder) (mn ht aw : string)
    (side : Side) (bk : string) (quoted fair_odds : Q) (out : list BettingOpportunity) :
  (0 <= fair_odds)%Q ->
  value_bet_for_side self mn ht aw side bk quoted fair_odds = Ok out ->
  Forall (clears_edge self) out.
Proof.
  intros Hf. unfold value_bet_for_side.
  destruct (Qgtb quoted (fair_odds * 1.05)) eqn:G1; [|intros [= <-]; constructor].
  apply Qgtb_true in G1. intros E.
  apply bind_Ok_inv in E as (ratio & Er & E).
  apply py_div_Ok_inv in Er as [Hne ->].
  destruct (Qgeb ((quoted / fair_odds - 1) * 100) (min_profit_percentage self)) eqn:G2;
    [|injection E as <-; constructor].
  apply Qgeb_true in G2.
  apply bind_Ok_inv in E as (vb & Ev & E). injection E as <-.
  apply create_value_bet_inv in Ev as (l & _ & Ty & Pp & _).
  constructor; [|constructor]. unfold clears_edge. rewrite Pp.
  split; [exact Ty|]. split; [|exact G2].
  assert (Hpos : (0 < fair_odds)%Q) by lra.
  assert (1.05 < quoted / fair_odds)%Q by (apply Qlt_shift_div_l; lra).
  lra.
Qed.

Lemma value_bet_book_loop_clears (self : AFLOpportunityFinder) (mn ht aw : string)
    (fh fa : Q) (items : OddsDict) :
  (0 <= fh)%Q -> (0 <= fa)%Q ->
  forall acc out,
    Forall (clears_edge self) acc ->
    value_bet_book_loop self mn ht aw fh fa items acc = Ok out ->
    Forall (clears_edge self) out.
Proof.
  intros Hfh Hfa. induction items as [|[bk q] items IH]; intros acc out Hacc E;
    cbn [value_bet_book_loop] in E.
  - now injection E as <-.
  - apply bind_Ok_inv in E as (h & _ & E).
    apply bind_Ok_inv in E as (oh & Eh & E).
    apply bind_Ok_inv in E as (a & _ & E).
    apply bind_Ok_inv in E as (oa & Ea & E).
    apply (IH _ _) in E; [exact E|].
    rewrite !Forall_app. split; [exact Hacc|]. split.
    + exact (value_bet_for_side_clears _ _ _ _ _ _ _ _ _ Hfh Eh).
    + exact (value_bet_for_side_clears _ _ _ _ _ _ _ _ _ Hfa Ea).
Qed.

Lemma value_bets_for_match_clears (self : AFLOpportunityFinder) (m : Match)
    (out : list BettingOpportunity) :
  value_bets_for_match self m = Ok out -> Forall (clears_edge self) out.
Proof.
  unfold value_bets_for_match. intros E.
  apply bind_Ok_inv in E as (ht & _ & E).
  apply bind_Ok_inv in E as (aw & _ & E).
  apply bind_Ok_inv in E as (items & _ & E).
  apply bind_Ok_inv in E as ([ph pa] & _ & E).
  apply bind_Ok_inv in E as (fh & Eh & E).
  apply bind_Ok_inv in E as (fa & Ea & E).
  apply bind_Ok_inv in E as (items' & _ & E).
  refine (value_bet_book_loop_clears _ _ _ _ _ _ items'
            (fair_odds_of_nonneg _ _ Eh) (fair_odds_of_nonneg _ _ Ea) [] out _ E).
  constructor.
Qed.

Lemma calculate_value_bets_clears (self : AFLOpportunityFinder)
    (matches : list Match) (opps : list BettingOpportunity) :
  calculate_value_bets self matches = Ok opps ->
  Forall (clears_edge self) opps.
Proof.
  revert opps. induction matches as [|m matches IH]; intros opps E.
  - injection E as <-. constructor.
  - rewrite calculate_value_bets_cons in E.
    apply bind_Ok_inv in E as (new & En & E).
    apply bind_Ok_inv in E as (found & Ef & E). injection E as <-.
    apply Forall_app. split.
    + exact (value_bets_for_match_clears self m new En).
    + exact (IH found Ef).
Qed.

(** X5.  Every value bet returned by [calculate_value_bets] has type
    value_bet and a profit_percentage that is above 5 and at least
    min_profit_percentage: because of the fixed 5% buffer, a configured
    minimum of 5 or less does not change the output. *)
Theorem value_bets_clear_five_percent (self : AFLOpportunityFinder)
    (matches : list Match) (opps : list BettingOpportunity) :
  calculate_value_bets self matches = Ok opps ->
  Forall (clears_edge self) opps.
Proof.
  intros E. exact (calculate_value_bets_clears self matches opps E).
Qed.

Lemma value_bets_clear_five_percent_witness :
  exists opp rest,
    calculate_value_bets default_finder [scenario1] = Ok (opp :: rest) /\
    (5 < profit_percentage opp)%Q.
Proof.
  destruct (calculate_value_bets default_finder [scenario1]) as [[|opp rest]|e] eqn:E;
    [vm_compute in E; discriminate E | | vm_compute in E; discriminate E].
  pose proof (value_bets_clear_five_percent default_finder [scenario1] _ E) as F.
  apply Forall_cons_1 in F as [(_ & H & _) _].
  exists opp, rest. split; [reflexivity | exact H].
Defined.

Lemma arbitrage_locals_profit (self : AFLOpportunityFinder) (h a : Q)
    (l : ArbitrageLocals) :
  (0 < h)%Q -> (0 < a)%Q ->
  arbitrage_locals self h a = Ok (Some l) ->
  (1 / h + 1 / a < 1)%Q /\
  a_profit_percentage l = ((1 / (1 / h + 1 / a) - 1) * 100)%Q.
Proof.
  intros Hh Ha E. unfold arbitrage_locals in E.
  pose proof (Qinv_pos h Hh). pose proof (Qinv_pos a Ha).
  rewrite (py_div_pos 1 h) in E by assumption. py_step_in E.
  rewrite (py_div_pos 1 a) in E by assumption. py_step_in E.
  destruct (Qgeb (1 / h + 1 / a) 1.0) eqn:G; [discriminate|].
  apply Qgeb_false in G.
  rewrite (py_div_pos 1 (1 / h + 1 / a)) in E by lra. py_step_in E.
  apply bind_Ok_inv in E as (hs & _ & E).
  apply bind_Ok_inv in E as (aS & _ & E).
  apply bind_Ok_inv in E as (pps & _ & E).
  injection E as <-. split; [lra | reflexivity].
Qed.

Lemma arbitrage_for_match_profitable (self : AFLOpportunityFinder) (m : Match)
    (out : list BettingOpportunity) :
  arbitrage_for_match self m = Ok out ->
  Forall (profitable_arbitrage self) out /\ (length out <= 1)%nat.
Proof.
  unfold arbitrage_for_match. intros E.
  apply bind_Ok_inv in E as (ht & _ & E).
  apply bind_Ok_inv in E as (aw & _ & E).
  apply bind_Ok_inv in E as (items & _ & E).
  apply bind_Ok_inv in E as (b & _ & E).
  destruct (Qgtb (best_home_odds b) 0) eqn:Gh; cbn [andb] in E.
  2:{ injection E as <-. split; [constructor | cbn; lia]. }
  destruct (Qgtb (best_away_odds b) 0) eqn:Ga.
  2:{ injection E as <-. split; [constructor | cbn; lia]. }
  apply Qgtb_true in Gh, Ga.
  apply bind_Ok_inv in E as ([opp|] & Ec & E).
  2:{ apply bind_Ok_inv in E as (p & _ & E). injection E as <-.
      split; [constructor | cbn; lia]. }
  destruct (Qgeb (profit_percentage opp) (min_profit_percentage self)) eqn:G.
  2:{ apply bind_Ok_inv in E as (p & _ & E). injection E as <-.
      split; [constructor | cbn; lia]. }
  injection E as <-. apply Qgeb_true in G.
  apply calculate_arbitrage_inv in Ec as (l & El & Ty & Pp & _).
  destruct (arbitrage_locals_profit _ _ _ _ Gh Ga El) as [Ht Epp].
  split; [|cbn; lia]. constructor; [|constructor].
  split; [exact Ty|]. split; [|exact G].
  rewrite Pp, Epp.
  pose proof (Qinv_pos _ Gh). pose proof (Qinv_pos _ Ga).
  assert (Htp : (0 < 1 / best_home_odds b + 1 / best_away_odds b)%Q) by lra.
  pose proof (proj2 (Qinv_gt_1 _ Htp) Ht). lra.
Qed.


Lemma calculate_arbitrage_profitable (self : AFLOpportunityFinder)
    (matches : list Match) (opps : list BettingOpportunity) :
  calculate_arbitrage_opportunities self matches = Ok opps ->
  Forall (profitable_arbitrage self) opps.
Proof.
  revert opps. induction matches as [|m matches IH]; intros opps E.
  - injection E as <-. constructor.
  - rewrite calculate_arbitrage_opportunities_cons in E.
    apply bind_Ok_inv in E as (new & En & E).
    apply bind_Ok_inv in E as (found & Ef & E). injection E as <-.
    apply Forall_app. split.
    + exact (proj1 (arbitrage_for_match_profitable self m new En)).
    + exact (IH found Ef).
Qed.











(** ** Best prices *)

Lemma best_step_first (prefix : OddsDict) (b b' : BestOdds) (bk : string) (q : Quote) :
  highest_odds prefix b ->
  first_best_home prefix b -> first_best_away prefix b ->
  best_step b bk q = Ok b' ->
  first_best_home (prefix ++ [(bk, q)]) b' /\
  first_best_away (prefix ++ [(bk, q)]) b'.
Proof.
  intros (_ & Hmh & Hma & _ & _) Fh Fa E. unfold best_step in E.
  apply bind_Ok_inv in E as (h & Hh & E).
  apply bind_Ok_inv in E as (a & Ha & E). py_step_in E. injection E as <-.
  destruct (home q) as [h0|] eqn:Eh; [|discriminate]. injection Hh as ->.
  destruct (away q) as [a0|] eqn:Ea; [|discriminate]. injection Ha as ->.
  assert (Kh : forall l1 bk0 q0 l2, prefix = l1 ++ (bk0, q0) :: l2 ->
             prefix ++ [(bk, q)] = l1 ++ (bk0, q0) :: (l2 ++ [(bk, q)])).
  { intros l1 bk0 q0 l2 ->. now rewrite <- app_assoc. }
  unfold first_best_home, first_best_away in *.
  destruct (Qgtb h (best_home_odds b)) eqn:Gh;
    [apply Qgtb_true in Gh | apply Qgtb_false in Gh];
    cbn [best_home_odds best_away_odds best_home_book best_away_book];
    (destruct (Qgtb a (best_away_odds b)) eqn:Ga;
      [apply Qgtb_true in Ga | apply Qgtb_false in Ga]);
    cbn [best_home_odds best_away_odds best_home_book best_away_book];
    split; intros Hpos;
    try (exists prefix, bk, q, []; split; [reflexivity|];
         split; [assumption|]; split; [reflexivity|];
         intros bk' q' x' Hi Hq';
         first [specialize (Hmh _ _ _ Hi Hq') | specialize (Hma _ _ _ Hi Hq')];
         lra);
    try (destruct (Fh Hpos) as (l1 & bk0 & q0 & l2 & El & Hq0 & Hb0 & Hlt);
         exists l1, bk0, q0, (l2 ++ [(bk, q)]);
         split; [now apply Kh|]; now repeat split);
    try (destruct (Fa Hpos) as (l1 & bk0 & q0 & l2 & El & Hq0 & Hb0 & Hlt);
         exists l1, bk0, q0, (l2 ++ [(bk, q)]);
         split; [now apply Kh|]; now repeat split).
Qed.

Lemma best_loop_first_from (items prefix : OddsDict) (b : BestOdds) :
  quotes_complete items -> highest_odds prefix b ->
  first_best_home prefix b -> first_best_away prefix b ->
  exists b',
    best_loop items b = Ok b' /\ highest_odds (prefix ++ items) b' /\
    first_best_home (prefix ++ items) b' /\ first_best_away (prefix ++ items) b'.
Proof.
  intros Hc. revert prefix b.
  induction Hc as [|[bk q] items Hq _ IH]; intros prefix b Hb Fh Fa.
  - exists b. rewrite app_nil_r. split; [reflexivity|]. split; [exact Hb|].
    split; assumption.
  - cbn [best_loop]. cbn [snd] in Hq.
    destruct (best_step_spec prefix b bk q Hq Hb) as (b1 & E1 & H1).
    destruct (best_step_first prefix b b1 bk q Hb Fh Fa E1) as [Fh1 Fa1].
    rewrite E1. py_step.
    destruct (IH _ _ H1 Fh1 Fa1) as (b' & E & H' & Fh' & Fa').
    exists b'. split; [exact E|]. rewrite <- !app_assoc in H', Fh', Fa'.
    split; [exact H'|]. split; assumption.
Qed.

(** X8.  Ties between bookmakers go to the first one: after the inner
    loop of [calculate_arbitrage_opportunities], a positive best price is
    the highest price of its side, and its recorded bookmaker is the first
    one in iteration order that quotes it. *)
Theorem best_book_is_first (items : OddsDict) :
  quotes_complete items ->
  exists b,
    best_loop items best_init = Ok b /\
    highest_odds items b /\ first_best_home items b /\ first_best_away items b.
Proof.
  intros Hc.
  apply (best_loop_first_from items [] best_init Hc highest_odds_init).
  - intros C. cbn in C. lra.
  - intros C. cbn in C. lra.
Qed.

Lemma best_book_is_first_witness :
  exists b,
    best_loop tied_books best_init = Ok b /\
    best_home_book b = Some "sportsbet" /\ best_away_book b = Some "ladbrokes".
Proof.
  assert (Hc : quotes_complete tied_books) by (repeat constructor; cbn; eauto).
  destruct (best_book_is_first tied_books Hc) as (b & E & _).
  exists b. split; [exact E|].
  vm_compute in E. injection E as <-. split; reflexivity.
Defined.

(** ** Reporting *)

Lemma filter_length_perm {A : Type} (f : A -> bool) (l l' : list A) :
  Permutation l l' -> length (List.filter f l) = length (List.filter f l').
Proof.
  induction 1 as [|x l l' _ IH|x y l|l l' l'' _ IH1 _ IH2]; cbn [List.filter].
  - reflexivity.
  - destruct (f x); cbn [length]; now rewrite IH.
  - destruct (f x), (f y); reflexivity.
  - now rewrite IH1.
Qed.

Lemma py_sum_perm (l l' : list Q) : Permutation l l' -> (py_sum l == py_sum l')%Q.
Proof.
  induction 1 as [|x l l' _ IH|x y l|l l' l'' _ IH1 _ IH2].
  - reflexivity.
  - rewrite !py_sum_cons, IH. reflexivity.
  - rewrite !py_sum_cons. lra.
  - now rewrite IH1.
Qed.

Lemma py_sum_app (l l' : list Q) : (py_sum (l ++ l') == py_sum l + py_sum l')%Q.
Proof.
  induction l as [|x l IH]; cbn [app].
  - assert (E : (py_sum [] == 0)%Q) by reflexivity. lra.
  - rewrite !py_sum_cons, IH. lra.
Qed.

Lemma filter_all {A : Type} (f : A -> bool) (l : list A) :
  Forall (fun x => f x = true) l -> List.filter f l = l.
Proof.
  induction 1 as [|x l Hx _ IH]; cbn [List.filter]; [reflexivity|].
  now rewrite Hx, IH.
Qed.

Lemma filter_none {A : Type} (f : A -> bool) (l : list A) :
  Forall (fun x => f x = false) l -> List.filter f l = [].
Proof.
  induction 1 as [|x l Hx _ IH]; cbn [List.filter]; [reflexivity|].
  now rewrite Hx, IH.
Qed.

Lemma counts_of_concatenation (arbs vals : list BettingOpportunity) :
  Forall (fun o => opportunity_type o = arbitrage) arbs ->
  Forall (fun o => opportunity_type o = value_bet) vals ->
  arbitrage_count (arbs ++ vals) = length arbs /\
  value_count (arbs ++ vals) = length vals.
Proof.
  intros Ha Hv. unfold arbitrage_count, value_count. rewrite !List.filter_app, !length_app.
  rewrite (filter_all is_arbitrage arbs), (filter_none is_arbitrage vals),
          (filter_none is_value_bet arbs), (filter_all is_value_bet vals).
  - cbn [length]. split; lia.
  - eapply Forall_impl; [exact Hv|]. intros o E. unfold is_value_bet. now rewrite E.
  - eapply Forall_impl; [exact Ha|]. intros o E. unfold is_value_bet. now rewrite E.
  - eapply Forall_impl; [exact Hv|]. intros o E. unfold is_arbitrage. now rewrite E.
  - eapply Forall_impl; [exact Ha|]. intros o E. unfold is_arbitrage. now rewrite E.
Qed.

(** X9.  When both detectors return, [run_analysis] returns the ranked
    list; the figures it displays and saves count every opportunity once:
    the arbitrage count is the number of opportunities the arbitrage
    detector found, the value-bet count the number the value-bet detector
    found, total_opportunities their sum, and the total potential profit
    the sum over both lists (in exact arithmetic).  Nothing is saved
    exactly when both detectors found nothing. *)
Theorem run_analysis_summary (self : AFLOpportunityFinder) (matches : list Match)
    (arbs vals : list BettingOpportunity) :
  calculate_arbitrage_opportunities self matches = Ok arbs ->
  calculate_value_bets self matches = Ok vals ->
  exists out shown saved,
    run_analysis self (Some matches) = Ok (out, shown, saved) /\
    find_all_opportunities self (Some matches) = Ok out /\
    length out = (length arbs + length vals)%nat /\
    arbitrage_count out = length arbs /\
    value_count out = length vals /\
    (total_potential_profit out
     == total_potential_profit arbs + total_potential_profit vals)%Q /\
    (saved = None <-> arbs = [] /\ vals = []) /\
    (forall r, saved = Some r ->
       r_opportunities r = out /\
       r_total_opportunities r = (length arbs + length vals)%nat /\
       r_total_potential_profit r = total_potential_profit out /\
       shown = Some (mkSummary (length out) (length arbs) (length vals)
                               (total_potential_profit out))).
Proof.
  intros Ea Ev.
  assert (Ef : find_all_opportunities self (Some matches)
               = Ok (sort_by_roi_desc (arbs ++ vals))).
  { destruct matches as [|m matches].
    - injection Ea as <-. injection Ev as <-. reflexivity.
    - unfold find_all_opportunities. rewrite Ea. py_step. rewrite Ev. py_step.
      reflexivity. }
  pose proof (sort_by_roi_desc_perm (arbs ++ vals)) as P.
  set (out := sort_by_roi_desc (arbs ++ vals)) in *.
  assert (Ta : Forall (fun o => opportunity_type o = arbitrage) arbs).
  { eapply Forall_impl; [exact (calculate_arbitrage_profitable _ _ _ Ea)|].
    now intros o [T _]. }
  assert (Tv : Forall (fun o => opportunity_type o = value_bet) vals).
  { eapply Forall_impl; [exact (calculate_value_bets_clears _ _ _ Ev)|].
    now intros o [T _]. }
  destruct (counts_of_concatenation arbs vals Ta Tv) as [Ca Cv].
  assert (Hlen : length out = (length arbs + length vals)%nat).
  { rewrite (Permutation_length P). apply length_app. }
  assert (Hca : arbitrage_count out = length arbs).
  { unfold arbitrage_count. rewrite (filter_length_perm _ _ _ P). exact Ca. }
  assert (Hcv : value_count out = length vals).
  { unfold value_count. rewrite (filter_length_perm _ _ _ P). exact Cv. }
  assert (Hsum : (total_potential_profit out
                  == total_potential_profit arbs + total_potential_profit vals)%Q).
  { unfold total_potential_profit.
    rewrite (py_sum_perm _ _ (Permutation_map guaranteed_profit P)).
    rewrite map_app. apply py_sum_app. }
  exists out, (display_opportunities out),
    (match out with [] => None | _ => Some (save_opportunities self out) end).
  split; [unfold run_analysis; rewrite Ef; reflexivity|].
  split; [exact Ef|]. split; [exact Hlen|]. split; [exact Hca|].
  split; [exact Hcv|]. split; [exact Hsum|]. split.
  - destruct out as [|o out'].
    + split; [intros _|reflexivity].
      destruct arbs, vals; cbn in Hlen; try discriminate. now split.
    + split; [discriminate|]. intros [-> ->]. cbn in Hlen. discriminate.
  - intros r Hr. destruct out as [|o out'] eqn:Eo; [discriminate|].
    injection Hr as <-. cbn [save_opportunities r_opportunities
      r_total_opportunities r_total_potential_profit].
    split; [reflexivity|]. split; [exact Hlen|]. split; [reflexivity|].
    unfold display_opportunities. now rewrite Hca, Hcv.
Qed.

Lemma run_analysis_summary_witness :
  exists out shown saved,
    run_analysis default_finder (Some [scenario1]) = Ok (out, shown, saved) /\
    arbitrage_count out = 1%nat /\ value_count out = 2%nat.
Proof.
  destruct (calculate_arbitrage_opportunities default_finder [scenario1])
    as [arbs|e] eqn:Ea; [|vm_compute in Ea; discriminate Ea].
  destruct (calculate_value_bets default_finder [scenario1])
    as [vals|e] eqn:Ev; [|vm_compute in Ev; discriminate Ev].
  destruct (run_analysis_summary default_finder [scenario1] arbs vals Ea Ev)
    as (out & shown & saved & E & _ & _ & Ca & Cv & _).
  exists out, shown, saved. split; [exact E|].
  rewrite Ca, Cv.
  vm_compute in Ea. injection Ea as <-. vm_compute in Ev. injection Ev as <-.
  split; reflexivity.
Defined.

(** ** More bookmakers *)






(** ** Order of the bookmakers *)

Lemma fair_loop_demargined (items : OddsDict) :
  quotes_complete items ->
  forall hp ap,
    fair_loop items hp ap
    = Ok (hp ++ map fst (demargined items), ap ++ map snd (demargined items)).
Proof.
  induction 1 as [|[bk q] items [[h Hh] [a Ha]] _ IH]; intros hp ap.
  - cbn. now rewrite !app_nil_r.
  - cbn [snd] in Hh, Ha. cbn [fair_loop demargined flat_map snd].
    fold (demargined items). rewrite Hh, Ha.
    destruct q as [qh qa]. cbn in Hh, Ha. subst qh qa.
    destruct (Qgtb h 0 && Qgtb a 0) eqn:G.
    + apply andb_true_iff in G as [Gh Ga]. apply Qgtb_true in Gh, Ga.
      rewrite demargin_valid by assumption. py_step. rewrite IH.
      cbn [app map fst snd]. now rewrite <- !app_assoc.
    + rewrite demargin_invalid; [py_step; apply IH | split; cbn; eauto |].
      unfold quote_valid. cbn. exact G.
Qed.

Lemma fair_probabilities_mean (items : OddsDict) :
  quotes_complete items ->
  _calculate_fair_probabilities items
  = match demargined items with
    | [] => Ok (0%Q, 0%Q)
    | pairs => Ok (py_sum (map fst pairs) / py_len (map fst pairs),
                   py_sum (map snd pairs) / py_len (map snd pairs))%Q
    end.
Proof.
  intros Hc. unfold _calculate_fair_probabilities.
  rewrite (fair_loop_demargined items Hc). py_step. cbn [app].
  destruct (demargined items) as [|p pairs]; [reflexivity|].
  cbn [map]. set (hps := fst p :: map fst pairs). set (aps := snd p :: map snd pairs).
  assert (Hh : (0 < py_len hps)%Q).
  { unfold hps. rewrite py_len_cons. pose proof (py_len_nonneg (map fst pairs)). lra. }
  assert (Ha : (0 < py_len aps)%Q).
  { unfold aps. rewrite py_len_cons. pose proof (py_len_nonneg (map snd pairs)). lra. }
  rewrite (py_div_pos _ _ Hh). py_step. rewrite (py_div_pos _ _ Ha). reflexivity.
Qed.

Lemma py_len_perm {A : Type} (l l' : list A) : Permutation l l' -> py_len l = py_len l'.
Proof. intros P. unfold py_len. now rewrite (Permutation_length P). Qed.

(** X12.  The fair probabilities do not depend on the order of the
    bookmakers: for an odds mapping whose quotes carry both prices, the
    estimator returns on every reordering of it, with the same home and
    away probabilities (in exact arithmetic). *)
Theorem fair_probabilities_order_independent (items items' : OddsDict) :
  quotes_complete items -> Permutation items items' ->
  exists ph pa ph' pa',
    _calculate_fair_probabilities items = Ok (ph, pa) /\
    _calculate_fair_probabilities items' = Ok (ph', pa') /\
    (ph == ph')%Q /\ (pa == pa')%Q.
Proof.
  intros Hc P.
  assert (Hc' : quotes_complete items').
  { unfold quotes_complete in *. rewrite List.Forall_forall in Hc |- *.
    intros x Hx. apply Hc. apply (Permutation_in x (Permutation_sym P) Hx). }
  rewrite (fair_probabilities_mean items Hc), (fair_probabilities_mean items' Hc').
  assert (Pd : Permutation (demargined items) (demargined items')).
  { unfold demargined. now apply Permutation_flat_map. }
  destruct (demargined items) as [|p pairs] eqn:E.
  - apply Permutation_nil in Pd. rewrite Pd.
    exists 0%Q, 0%Q, 0%Q, 0%Q. now repeat split.
  - destruct (demargined items') as [|p' pairs'] eqn:E'.
    + apply Permutation_sym, Permutation_nil in Pd. discriminate.
    + eexists _, _, _, _. split; [reflexivity|]. split; [reflexivity|].
      pose proof (Permutation_map fst Pd) as Pf.
      pose proof (Permutation_map snd Pd) as Ps.
      rewrite (py_sum_perm _ _ Pf), (py_len_perm _ _ Pf).
      rewrite (py_sum_perm _ _ Ps), (py_len_perm _ _ Ps).
      split; reflexivity.
Qed.

Lemma fair_probabilities_order_independent_witness :
  exists ph pa ph' pa',
    _calculate_fair_probabilities
      [("sportsbet", quote 2.10 2.05); ("ladbrokes", quote 1.95 2.20)] = Ok (ph, pa) /\
    _calculate_fair_probabilities
      [("ladbrokes", quote 1.95 2.20); ("sportsbet", quote 2.10 2.05)] = Ok (ph', pa') /\
    (ph == ph')%Q /\ (pa == pa')%Q.
Proof.
  exact (fair_probabilities_order_independent _ _ scenario1_complete
           (perm_swap _ _ [])).
Defined.

(** ** Consolidation of the scraped odds *)

Lemma dict_get_set_eq {V : Type} (k : string) (v : V) (d : list (string * V)) :
  dict_get k (dict_set k v d) = Some v.
Proof.
  induction d as [|[k' v'] d IH]; cbn [dict_set dict_get].
  - now rewrite String.eqb_refl.
  - destruct (String.eqb k k') eqn:E; cbn [dict_get]; rewrite E; [reflexivity | exact IH].
Qed.

Lemma dict_set_set {V : Type} (k : string) (v v' : V) (d : list (string * V)) :
  dict_set k v (dict_set k v' d) = dict_set k v d.
Proof.
  induction d as [|[k0 v0] d IH]; cbn [dict_set].
  - now rewrite String.eqb_refl.
  - destruct (String.eqb k k0) eqn:E; cbn [dict_set]; rewrite E; [reflexivity|].
    now rewrite IH.
Qed.

Lemma dict_get_In {V : Type} (k : string) (v : V) (d : list (string * V)) :
  dict_get k d = Some v -> In (k, v) d.
Proof.
  induction d as [|[k' v'] d IH]; cbn [dict_get]; [discriminate|].
  destruct (String.eqb k k') eqn:E.
  - apply String.eqb_eq in E. subst k'. intros [= ->]. now left.
  - intros H. right. now apply IH.
Qed.

Lemma dict_get_None {V : Type} (k : string) (d : list (string * V)) :
  dict_get k d = None -> ~ In k (map fst d).
Proof.
  induction d as [|[k' v'] d IH]; cbn [dict_get map fst]; [intros _ []|].
  destruct (String.eqb k k') eqn:E; [discriminate|].
  apply String.eqb_neq in E. intros H [C|C]; [congruence | now apply IH].
Qed.

Lemma dict_set_Forall {V : Type} (P : string * V -> Prop) (k : string) (v : V)
    (d : list (string * V)) :
  Forall P d -> P (k, v) -> Forall P (dict_set k v d).
Proof.
  intros Hd Hv. induction Hd as [|[k' v'] d Hx Hl IH]; cbn [dict_set].
  - constructor; [exact Hv | constructor].
  - destruct (String.eqb k k') eqn:E.
    + apply String.eqb_eq in E. subst k'. now constructor.
    + now constructor.
Qed.

Lemma dict_set_keys {V : Type} (k : string) (v : V) (d : list (string * V)) :
  map fst (dict_set k v d)
  = match dict_get k d with
    | Some _ => map fst d
    | None => map fst d ++ [k]
    end.
Proof.
  induction d as [|[k' v'] d IH]; cbn [dict_set dict_get map fst app]; [reflexivity|].
  destruct (String.eqb k k') eqn:E; cbn [map fst]; [reflexivity|].
  rewrite IH. now destruct (dict_get k d).
Qed.

Lemma NoDup_snoc {A : Type} (l : list A) (x : A) :
  List.NoDup l -> ~ In x l -> List.NoDup (l ++ [x]).
Proof.
  induction 1 as [|y l Hy Hl IH]; intros Hx; cbn [app].
  - constructor; [intros [] | constructor].
  - constructor.
    + intros C. apply in_app_or in C as [C|[C|[]]]; [contradiction|].
      subst y. apply Hx. now left.
    + apply IH. intros C. apply Hx. now right.
Qed.

Lemma dict_set_NoDup {V : Type} (k : string) (v : V) (d : list (string * V)) :
  List.NoDup (map fst d) -> List.NoDup (map fst (dict_set k v d)).
Proof.
  intros Hd. rewrite dict_set_keys. destruct (dict_get k d) eqn:E; [exact Hd|].
  apply dict_get_None in E. now apply NoDup_snoc.
Qed.

Lemma dict_set_nonempty {V : Type} (k : string) (v : V) (d : list (string * V)) :
  dict_set k v d <> [].
Proof. destruct d as [|[k' v'] d]; cbn [dict_set]; [|destruct (String.eqb k k')]; discriminate. Qed.

Lemma dict_set_length {V : Type} (k : string) (v : V) (d : list (string * V)) :
  (length (dict_set k v d) <= S (length d))%nat.
Proof.
  pose proof (f_equal (@length _) (dict_set_keys k v d)) as E.
  rewrite !length_map in E. rewrite E.
  destruct (dict_get k d); [|rewrite length_app, length_map; cbn]; rewrite ?length_map; lia.
Qed.

Lemma consolidate_match_eq (normalize_team : string -> string) (bookmaker : string)
    (d : list (string * ConsolidatedMatch)) (m : ScrapedMatch) :
  let key := _create_match_key normalize_team (sc_home_team m) (sc_away_team m) in
  consolidate_match normalize_team bookmaker d m
  = Ok (dict_set key (entry_with_quote bookmaker m (dict_get key d)) d).
Proof.
  cbv zeta. unfold consolidate_match, entry_with_quote.
  destruct (dict_get _ d) as [c|] eqn:E.
  - rewrite E. reflexivity.
  - rewrite dict_get_set_eq. py_step. cbn [getitem]. py_step.
    cbn [c_home_team c_away_team c_match_time c_odds].
    now rewrite dict_set_set.
Qed.

Lemma entry_with_quote_ok (bookmaker : string) (m : ScrapedMatch)
    (found : option ConsolidatedMatch) :
  (forall c, found = Some c -> well_consolidated c) ->
  well_consolidated (entry_with_quote bookmaker m found).
Proof.
  intros Hf. unfold well_consolidated, entry_with_quote. cbn [c_odds].
  assert (Hq : quote_complete (quote (sc_home_odds m) (sc_away_odds m)))
    by (split; cbn; eauto).
  split; [apply dict_set_nonempty|].
  destruct found as [c|].
  - destruct (Hf c eq_refl) as (_ & Hn & Hc). split.
    + now apply dict_set_NoDup.
    + apply dict_set_Forall; assumption.
  - cbn [c_odds dict_set map fst]. split.
    + constructor; [intros [] | constructor].
    + constructor; [exact Hq | constructor].
Qed.

Lemma consolidate_match_ok (normalize_team : string -> string) (bookmaker : string)
    (d : list (string * ConsolidatedMatch)) (m : ScrapedMatch) :
  consolidated_ok normalize_team d ->
  exists d',
    consolidate_match normalize_team bookmaker d m = Ok d' /\
    consolidated_ok normalize_team d' /\
    (length d' <= S (length d))%nat.
Proof.
  intros [[Hn Hk] Hw]. rewrite consolidate_match_eq. eexists. split; [reflexivity|].
  set (key := _create_match_key normalize_team (sc_home_team m) (sc_away_team m)).
  split; [|apply dict_set_length]. split; [split|].
  - now apply dict_set_NoDup.
  - apply dict_set_Forall; [exact Hk|]. cbn [fst snd].
    unfold entry_with_quote. cbn [c_home_team c_away_team].
    destruct (dict_get key d) as [c|] eqn:E; [|reflexivity].
    apply dict_get_In in E. rewrite List.Forall_forall in Hk.
    exact (Hk _ E).
  - apply dict_set_Forall; [exact Hw|]. cbn [snd].
    apply entry_with_quote_ok. intros c E.
    apply dict_get_In in E. rewrite List.Forall_forall in Hw.
    exact (Hw _ E).
Qed.

Lemma consolidate_matches_ok (normalize_team : string -> string) (bookmaker : string)
    (matches : list ScrapedMatch) (d : list (string * ConsolidatedMatch)) :
  consolidated_ok normalize_team d ->
  exists d',
    consolidate_matches normalize_team bookmaker matches d = Ok d' /\
    consolidated_ok normalize_team d' /\
    (length d' <= length d + length matches)%nat.
Proof.
  revert d. induction matches as [|m matches IH]; intros d Hd.
  - exists d. cbn. repeat split; try apply Hd. lia.
  - destruct (consolidate_match_ok normalize_team bookmaker d m Hd) as (d1 & E1 & H1 & L1).
    destruct (IH d1 H1) as (d' & E & H' & L).
    exists d'. cbn [consolidate_matches]. rewrite E1. py_step.
    split; [exact E|]. split; [exact H'|]. cbn [length]. lia.
Qed.

Lemma consolidate_books_ok (normalize_team : string -> string)
    (all_odds : list (string * list ScrapedMatch)) (d : list (string * ConsolidatedMatch)) :
  consolidated_ok normalize_team d ->
  exists d',
    consolidate_books normalize_team all_odds d = Ok d' /\
    consolidated_ok normalize_team d' /\
    (length d' <= length d + scraped_count all_odds)%nat.
Proof.
  revert d. induction all_odds as [|[bk ms] all_odds IH]; intros d Hd.
  - exists d. cbn. repeat split; try apply Hd. lia.
  - destruct (consolidate_matches_ok normalize_team bk ms d Hd) as (d1 & E1 & H1 & L1).
    destruct (IH d1 H1) as (d' & E & H' & L).
    exists d'. cbn [consolidate_books]. rewrite E1. py_step.
    split; [exact E|]. split; [exact H'|].
    unfold scraped_count in *. cbn [map snd concat]. rewrite length_app. lia.
Qed.

Lemma consolidate_odds_ok (normalize_team : string -> string)
    (all_odds : list (string * list ScrapedMatch)) :
  exists out,
    consolidate_odds normalize_team all_odds = Ok out /\
    Forall well_consolidated out /\
    List.NoDup (map (fun c => _create_match_key normalize_team
                                (c_home_team c) (c_away_team c)) out) /\
    (length out <= scraped_count all_odds)%nat.
Proof.
  destruct (consolidate_books_ok normalize_team all_odds [])
    as (d & E & [[Hn Hk] Hw] & L).
  { split; [split|]; constructor. }
  exists (map snd d). unfold consolidate_odds. rewrite E. py_step.
  split; [reflexivity|]. split; [|split].
  - rewrite List.Forall_map. exact Hw.
  - rewrite map_map.
    assert (Em : map (fun x => _create_match_key normalize_team
                                 (c_home_team (snd x)) (c_away_team (snd x))) d
                 = map fst d).
    { clear -Hk. induction Hk as [|kc d Hx _ IH]; [reflexivity|].
      cbn [map]. now rewrite IH, Hx. }
    rewrite Em. exact Hn.
  - rewrite length_map. cbn [length] in L. lia.
Qed.

(** X13.  [consolidate_odds] raises nothing, whatever the scraped entries
    are.  Every match it returns has at least one quote, at most one quote
    per bookmaker and both prices in every quote; no two returned matches
    have the same match key; and there are at most as many matches as
    scraped entries. *)
Theorem consolidate_odds_invariants (normalize_team : string -> string)
    (all_odds : list (string * list ScrapedMatch)) :
  exists out,
    consolidate_odds normalize_team all_odds = Ok out /\
    Forall well_consolidated out /\
    List.NoDup (map (fun c => _create_match_key normalize_team
                                (c_home_team c) (c_away_team c)) out) /\
    (length out <= scraped_count all_odds)%nat.
Proof. exact (consolidate_odds_ok normalize_team all_odds). Qed.

(** ** From the scraper to the detectors *)













(** ** Listings in the opposite order *)

Lemma sorted2_sym (x y : string) : sorted2 x y = sorted2 y x.
Proof.
  unfold sorted2, String.ltb. rewrite (String.compare_antisym x y).
  destruct (String.compare y x) eqn:E; cbn [CompOpp]; try reflexivity.
  apply String.compare_eq_iff in E. now subst.
Qed.

Lemma create_match_key_sym (normalize_team : string -> string) (home_team away_team : string) :
  _create_match_key normalize_team home_team away_team
  = _create_match_key normalize_team away_team home_team.
Proof.
  unfold _create_match_key. now rewrite sorted2_sym.
Qed.

(** X16.  The match key does not depend on which team is listed as home.
    Hence a bookmaker that lists a game with the teams in the opposite
    order is merged into the entry created by the first listing, and its
    prices are stored as they come: its home price, which is the price of
    the entry's away team, becomes the 'home' price of its quote. *)
Theorem reversed_listing_merged (normalize_team : string -> string)
    (bk1 bk2 : string) (m1 m2 : ScrapedMatch) :
  bk1 <> bk2 ->
  sc_home_team m2 = sc_away_team m1 -> sc_away_team m2 = sc_home_team m1 ->
  _create_match_key normalize_team (sc_home_team m2) (sc_away_team m2)
  = _create_match_key normalize_team (sc_home_team m1) (sc_away_team m1) /\
  consolidate_odds normalize_team [(bk1, [m1]); (bk2, [m2])]
  = Ok [ {| c_home_team := sc_home_team m1;
            c_away_team := sc_away_team m1;
            c_match_time := sc_match_time m1;
            c_odds := [(bk1, quote (sc_home_odds m1) (sc_away_odds m1));
                       (bk2, quote (sc_home_odds m2) (sc_away_odds m2))] |} ].
Proof.
  intros Hne Hh Ha.
  assert (Ek : _create_match_key normalize_team (sc_home_team m2) (sc_away_team m2)
               = _create_match_key normalize_team (sc_home_team m1) (sc_away_team m1)).
  { rewrite Hh, Ha. apply create_match_key_sym. }
  split; [exact Ek|].
  unfold consolidate_odds. cbn [consolidate_books consolidate_matches].
  rewrite consolidate_match_eq. py_step.
  rewrite consolidate_match_eq. py_step. rewrite Ek.
  cbn [dict_get dict_set]. rewrite String.eqb_refl.
  unfold entry_with_quote.
  cbn [c_home_team c_away_team c_match_time c_odds dict_set map snd].
  assert (En : String.eqb bk2 bk1 = false).
  { apply String.eqb_neq. congruence. }
  now rewrite En.
Qed.

Lemma reversed_listing_merged_witness :
  exists c opp e,
    consolidate_odds (fun team => team) two_listings = Ok [c] /\
    c_home_team c = "Cats" /\
    calculate_arbitrage_opportunities default_finder [as_match c] = Ok [opp] /\
    stake_distribution opp !! Some "ladbrokes" = Some e /\
    team e = "Cats" /\ (odds e == 2.60)%Q.
Proof.
  destruct (reversed_listing_merged (fun team => team) "sportsbet" "ladbrokes"
              (mkScraped "Cats" "Swans" 1.50 2.50 None "sportsbet")
              (mkScraped "Swans" "Cats" 2.60 1.45 None "ladbrokes")
              ltac:(discriminate) eq_refl eq_refl) as [_ E].
  eexists _, _, _. split; [exact E|]. split; [reflexivity|].
  cbn [as_match c_home_team c_away_team c_match_time c_odds
       sc_home_team sc_away_team sc_home_odds sc_away_odds sc_match_time].
  set (r := calculate_arbitrage_opportunities _ _). vm_compute in (value of r).
  subst r. split; [reflexivity|]. split; [vm_compute; reflexivity|].
  split; [reflexivity | reflexivity].
Defined.

(** ** A single bookmaker *)





(** ** Nothing scraped is dropped *)







(** * The detectors in binary64 *)

Local Set Warnings "-inexact-float".
Local Open Scope float_scope.

(** ** Comparisons of floats *)

Lemma gt_zero_nonzero (x : float) : B64.gt x 0 = true -> (x =? 0) = false.
Proof.
  unfold B64.gt. rewrite FloatAxioms.ltb_spec, FloatAxioms.eqb_spec.
  destruct (Prim2SF x) as [s|s| |s m e]; try destruct s; cbn;
    try reflexivity; try discriminate.
Qed.







Lemma b64_py_div_ok (x y : float) : (y =? 0) = false -> B64.py_div x y = Ok (x / y).
Proof. intros E. unfold B64.py_div. now rewrite E. Qed.


Ltac b64_step :=
  repeat first
    [ rewrite bind_Ok
    | rewrite bind_Raise
    | progress (unfold mret, result_ret)
    | progress (cbn [getitem B64.home B64.away fst snd])
    | progress (cbv beta) ].


(** ** Best prices *)




(** ** Arbitrage detector *)











(** ** Value-bet detector *)

Lemma b64_create_value_bet_ok (self : B64.AFLOpportunityFinder)
    (mn ht aw : string) (side : Side) (quoted : float) (bk : string) (vp : float) :
  (quoted - 1 =? 0) = false -> (B64.stake_of self quoted vp =? 0) = false ->
  exists opp,
    B64._create_value_bet self mn ht aw side quoted bk vp = Ok opp /\
    B64.opportunity_type opp = value_bet /\
    B64.profit_percentage opp = vp /\
    (exists e, B64.stake_distribution opp !! Some bk = Some e /\
               B64.odds e = quoted /\
               B64.amount e = B64.py_round2 (B64.stake_of self quoted vp)) /\
    B64.total_stake opp = B64.py_round2 (B64.stake_of self quoted vp) /\
    B64.roi opp
    = B64.stake_of self quoted vp * (quoted - 1) / B64.stake_of self quoted vp * 100.
Proof.
  intros Hq Hs. unfold B64.stake_of in *.
  unfold B64._create_value_bet, B64.value_bet_locals. cbv zeta.
  rewrite (b64_py_div_ok (vp / 100) (quoted - 1)) by assumption. b64_step.
  rewrite b64_py_div_ok by assumption. b64_step.
  eexists. split; [reflexivity|].
  cbn [B64.opportunity_type B64.profit_percentage B64.stake_distribution
       B64.total_stake B64.roi B64.v_stake B64.v_roi B64.v_potential_profit].
  split; [reflexivity|]. split; [reflexivity|]. split; [|split; reflexivity].
  eexists. split; [apply lookup_insert_eq|]. split; reflexivity.
Qed.

Lemma b64_value_bet_for_side_spec (self : B64.AFLOpportunityFinder)
    (mn ht aw : string) (side : Side) (bk : string) (quoted fo : float) :
  (fo =? 0) = false ->
  (B64.value_condition self quoted fo = true ->
   B64.value_divisors_nonzero self quoted fo = true) ->
  exists out,
    B64.value_bet_for_side self mn ht aw side bk quoted fo = Ok out /\
    B64.side_emission self bk quoted fo out.
Proof.
  intros Hfo Hd.
  unfold B64.value_bet_for_side, B64.side_emission.
  unfold B64.value_condition in *.
  destruct (B64.gt quoted (fo * 1.05)) eqn:G; cbn [andb] in *.
  - rewrite b64_py_div_ok by assumption. b64_step.
    change ((quoted / fo - 1) * 100) with (B64.value_percentage_of quoted fo).
    destruct (B64.ge (B64.value_percentage_of quoted fo) (B64.min_profit_percentage self))
      eqn:G2.
    + specialize (Hd eq_refl). unfold B64.value_divisors_nonzero in Hd.
      apply andb_prop in Hd as [Hd1 Hd2]. apply negb_true_iff in Hd1, Hd2.
      destruct (b64_create_value_bet_ok self mn ht aw side quoted bk
                  (B64.value_percentage_of quoted fo) Hd1 Hd2)
        as (opp & E & Ty & Pp & He & Ts & Hr).
      rewrite E. b64_step. exists [opp]. split; [reflexivity|].
      exists opp. split; [reflexivity|].
      unfold B64.value_bet_on. cbv zeta. now repeat split.
    + b64_step. exists []. split; reflexivity.
  - b64_step. exists []. split; reflexivity.
Qed.

Lemma b64_value_bet_book_loop_spec (self : B64.AFLOpportunityFinder)
    (mn ht aw : string) (foh foa : float) (items : B64.OddsDict) :
  (foh =? 0) = false -> (foa =? 0) = false ->
  B64.quotes_complete items -> Forall (B64.quote_sized self foh foa) items ->
  forall acc, exists emitted,
    B64.value_bet_book_loop self mn ht aw foh foa items acc = Ok (acc ++ concat emitted) /\
    Forall2 (B64.quote_emission self foh foa) items emitted.
Proof.
  intros Hh Ha Hc. induction Hc as [|[bk q] items Hq Hc IH]; intros Hs acc.
  - exists []. cbn [B64.value_bet_book_loop concat]. rewrite app_nil_r.
    split; [reflexivity | constructor].
  - apply List.Forall_cons_iff in Hs as [Hs1 Hs].
    destruct Hq as [[h Eh] [a Ea]]. cbn [snd] in Eh, Ea.
    destruct (Hs1 h a Eh Ea) as [Sh Sa].
    destruct (b64_value_bet_for_side_spec self mn ht aw side_home bk h foh Hh Sh)
      as (oh & Eoh & Hoh).
    destruct (b64_value_bet_for_side_spec self mn ht aw side_away bk a foa Ha Sa)
      as (oa & Eoa & Hoa).
    destruct (IH Hs (acc ++ oh ++ oa)) as (emitted & E & F).
    exists ((oh ++ oa) :: emitted). split.
    + cbn [B64.value_bet_book_loop]. rewrite Eh. b64_step. rewrite Eoh. b64_step.
      rewrite Ea. b64_step. rewrite Eoa. b64_step. rewrite E.
      cbn [concat]. now rewrite <- !app_assoc.
    + constructor; [|exact F]. exists h, a, oh, oa. now repeat split.
Qed.

Lemma b64_value_bets_single (alg : B64.Summation) (self : B64.AFLOpportunityFinder)
    (m : B64.Match) :
  B64.calculate_value_bets alg self [m] = B64.value_bets_for_match alg self m.
Proof.
  unfold B64.calculate_value_bets. cbn [B64.value_bet_loop].
  destruct (B64.value_bets_for_match alg self m) as [new|e]; reflexivity.
Qed.

(** C5 (amended).  For a match whose quotes carry both prices and for
    which the estimator returns positive fair probabilities, the binary64
    detector returns, quote by quote and home before away, one value bet
    for a (bookmaker, side) pair if and only if the two tests of the
    program pass on the values it computes, quoted > fair_odds * 1.05 and
    value_percentage = ((quoted / fair_odds) - 1) * 100
    >= min_profit_percentage, with fair_odds = 1 / fair probability, and
    nothing for a pair failing either test; this provided that no divisor
    is zero: the fair odds, and for a price passing the tests,
    quoted - 1 and the stake. *)
Theorem computed_value_bets_emitted_iff (alg : B64.Summation)
    (self : B64.AFLOpportunityFinder) (ht aw : string) (mt : option string)
    (items : B64.OddsDict) (ph pa : float) :
  B64.quotes_complete items ->
  B64._calculate_fair_probabilities alg items = Ok (ph, pa) ->
  B64.gt ph 0 = true -> B64.gt pa 0 = true ->
  (1 / ph =? 0) = false -> (1 / pa =? 0) = false ->
  Forall (B64.quote_sized self (1 / ph) (1 / pa)) items ->
  exists emitted,
    B64.calculate_value_bets alg self [B64.mkMatch (Some ht) (Some aw) mt (Some items)]
      = Ok (concat emitted) /\
    Forall2 (B64.quote_emission self (1 / ph) (1 / pa)) items emitted.
Proof.
  intros Hc Ef Hph Hpa Hfh Hfa Hs.
  rewrite b64_value_bets_single.
  unfold B64.value_bets_for_match. cbn [B64.m_home_team B64.m_away_team B64.m_odds].
  b64_step. rewrite Ef. b64_step. cbv beta iota.
  unfold B64.fair_odds_of. rewrite Hph, Hpa.
  rewrite (b64_py_div_ok 1 ph) by now apply gt_zero_nonzero. b64_step.
  rewrite (b64_py_div_ok 1 pa) by now apply gt_zero_nonzero. b64_step.
  destruct (b64_value_bet_book_loop_spec self (ht +:+ " vs " +:+ aw) ht aw
              (1 / ph) (1 / pa) items Hfh Hfa Hc Hs []) as (emitted & E & F).
  exists emitted. split; [exact E | exact F].
Qed.

Lemma computed_value_bets_emitted_iff_witness :
  exists emitted,
    B64.calculate_value_bets B64.compensated B64.default_finder
      [B64.mkMatch (Some "Cats") (Some "Swans") None (Some B64.at_buffer)]
      = Ok (concat emitted) /\
    Forall2 (B64.quote_emission B64.default_finder
               (1 / 0.70000000000000007) (1 / 0.30000000000000004))
            B64.at_buffer emitted.
Proof.
  apply (computed_value_bets_emitted_iff B64.compensated B64.default_finder
           "Cats" "Swans" None B64.at_buffer 0.70000000000000007 0.30000000000000004).
  - repeat constructor; cbn; eauto.
  - vm_compute; reflexivity.
  - reflexivity.
  - reflexivity.
  - reflexivity.
  - reflexivity.
  - unfold B64.at_buffer.
    apply List.Forall_cons; [|apply List.Forall_cons; [|apply List.Forall_nil]];
      intros h a Hh Ha; injection Hh as <-; injection Ha as <-;
      split; intros _; vm_compute; reflexivity.
Defined.

(** The divisors that the two theorems above require not to be zero can
    be zero on positive inputs.  With both best prices infinite,
    total_prob is 0, which is below 1.0; with a bankroll of 5e-324, the
    smallest positive float, every stake underflows to 0.  The detectors
    then raise ZeroDivisionError. *)
Lemma computed_zero_divisors_raise :
  B64.gt infinity 0 = true /\
  B64.ge (B64.total_prob_of infinity infinity) 1.0 = false /\
  B64.arbitrage_divisors_nonzero B64.default_finder infinity infinity = false /\
  B64.calculate_arbitrage_opportunities B64.default_finder
    [B64.game "Cats" "Swans" [("sportsbet", B64.quote infinity infinity)]]
    = Raise ZeroDivisionError /\
  B64.gt (B64.bankroll (B64.__init__ 5e-324 1.0 25.0)) 0 = true /\
  (B64.total_stake_of (B64.__init__ 5e-324 1.0 25.0) =? 0) = true /\
  B64.calculate_arbitrage_opportunities (B64.__init__ 5e-324 1.0 25.0)
    [B64.game "Cats" "Swans" B64.scenario1] = Raise ZeroDivisionError /\
  B64.calculate_value_bets B64.compensated (B64.__init__ 5e-324 1.0 25.0)
    [B64.game "Cats" "Swans" B64.at_buffer] = Raise ZeroDivisionError.
Proof.
  repeat split; vm_compute; reflexivity.
Qed.

(** C5 as stated fails at the buffer.  The detector on two bookmakers
    whose de-margined home probabilities are 0.8 and 0.6: the fair home
    probability is 0.7 and fair odds times 1.05 are 1.5 in exact
    arithmetic, so that the home price 1.5 of the first bookmaker does not
    exceed the buffer, and the detector run on rationals returns the two
    other bets.  In binary64 the fair probability comes out as
    0.70000000000000007 and the threshold as 1.4999999999999998: the price
    1.5 passes both tests and a third bet is emitted. *)
Lemma value_bet_inside_buffer_emitted :
  (exists ph pa,
     _calculate_fair_probabilities at_buffer = Ok (ph, pa) /\
     (ph == 7 # 10)%Q /\ (1 / ph * 1.05 == 3 # 2)%Q /\
     ~ value_condition default_finder (3 # 2) (1 / ph)) /\
  (exists o1 o2 e1 e2,
     calculate_value_bets default_finder [game "Cats" "Swans" at_buffer] = Ok [o1; o2] /\
     stake_distribution o1 !! Some "sportsbet" = Some e1 /\ team e1 = "Swans" /\
     stake_distribution o2 !! Some "ladbrokes" = Some e2 /\ team e2 = "Cats") /\
  B64.represents 1.5 (3 # 2) = true /\
  B64._calculate_fair_probabilities B64.left_to_right B64.at_buffer
    = Ok (0.70000000000000007, 0.30000000000000004) /\
  B64._calculate_fair_probabilities B64.compensated B64.at_buffer
    = Ok (0.70000000000000007, 0.30000000000000004) /\
  1 / 0.70000000000000007 * 1.05 = 1.4999999999999998 /\
  B64.value_condition B64.default_finder 1.5 (1 / 0.70000000000000007) = true /\
  (exists o1 o2 o3 e,
     B64.calculate_value_bets B64.left_to_right B64.default_finder
       [B64.game "Cats" "Swans" B64.at_buffer] = Ok [o1; o2; o3] /\
     B64.calculate_value_bets B64.compensated B64.default_finder
       [B64.game "Cats" "Swans" B64.at_buffer] = Ok [o1; o2; o3] /\
     B64.stake_distribution o1 !! Some "sportsbet" = Some e /\
     B64.team e = "Cats" /\ B64.odds e = 1.5).
Proof.
  split.
  { set (r := _calculate_fair_probabilities at_buffer). vm_compute in (value of r).
    subst r. eexists _, _. split; [reflexivity|].
    split; [reflexivity|]. split; [reflexivity|].
    intros [C _]. vm_compute in C. discriminate C. }
  split.
  { set (r := calculate_value_bets _ _). vm_compute in (value of r). subst r.
    eexists _, _, _, _. split; [reflexivity|].
    repeat split; vm_compute; reflexivity. }
  split; [vm_compute; reflexivity|]. split; [vm_compute; reflexivity|].
  split; [vm_compute; reflexivity|]. split; [vm_compute; reflexivity|].
  split; [vm_compute; reflexivity|].
  set (r := B64.calculate_value_bets B64.left_to_right _ _). vm_compute in (value of r).
  set (r' := B64.calculate_value_bets B64.compensated _ _). vm_compute in (value of r').
  subst r r'. eexists _, _, _, _. split; [reflexivity|]. split; [reflexivity|].
  repeat split; vm_compute; reflexivity.
Qed.

(** C8 as stated fails on the stored value.  The detector on two matches
    with a home price of 1.75 at the first bookmaker, under the
    configuration of [main]: (1.75 - 1) * 100 is 75, and the program
    computes roi = (stake * 0.75 / stake) * 100 with a stake of 23.558...
    in the first match and 23.194... in the second one, and stores
    75.000000000000014 and 74.999999999999986.  In binary64 the roi is not
    exactly (quoted_odds - 1) * 100 and it varies with the stake. *)
Lemma computed_roi_varies_with_stake :
  B64.represents 1.75 (7 # 4) = true /\ (((7 # 4) - 1) * 100 == 75)%Q /\
  (1.75 - 1) * 100 = 75 /\
  exists o1 o2 o3 e1 e3,
    B64.calculate_value_bets B64.left_to_right B64.default_finder B64.same_price
      = Ok [o1; o2; o3] /\
    B64.calculate_value_bets B64.compensated B64.default_finder B64.same_price
      = Ok [o1; o2; o3] /\
    B64.stake_distribution o1 !! Some "sportsbet" = Some e1 /\ B64.odds e1 = 1.75 /\
    B64.stake_distribution o3 !! Some "sportsbet" = Some e3 /\ B64.odds e3 = 1.75 /\
    B64.amount e1 = 23.56 /\ B64.amount e3 = 23.19 /\
    B64.roi o1 = 75.000000000000014 /\ B64.roi o3 = 74.999999999999986 /\
    B64.represents (B64.roi o1) 75 = false /\
    B64.represents (B64.roi o3) 75 = false.
Proof.
  split; [vm_compute; reflexivity|]. split; [reflexivity|].
  split; [vm_compute; reflexivity|].
  set (r := B64.calculate_value_bets B64.left_to_right _ _). vm_compute in (value of r).
  set (r' := B64.calculate_value_bets B64.compensated _ _). vm_compute in (value of r').
  subst r r'. eexists _, _, _, _, _. split; [reflexivity|]. split; [reflexivity|].
  repeat split; vm_compute; reflexivity.
Qed.

(** ** Fair-odds estimator *)

Lemma b64_demargin_invalid (q : B64.Quote) :
  B64.quote_complete q -> B64.quote_valid q = false -> B64.demargin q = Ok None.
Proof.
  intros [[h Eh] [a Ea]]. destruct q as [qh qa]. cbn in Eh, Ea. subst qh qa.
  unfold B64.quote_valid, B64.demargin. cbn [B64.home B64.away]. b64_step.
  destruct (B64.gt h 0); cbn [andb]; b64_step; [|reflexivity].
  intros ->. reflexivity.
Qed.

Lemma b64_fair_loop_no_valid (items : B64.OddsDict) :
  B64.quotes_complete items -> B64.has_valid_quote items = false ->
  forall hp ap, B64.fair_loop items hp ap = Ok (hp, ap).
Proof.
  intros Hc. induction Hc as [|[bk q] items Hq Hc IH]; intros Hv hp ap.
  - reflexivity.
  - unfold B64.has_valid_quote in Hv. cbn [existsb snd] in Hv.
    apply orb_false_elim in Hv as [Hv1 Hv2].
    cbn [B64.fair_loop]. rewrite (b64_demargin_invalid q Hq Hv1). b64_step.
    now apply IH.
Qed.

Lemma b64_no_valid_quote_zero (alg : B64.Summation) (items : B64.OddsDict) :
  B64.quotes_complete items -> B64.has_valid_quote items = false ->
  B64._calculate_fair_probabilities alg items = Ok (0, 0).
Proof.
  intros Hc Hv. unfold B64._calculate_fair_probabilities.
  now rewrite (b64_fair_loop_no_valid items Hc Hv).
Qed.

(** C9 (amended).  In exact arithmetic, for a bookmaker quote with
    positive home and away odds the de-margined pair
    ((1/h)/(1/h+1/a), (1/a)/(1/h+1/a)) appended by the estimator sums
    to 1, and for an odds mapping whose quotes carry both prices the
    estimator returns a pair that sums to 1 when at least one bookmaker
    supplies positive odds for both sides.  The estimator returns (0, 0)
    when no bookmaker does, in exact arithmetic and in binary64, with
    either summation. *)
Theorem fair_probabilities_sum_to_one (items : OddsDict) :
  quotes_complete items ->
  (forall h a : Q, (0 < h)%Q -> (0 < a)%Q ->
     exists hn an,
       demargin (quote h a) = Ok (Some (hn, an)) /\
       hn = ((1 / h) / (1 / h + 1 / a))%Q /\
       an = ((1 / a) / (1 / h + 1 / a))%Q /\
       (hn + an == 1)%Q) /\
  (exists ph pa,
     _calculate_fair_probabilities items = Ok (ph, pa) /\
     if has_valid_quote items then (ph + pa == 1)%Q else ph = 0%Q /\ pa = 0%Q) /\
  (forall (alg : B64.Summation) (computed : B64.OddsDict),
     B64.quotes_complete computed -> B64.has_valid_quote computed = false ->
     B64._calculate_fair_probabilities alg computed = Ok (0, 0)).
Proof.
  intros Hc. split; [|split].
  - intros h a Hh Ha. eexists _, _. split; [now apply demargin_valid|].
    split; [reflexivity|]. split; [reflexivity|]. now apply demargin_sum.
  - destruct (fair_probabilities_spec items Hc) as (ph & pa & E & S).
    exists ph, pa. split; [exact E|].
    destruct (has_valid_quote items); [apply S | exact S].
  - intros alg computed. apply b64_no_valid_quote_zero.
Qed.

Lemma fair_probabilities_sum_to_one_witness :
  exists ph pa,
    _calculate_fair_probabilities
      [("sportsbet", quote 2.10 2.05); ("ladbrokes", quote 1.95 2.20)] = Ok (ph, pa) /\
    (ph + pa == 1)%Q.
Proof.
  destruct (fair_probabilities_sum_to_one _ scenario1_complete)
    as (_ & (ph & pa & E & S) & _).
  exists ph, pa. split; [exact E | exact S].
Defined.

(** C9 as stated fails on the computed sums.  The estimator on the single
    quote (1.25, 1.5): the two quotients by the total of the implied
    probabilities are 0.54545454545454541 and 0.45454545454545447, which
    add up to 0.99999999999999989.  In binary64 the de-margined pair, and
    the averaged pair that the estimator returns, do not sum to
    exactly 1. *)
Lemma computed_pair_sum_below_one :
  exists hn an,
    B64.demargin (B64.quote 1.25 1.5) = Ok (Some (hn, an)) /\
    B64._calculate_fair_probabilities B64.left_to_right B64.short_priced = Ok (hn, an) /\
    B64._calculate_fair_probabilities B64.compensated B64.short_priced = Ok (hn, an) /\
    hn + an = 0.99999999999999989 /\
    (hn + an =? 1) = false /\ B64.gt 1 (hn + an) = true.
Proof.
  exists 0.54545454545454541, 0.45454545454545447.
  repeat split; vm_compute; reflexivity.
Qed.
